(** * GitLab issue aggregation and AI summarisation pipeline

    A shallow embedding of [fetch_gitlab_issues.py] and [app.py]: the
    aggregator that merges the assignee and author result sets, the per-issue
    comment fetcher, the provider registry with its process-wide cache, the
    prompt builders and the summarisers, followed by the properties of the
    pipeline.

    Conventions.
    - A Python [str] is a [string]; one [ascii] stands for the character of
      that code point, so a text is made of the first 256 code points, and the
      character classes ([isdigit], [strip], [lower]) are Python's on them.
    - Python [None] is [None].  A key of a JSON object read with a default is
      a [JField]: absent, [null] or present; a key read without a default is
      an [option], [None] for absent or [null].  A value that is present and
      not [null] has the type the data model declares for it.
    - The issue tracker, the LLM providers and the process environment are
      collaborators: they are the fields of a [World], each a function of the
      request it receives.
    - Effects are explicit: a computation threads the process state (the cached
      provider client and the trace of prints and remote calls) and ends with
      a value or a raised exception. *)

From Stdlib Require Import Ascii String QArith.
From stdpp Require Import base decidable option list numbers strings pretty gmap.

Local Open Scope Z_scope.

(** ** Python text *)

Module Py.

(** The line feed and the double quote, built from their codes. *)
Definition nl : string := String (ascii_of_nat 10) EmptyString.
Definition dquote : string := String (ascii_of_nat 34) EmptyString.

(** Truthiness of a [str]: exactly the non-empty ones. *)
Definition truthy (s : string) : bool :=
  match s with EmptyString => false | String _ _ => true end.

(** Truthiness of a value that may be [None]. *)
Definition truthy_opt (o : option string) : bool :=
  match o with Some s => truthy s | None => false end.

(** [a or b] on optional text. *)
Definition or_else (a b : option string) : option string :=
  if truthy_opt a then a else b.

(** [len(s)]. *)
Definition len (s : string) : nat := String.length s.

(** [s[:n]]. *)
Fixpoint take (n : nat) (s : string) : string :=
  match n, s with
  | S k, String c r => String c (take k r)
  | _, _ => EmptyString
  end.

Fixpoint drop (n : nat) (s : string) : string :=
  match n, s with
  | S k, String _ r => drop k r
  | _, _ => s
  end.

(** [s.startswith(p)]. *)
Fixpoint startswith (p s : string) : bool :=
  match p, s with
  | EmptyString, _ => true
  | String a p', String b s' => if decide (a = b) then startswith p' s' else false
  | String _ _, EmptyString => false
  end.

(** [s.replace(old, new)] for a non-empty [old]: left to right, every
    non-overlapping occurrence.  [skip] counts the characters of a matched
    occurrence that are still to be dropped. *)
Fixpoint replace_go (old new : string) (skip : nat) (s : string) : string :=
  match s with
  | EmptyString => EmptyString
  | String c r =>
      match skip with
      | S k => replace_go old new k r
      | O =>
          if startswith old s
          then new +:+ replace_go old new (len old - 1) r
          else String c (replace_go old new 0 r)
      end
  end.
Definition replace (old new s : string) : string := replace_go old new 0 s.

(** The decimal digits [0] to [9]. *)
Definition is_decimal (c : ascii) : bool :=
  let n := nat_of_ascii c in (48 <=? n)%nat && (n <=? 57)%nat.

(** [c.isdigit()] for one character: the decimal digits, and the superscript
    two, three and one (code points 178, 179 and 185). *)
Definition is_digit (c : ascii) : bool :=
  let n := nat_of_ascii c in
  is_decimal c || (n =? 178)%nat || (n =? 179)%nat || (n =? 185)%nat.

Fixpoint all_digits (s : string) : bool :=
  match s with
  | EmptyString => true
  | String c r => is_digit c && all_digits r
  end.

Fixpoint all_decimal (s : string) : bool :=
  match s with
  | EmptyString => true
  | String c r => is_decimal c && all_decimal r
  end.

(** [s.isdigit()]: non-empty and made of digit characters. *)
Definition isdigit (s : string) : bool := truthy s && all_digits s.

(** The number written by a string of decimal digits. *)
Fixpoint int_go (acc : Z) (s : string) : Z :=
  match s with
  | EmptyString => acc
  | String c r => int_go (10 * acc + (Z.of_nat (nat_of_ascii c) - 48)) r
  end.

(** [int(s)] for a text that passed [isdigit], the only ones the code
    converts: the number when every character is a decimal digit, and
    [None], for the [ValueError] that [int] raises, when a superscript digit
    occurs. *)
Definition int (s : string) : option Z :=
  if truthy s && all_decimal s then Some (int_go 0 s) else None.

(** Whitespace removed by [str.strip()]: the ASCII whitespace, the four
    separators 28 to 31, the next-line character 133 and the no-break space
    160. *)
Definition is_space (c : ascii) : bool :=
  let n := nat_of_ascii c in
  ((9 <=? n)%nat && (n <=? 13)%nat) || ((28 <=? n)%nat && (n <=? 32)%nat)
  || (n =? 133)%nat || (n =? 160)%nat.

Fixpoint lstrip (s : string) : string :=
  match s with
  | String c r => if is_space c then lstrip r else s
  | EmptyString => EmptyString
  end.

Fixpoint rstrip (s : string) : string :=
  match s with
  | EmptyString => EmptyString
  | String c r =>
      match rstrip r with
      | EmptyString => if is_space c then EmptyString else String c EmptyString
      | r' => String c r'
      end
  end.

Definition strip (s : string) : string := rstrip (lstrip s).

(** The lower case of one character: the letters [A] to [Z], and the
    accented capitals 192 to 222 but for the multiplication sign 215. *)
Definition lower_char (c : ascii) : ascii :=
  let n := nat_of_ascii c in
  if ((65 <=? n)%nat && (n <=? 90)%nat)
     || ((192 <=? n)%nat && (n <=? 222)%nat && negb (n =? 215)%nat)
  then ascii_of_nat (n + 32) else c.

(** [s.lower()]. *)
Fixpoint lower (s : string) : string :=
  match s with
  | EmptyString => EmptyString
  | String c r => String (lower_char c) (lower r)
  end.

(** [sep.join(parts)]. *)
Fixpoint join (sep : string) (parts : list string) : string :=
  match parts with
  | [] => EmptyString
  | [p] => p
  | p :: rest => p +:+ sep +:+ join sep rest
  end.

(** [str(n)] for an integer, and for an integer that may be [None]. *)
Definition str_int (z : Z) : string := pretty z.
Definition str_nat (n : nat) : string := pretty n.
Definition str_opt_int (o : option Z) : string :=
  match o with Some z => str_int z | None => "None" end.

(** [str(s)] for a text that may be [None], as an f-string renders it. *)
Definition str_opt (o : option string) : string :=
  match o with Some s => s | None => "None" end.

End Py.

(** ** Data model *)

(** An embedded user reference: the [author] and [assignee] dictionaries. *)
Record UserRef := { username : string; name : string }.

(** One entry of [issue.comments]: the dictionary built from a note, with its
    [llm_summary] key when a summary was requested, or the dictionary holding
    the single key [error]. *)
Inductive Comment :=
| CNote (id : Z) (author body created_at : string) (llm_summary : option string)
| CError (error : string).

(** [c.get('body')] and [c.get('author', 'unknown')]. *)
Definition comment_body (c : Comment) : option string :=
  match c with CNote _ _ b _ _ => Some b | CError _ => None end.
Definition comment_author (c : Comment) : string :=
  match c with CNote _ a _ _ _ => a | CError _ => "unknown" end.

(** A note as the tracker returns it. *)
Record Note := {
  note_id : Z; note_author : UserRef; note_body : string; note_created_at : string }.

(** An issue object of the tracker client.  [comments] is [None] until the
    attribute is assigned by the fetch. *)
Record Issue := {
  iid : Z;
  id : Z;
  title : string;
  state : string;
  created_at : string;
  updated_at : string;
  closed_at : option string;
  author : UserRef;
  assignee : option UserRef;
  web_url : string;
  description : option string;
  comments : option (list Comment) }.

(** [issue.comments = cs]. *)
Definition set_comments (i : Issue) (cs : list Comment) : Issue :=
  {| iid := iid i; id := id i; title := title i; state := state i;
     created_at := created_at i; updated_at := updated_at i;
     closed_at := closed_at i; author := author i; assignee := assignee i;
     web_url := web_url i; description := description i;
     comments := Some cs |}.

(** A key of a JSON object whose value may be absent, [null] or present. *)
Inductive JField (A : Type) := JAbsent | JNull | JVal (a : A).
Arguments JAbsent {A}.
Arguments JNull {A}.
Arguments JVal {A} a.

(** [d.get(key, default)]: the default only replaces an absent key. *)
Definition jget {A} (f : JField A) (default : option A) : option A :=
  match f with JAbsent => default | JNull => None | JVal a => Some a end.

(** An issue as a JSON object: what [fetch_issues_logic] emits and what the
    summarize operation receives.  The keys that [MockIssue] reads with a
    default are [JField]s; [d_id] is read without one.  [d_comments] is a
    [comments] key a caller may supply. *)
Record IssueData := {
  d_iid : JField Z;
  d_id : option Z;
  d_title : JField string;
  d_state : JField string;
  d_created_at : JField string;
  d_updated_at : option string;
  d_closed_at : option string;
  d_author : JField UserRef;
  d_assignee : option UserRef;
  d_web_url : option string;
  d_description : JField string;
  d_comments : option (list Comment) }.

(** The class [MockIssue] of [summarize_logic]: the six attributes its
    constructor assigns, and no other.  An attribute is [None] when its key
    held [null]. *)
Record MockIssue := {
  m_iid : option Z;
  m_title : option string;
  m_state : option string;
  m_created_at : option string;
  m_description : option string;
  m_author : option UserRef }.

Definition MockIssue_init (issue_data : IssueData) : MockIssue :=
  {| m_iid := jget (d_iid issue_data) (d_id issue_data);
     m_title := jget (d_title issue_data) (Some "");
     m_state := jget (d_state issue_data) (Some "");
     m_created_at := jget (d_created_at issue_data) (Some "");
     m_description := jget (d_description issue_data) (Some "");
     m_author := jget (d_author issue_data)
                   (Some {| username := "unknown"; name := "Unknown" |}) |}.

(** What the summarisers read from an issue, whatever its class: an
    attribute that may hold [None] is an [option].  [issue_comments] is
    [None] when [hasattr(issue, 'comments')] is false. *)
Class IssueLike (T : Type) := {
  issue_iid : T -> option Z;
  issue_title : T -> option string;
  issue_state : T -> option string;
  issue_author : T -> option UserRef;
  issue_created_at : T -> option string;
  issue_description : T -> option string;
  issue_comments : T -> option (list Comment) }.

#[export] Instance Issue_like : IssueLike Issue := {|
  issue_iid i := Some (iid i);
  issue_title i := Some (title i);
  issue_state i := Some (state i);
  issue_author i := Some (author i);
  issue_created_at i := Some (created_at i);
  issue_description := description;
  issue_comments := comments |}.

#[export] Instance MockIssue_like : IssueLike MockIssue := {|
  issue_iid := m_iid;
  issue_title := m_title;
  issue_state := m_state;
  issue_author := m_author;
  issue_created_at := m_created_at;
  issue_description := m_description;
  issue_comments _ := None |}.

(** ** Collaborators *)

(** A raised exception: whether it is a [gitlab.GitlabError], and [str(e)]. *)
Record Exn := { is_gitlab_error : bool; message : string }.

Definition IndexError : Exn :=
  {| is_gitlab_error := false; message := "list index out of range" |}.
Definition AttributeError (what attr : string) : Exn :=
  {| is_gitlab_error := false;
     message := "'" +:+ what +:+ "' object has no attribute '" +:+ attr +:+ "'" |}.

(** [None[key]]. *)
Definition TypeError_subscript : Exn :=
  {| is_gitlab_error := false; message := "'NoneType' object is not subscriptable" |}.

(** [int(s)] on a text of digit characters that is not a decimal number; such
    a text is printable and holds no quote, so that [repr(s)] is the text
    between single quotes. *)
Definition ValueError_int (s : string) : Exn :=
  {| is_gitlab_error := false;
     message := "invalid literal for int() with base 10: '" +:+ s +:+ "'" |}.

(** A provider client, with the key it was constructed from. *)
Inductive Client := GroqClient (api_key : string) | OpenAIClient (api_key : string).

Definition client_provider (c : Client) : string :=
  match c with GroqClient _ => "groq" | OpenAIClient _ => "openai" end.

(** The arguments of [client.chat.completions.create]. *)
Record ChatRequest := {
  req_model : string;
  req_system : string;
  req_user : string;
  req_max_tokens : nat;
  req_temperature : Q }.

(** A completion: [choices], each with a [message.content] that may be [None]. *)
Definition Response := list (option string).

(** The project argument of [gl.projects.get]: a path or a numeric id. *)
Inductive ProjectRef := ProjectPath (path : string) | ProjectId (n : Z).

(** A tracker connection and the project looked up through it. *)
Record Conn := { private_token : option string; project : ProjectRef }.

Inductive Relation := Assignee | Author.

Record World := {
  (** [gl.projects.get(project_path)] *)
  projects_get : Conn -> Exn + unit;
  (** [project.issues.list(<relation>_username=username, state='all', all=True)] *)
  issues_list : Conn -> Relation -> string -> Exn + list Issue;
  (** [issue.notes.list(all=True, sort='asc')] *)
  notes_list : Conn -> Issue -> Exn + list Note;
  (** [client.chat.completions.create(...)] *)
  chat_create : Client -> ChatRequest -> Exn + Response;
  (** [os.getenv] *)
  getenv : string -> option string;
  (** whether [import groq] and [import openai] succeeded *)
  GROQ_AVAILABLE : bool;
  OPENAI_AVAILABLE : bool;
  (** the constructors [groq.Groq] and [openai.OpenAI], which may raise *)
  groq_ctor : string -> Exn + unit;
  openai_ctor : string -> Exn + unit }.

(** ** Effects *)

(** What a run leaves behind besides its value. *)
Inductive Event :=
| EPrint (line : string)
| EProjectsGet (c : Conn)
| EIssuesList (c : Conn) (r : Relation) (user : string)
| ENotesList (c : Conn) (issue_iid : Z)
| EChat (c : Client) (r : ChatRequest).

(** A remote call, as opposed to a line on standard output. *)
Definition is_network (e : Event) : bool :=
  match e with EPrint _ => false | _ => true end.

(** The module globals [_llm_client] and [_llm_provider] of the web layer. *)
Record Cache := { _llm_client : option Client; _llm_provider : option string }.

Definition empty_cache : Cache := {| _llm_client := None; _llm_provider := None |}.

Record State := { cache : Cache; trace : list Event }.

Definition init_state : State := {| cache := empty_cache; trace := [] |}.

(** A computation: from the state before to the state after and either the
    returned value or the exception that escaped. *)
Definition M (A : Type) : Type := State -> State * (Exn + A).

#[export] Instance M_ret : MRet M := fun A a s => (s, inr a).
#[export] Instance M_bind : MBind M := fun A B f m s =>
  match m s with
  | (s', inr a) => f a s'
  | (s', inl e) => (s', inl e)
  end.

Definition raise {A} (e : Exn) : M A := fun s => (s, inl e).

(** [try: body  except Exception as e: handler e]. *)
Definition try_except {A} (body : M A) (handler : Exn -> M A) : M A := fun s =>
  match body s with
  | (s', inr a) => (s', inr a)
  | (s', inl e) => handler e s'
  end.

Definition emit (e : Event) : M unit := fun s =>
  ({| cache := cache s; trace := trace s ++ [e] |}, inr tt).

Definition print (line : string) : M unit := emit (EPrint line).

Definition get_cache : M Cache := fun s => (s, inr (cache s)).
Definition set_cache (c : Cache) : M unit := fun s =>
  ({| cache := c; trace := trace s |}, inr tt).

(** A remote call: leave the event, then return or raise as the world says. *)
Definition remote {A} (e : Event) (outcome : Exn + A) : M A :=
  _ ← emit e;
  match outcome with inr a => mret a | inl x => raise x end.

(** [for x in xs: ...] collecting one result per element. *)
Fixpoint for_each {A B} (f : A -> M B) (xs : list A) : M (list B) :=
  match xs with
  | [] => mret []
  | x :: rest => y ← f x; ys ← for_each f rest; mret (y :: ys)
  end.

(** A triple-quoted template whose lines all carry the same indentation: a
    line feed, every line indented and ended by a line feed, then the
    indentation before the closing quotes. *)
Definition block (indent : string) (lines : list string) : string :=
  Py.nl +:+ fold_right (fun l acc => indent +:+ l +:+ Py.nl +:+ acc) indent lines.

Definition ind4 : string := "    ".
Definition ind8 : string := "        ".

(** ** [fetch_gitlab_issues.py] *)

Section Pipeline.

Variable W : World.

(** *** Provider setup *)

(** One provider branch of [setup_llm_client]: the availability flag, the
    key lookup, the constructor inside its [try]. *)
Definition setup_branch (provider : string) (api_key : option string)
    (available : bool) (label package env_var resolved : string)
    (ctor : string -> Exn + unit) (mk : string -> Client)
    (hint : list string) : M (option Client * string) :=
  if negb available then
    _ ← print ("Error: " +:+ package +:+ " package not installed. Install with: pip install "
               +:+ package);
    mret (None, provider)
  else
    let api_key := Py.or_else api_key (getenv W env_var) in
    match api_key with
    | Some key =>
        if Py.truthy key then
          try_except
            (match ctor key with
             | inr _ => mret (Some (mk key), resolved)
             | inl e => raise e
             end)
            (fun e =>
               _ ← print ("Error setting up " +:+ label +:+ " client: " +:+ message e);
               mret (None, provider))
        else
          _ ← for_each print
                (("Error: " +:+ label +:+ " API key not found. Set " +:+ env_var
                  +:+ " environment variable or use --api-key") :: hint);
          mret (None, provider)
    | None =>
        _ ← for_each print
              (("Error: " +:+ label +:+ " API key not found. Set " +:+ env_var
                +:+ " environment variable or use --api-key") :: hint);
        mret (None, provider)
    end.

Definition setup_llm_client (provider : string) (api_key : option string)
    : M (option Client * string) :=
  if decide (Py.lower provider = "groq") then
    setup_branch provider api_key (GROQ_AVAILABLE W) "Groq" "groq" "GROQ_API_KEY" "groq"
      (groq_ctor W) GroqClient
      ["Get your free Groq API key at: https://console.groq.com/keys"]
  else if decide (Py.lower provider = "openai") then
    setup_branch provider api_key (OPENAI_AVAILABLE W) "OpenAI" "openai" "OPENAI_API_KEY"
      "openai" (openai_ctor W) OpenAIClient []
  else
    _ ← print ("Error: Unsupported provider '" +:+ provider +:+ "'. Use 'groq' or 'openai'");
    mret (None, provider).

Definition get_default_model (provider : option string) : string :=
  if decide (provider = Some "groq") then "llama-3.3-70b-versatile"
  else if decide (provider = Some "openai") then "gpt-3.5-turbo"
  else "llama-3.3-70b-versatile".

(** [if not model: model = get_default_model(provider)]. *)
Definition model_or_default (model provider : option string) : string :=
  match model with
  | Some m => if Py.truthy m then m else get_default_model provider
  | None => get_default_model provider
  end.

(** *** The summariser boundary *)

(** [response.choices[0].message.content.strip()]. *)
Definition first_choice_text (response : Response) : M string :=
  match response with
  | [] => raise IndexError
  | None :: _ => raise (AttributeError "NoneType" "strip")
  | Some content :: _ => mret (Py.strip content)
  end.

(** [client.chat.completions.create(model=..., messages=[system, user],
    max_tokens=..., temperature=0.3)] on a client that may be [None]. *)
Definition create (client : option Client) (model system user : string)
    (max_tokens : nat) : M Response :=
  match client with
  | None => raise (AttributeError "NoneType" "chat")
  | Some c =>
      let r := {| req_model := model; req_system := system; req_user := user;
                  req_max_tokens := max_tokens; req_temperature := 3 # 10 |} in
      remote (EChat c r) (chat_create W c r)
  end.

(** The [try] / [except Exception as e] shared by the summarisers: the
    completion, its first choice stripped, or the text built from the
    exception. *)
Definition complete_or_report (client : option Client) (model system user : string)
    (max_tokens : nat) (failure_prefix : string) : M string :=
  try_except
    (response ← create client model system user max_tokens;
     first_choice_text response)
    (fun e => mret (failure_prefix +:+ message e)).

(** *** Prompt builder *)

(** The lines of the thread: one per comment with a non-empty body. *)
Definition comment_lines (cs : list Comment) : list string :=
  omap (fun c =>
          match comment_body c with
          | Some b => if Py.truthy b then Some (comment_author c +:+ ": " +:+ b) else None
          | None => None
          end) cs.

Definition comments_text {T} `{IssueLike T} (issue : T) : string :=
  match issue_comments issue with
  | Some cs =>
      match cs with
      | _ :: _ => Py.join Py.nl (comment_lines cs)
      | [] => ""
      end
  | None => ""
  end.

Definition text_or (s placeholder : string) : string :=
  if Py.truthy s then s else placeholder.

(** The f-string [issue_content]; [issue.author['name']] raises when the
    author is [None]. *)
Definition issue_content {T} `{IssueLike T} (issue : T) : Exn + string :=
  match issue_author issue with
  | None => inl TypeError_subscript
  | Some author =>
      inr (block ind4
             [ "Issue #" +:+ Py.str_opt_int (issue_iid issue) +:+ ": "
                 +:+ Py.str_opt (issue_title issue);
               "State: " +:+ Py.str_opt (issue_state issue);
               "Author: " +:+ name author +:+ " (@" +:+ username author +:+ ")";
               "Created: " +:+ Py.str_opt (issue_created_at issue);
               "Description:";
               text_or (default "" (issue_description issue)) "No description provided";
               "Comments:";
               text_or (comments_text issue) "No comments" ])
  end.

Definition issue_prompt {T} `{IssueLike T} (issue : T) : Exn + string :=
  match issue_content issue with
  | inl e => inl e
  | inr issue_content =>
      inr (block ind4
             [ "Please provide a concise summary (2-3 sentences) of this GitLab issue, including the latest updates and discussions from the comments:";
               issue_content;
               "Focus on:";
               "- What the issue is about";
               "- Current status/state";
               "- Key actionable points or recent discussions from the comments" ])
  end.

Definition issue_system : string :=
  "You are a helpful assistant that summarizes software development issues clearly and concisely, including the latest comments.".

Definition summarize_issue_with_llm {T} `{IssueLike T} (issue : T)
    (client : option Client) (provider model : option string) : M string :=
  match client with
  | None => mret "LLM summarization not available"
  | Some _ =>
      let model := model_or_default model provider in
      match issue_prompt issue with
      | inl e => raise e
      | inr prompt =>
          complete_or_report client model issue_system prompt 200
            "Error generating summary: "
      end
  end.

(** [issue.description[:100] + "..." if len(issue.description) > 100
    else issue.description]. *)
Definition desc_preview (description : string) : string :=
  if decide (100 < Py.len description)%nat
  then Py.take 100 description +:+ "..."
  else description.

(** One turn of the loop over [issues[:10]]. *)
Definition overview_step {T} `{IssueLike T} (issues_overview : string) (issue : T)
    : string :=
  let issues_overview :=
    issues_overview +:+ "- Issue #" +:+ Py.str_opt_int (issue_iid issue) +:+ ": "
      +:+ Py.str_opt (issue_title issue) +:+ " (" +:+ Py.str_opt (issue_state issue)
      +:+ ")" +:+ Py.nl in
  let issues_overview :=
    match issue_description issue with
    | Some d =>
        if Py.truthy d
        then issues_overview +:+ "  Description: " +:+ desc_preview d +:+ Py.nl
        else issues_overview
    | None => issues_overview
    end in
  issues_overview +:+ Py.nl.

Definition issues_overview {T} `{IssueLike T} (issues : list T) : string :=
  let overview := "Total issues: " +:+ Py.str_nat (length issues) +:+ Py.nl +:+ Py.nl in
  let overview := fold_left overview_step (take 10 issues) overview in
  if decide (10 < length issues)%nat
  then overview +:+ "... and " +:+ Py.str_nat (length issues - 10) +:+ " more issues"
         +:+ Py.nl
  else overview.

Definition collection_prompt {T} `{IssueLike T} (issues : list T) : string :=
  block ind4
    [ "Please provide a high-level summary of this collection of GitLab issues:";
      "";
      issues_overview issues;
      "";
      "Include:";
      "- Overall themes or patterns";
      "- Distribution of issue states (open/closed)";
      "- Key areas of focus or concern";
      "- Any notable trends";
      "";
      "Keep it concise (3-4 sentences)." ].

Definition collection_system : string :=
  "You are a helpful assistant that analyzes and summarizes software development issues to provide insights.".

Definition summarize_issues_collection_with_llm {T} `{IssueLike T} (issues : list T)
    (client : option Client) (provider model : option string) : M string :=
  match client, issues with
  | Some _, _ :: _ =>
      let model := model_or_default model provider in
      complete_or_report client model collection_system (collection_prompt issues) 200
        "Error generating collection summary: "
  | _, _ => mret "No issues to summarize or LLM not available"
  end.

Definition KeyError (key : string) : Exn :=
  {| is_gitlab_error := false; message := "'" +:+ key +:+ "'" |}.

Definition comment_prompt (author created_at body : string) : string :=
  block ind4
    [ "Please provide a concise summary (1-2 sentences) of this GitLab comment:";
      block ind4 [ "Comment by " +:+ author +:+ " at " +:+ created_at +:+ ":"; body ];
      "Focus on the main point or update in the comment." ].

Definition comment_system : string :=
  "You are a helpful assistant that summarizes software development comments clearly and concisely.".

Definition summarize_comment_with_llm (comment : Comment) (client : option Client)
    (provider model : option string) : M string :=
  match client with
  | None => mret "LLM summarization not available"
  | Some _ =>
      let model := model_or_default model provider in
      match comment with
      | CError _ => raise (KeyError "author")
      | CNote _ author body created_at _ =>
          complete_or_report client model comment_system
            (comment_prompt author created_at body) 80
            "Error generating comment summary: "
      end
  end.

(** *** Aggregator and comment fetcher *)

(** The project locator: a URL under the tracker's domain, or a numeric id;
    [inr None] when it is neither, and the exception of [int] when a text
    of digit characters is not a decimal number. *)
Definition parse_project (project_url : string) : Exn + option ProjectRef :=
  if Py.startswith "https://gitlab.com/" project_url then
    inr (Some (ProjectPath (Py.replace "https://gitlab.com/" "" project_url)))
  else if Py.isdigit project_url then
    match Py.int project_url with
    | Some n => inr (Some (ProjectId n))
    | None => inl (ValueError_int project_url)
    end
  else inr None.

(** The set comprehension [{issue.iid for issue in issues}]. *)
Definition iid_set (issues : list Issue) : gset Z := list_to_set (iid <$> issues).

(** The loop over [authored_issues]: the set of ids is computed once, before
    the loop, and each issue whose [iid] is not in it is appended. *)
Definition append_new (issues authored_issues : list Issue) : list Issue :=
  let authored_issue_ids := iid_set issues in
  fold_left
    (fun issues issue =>
       if decide (iid issue ∉ authored_issue_ids) then issues ++ [issue] else issues)
    authored_issues issues.

(** The dictionary built from one note. *)
Definition comment_of_note (note : Note) : Comment :=
  CNote (note_id note) (username (note_author note)) (note_body note)
        (note_created_at note) None.

(** [comment['llm_summary'] = summary]. *)
Definition set_llm_summary (c : Comment) (summary : string) : Comment :=
  match c with
  | CNote i a b t _ => CNote i a b t (Some summary)
  | CError e => CError e
  end.

(** The loop over [notes] inside the [try]: [comments] is the list built so
    far; the result is the list at the end of the loop, or at the point
    where an exception escaped, with that exception. *)
Fixpoint notes_loop (llm_client : option Client) (provider model : option string)
    (notes : list Note) (comments : list Comment)
    : State -> State * (list Comment * option Exn) :=
  match notes with
  | [] => fun s => (s, (comments, None))
  | note :: rest => fun s =>
      let comment := comment_of_note note in
      if bool_decide (is_Some llm_client) && Py.truthy_opt provider then
        match summarize_comment_with_llm comment llm_client provider model s with
        | (s', inr summary) =>
            notes_loop llm_client provider model rest
              (comments ++ [set_llm_summary comment summary]) s'
        | (s', inl e) => (s', (comments, Some e))
        end
      else notes_loop llm_client provider model rest (comments ++ [comment]) s
  end.

Definition thread_error (e : Exn) : Comment :=
  CError ("Failed to fetch or summarize comments: " +:+ message e).

(** One turn of the loop over [issues]: fetch the thread, build the
    comments, and assign them; an exception raised on the way is appended to
    the comments as an error entry. *)
Definition attach_comments (gl : Conn) (llm_client : option Client)
    (provider model : option string) (issue : Issue) : M Issue := fun s =>
  let comments := [] in
  match remote (ENotesList gl (iid issue)) (notes_list W gl issue) s with
  | (s1, inr notes) =>
      match notes_loop llm_client provider model notes comments s1 with
      | (s2, (comments, None)) => (s2, inr (set_comments issue comments))
      | (s2, (comments, Some e)) =>
          (s2, inr (set_comments issue (comments ++ [thread_error e])))
      end
  | (s1, inl e) => (s1, inr (set_comments issue (comments ++ [thread_error e])))
  end.

(** The aggregation of [fetch_issues_by_username]: the list [issues], from
    empty, through the two relation fetches. *)
Definition collect_issues (gl : Conn) (username : string) (assignee author : bool)
    : M (list Issue) :=
  let issues := [] in
  issues ←
    (if assignee then
       _ ← print ("Fetching issues assigned to " +:+ username +:+ "...");
       assigned_issues ←
         remote (EIssuesList gl Assignee username) (issues_list W gl Assignee username);
       mret (issues ++ assigned_issues)
     else mret issues);
  if author then
    _ ← print ("Fetching issues created by " +:+ username +:+ "...");
    authored_issues ←
      remote (EIssuesList gl Author username) (issues_list W gl Author username);
    mret (append_new issues authored_issues)
  else mret issues.

(** The connection [gl] with the project it is asked for. *)
Definition connect (access_token : option string) (project_path : ProjectRef) : Conn :=
  {| private_token := if Py.truthy_opt access_token then access_token else None;
     project := project_path |}.

(** The line printed by the handler that caught [e]. *)
Definition error_line (e : Exn) : string :=
  if is_gitlab_error e then "GitLab API Error: " +:+ message e
  else "Error: " +:+ message e.

Definition fetch_issues_by_username (project_url username : string)
    (access_token : option string) (assignee author : bool)
    (llm_client : option Client) (provider model : option string)
    : M (list Issue) :=
  match parse_project project_url with
  | inl e => raise e
  | inr None =>
      _ ← print "Error: Please provide either a GitLab URL or project ID";
      mret []
  | inr (Some project_path) =>
      try_except
        (let gl := connect access_token project_path in
         _ ← remote (EProjectsGet gl) (projects_get W gl);
         issues ← collect_issues gl username assignee author;
         for_each (attach_comments gl llm_client provider model) issues)
        (fun e => _ ← print (error_line e); mret [])
  end.

End Pipeline.

(** ** [app.py] *)

(** One entry of [individual_summaries]. *)
Record IndividualSummary := {
  issue_id : option Z; summary_title : option string; summary : string }.

(** The dictionaries returned by the endpoints: a key is present when its field
    is [Some]. *)
Record Reply := {
  r_error : option string;
  r_success : option bool;
  r_issues : option (list IssueData);
  r_count : option nat;
  r_project_url : option string;
  r_username : option string;
  r_provider : option (option string);
  r_model : option string;
  r_query : option (option string);
  r_individual_summaries : option (list IndividualSummary);
  r_collection_summary : option string;
  r_summary_error : option string }.

(** [{'error': msg, 'success': False}]. *)
Definition error_reply (msg : string) : Reply :=
  {| r_error := Some msg; r_success := Some false; r_issues := None; r_count := None;
     r_project_url := None; r_username := None; r_provider := None; r_model := None;
     r_query := None; r_individual_summaries := None; r_collection_summary := None;
     r_summary_error := None |}.

(** [a.update(b)]: the keys of [b] win. *)
Definition update (a b : Reply) : Reply :=
  let pick {A} (x y : option A) := match y with Some _ => y | None => x end in
  {| r_error := pick (r_error a) (r_error b);
     r_success := pick (r_success a) (r_success b);
     r_issues := pick (r_issues a) (r_issues b);
     r_count := pick (r_count a) (r_count b);
     r_project_url := pick (r_project_url a) (r_project_url b);
     r_username := pick (r_username a) (r_username b);
     r_provider := pick (r_provider a) (r_provider b);
     r_model := pick (r_model a) (r_model b);
     r_query := pick (r_query a) (r_query b);
     r_individual_summaries := pick (r_individual_summaries a) (r_individual_summaries b);
     r_collection_summary := pick (r_collection_summary a) (r_collection_summary b);
     r_summary_error := pick (r_summary_error a) (r_summary_error b) |}.

(** [fetch_data['summary_error'] = msg]. *)
Definition set_summary_error (a : Reply) (msg : string) : Reply :=
  {| r_error := r_error a; r_success := r_success a; r_issues := r_issues a;
     r_count := r_count a; r_project_url := r_project_url a; r_username := r_username a;
     r_provider := r_provider a; r_model := r_model a; r_query := r_query a;
     r_individual_summaries := r_individual_summaries a;
     r_collection_summary := r_collection_summary a;
     r_summary_error := Some msg |}.

(** The JSON body of the fetch endpoints.  A key read with [data.get(key)]
    is [None] when absent or [null]; the three flags are read for their truth
    value, which is false for an absent or [null] key; the keys handed on
    with a default are [JField]s. *)
Record FetchBody := {
  b_project_url : option string;
  b_username : option string;
  b_user : option string;
  b_access_token : option string;
  b_assignee_only : bool;
  b_author_only : bool;
  b_summarize : bool;
  b_query : JField string;
  b_summary_type : JField string;
  b_provider : JField string;
  b_model : option string }.

(** The dictionary read by [summarize_logic]; [s_issues] and [s_model] are
    read for their truth value or without a default. *)
Record SummarizeBody := {
  s_issues : option (list IssueData);
  s_query : JField string;
  s_type : JField string;
  s_provider : JField string;
  s_model : option string }.

(** The body of a request as [request.json] gives it: the exception it
    raises when the body cannot be read as JSON, [None] for a JSON value
    that is not an object, or the object. *)
Definition Body (A : Type) : Type := Exn + option A.

(** The dictionary built from one fetched issue. *)
Definition issue_data_of (issue : Issue) : IssueData :=
  {| d_iid := JVal (iid issue);
     d_id := Some (id issue);
     d_title := JVal (title issue);
     d_state := JVal (state issue);
     d_created_at := JVal (created_at issue);
     d_updated_at := Some (updated_at issue);
     d_closed_at := closed_at issue;
     d_author := JVal {| username := username (author issue); name := name (author issue) |};
     d_assignee :=
       match assignee issue with
       | Some a => Some {| username := username a; name := name a |}
       | None => None
       end;
     d_web_url := Some (web_url issue);
     d_description :=
       match description issue with Some d => JVal d | None => JNull end;
     d_comments := None |}.

(** [{'error': 'Invalid or missing JSON body'}]. *)
Definition invalid_body_reply : Reply :=
  {| r_error := Some "Invalid or missing JSON body"; r_success := None; r_issues := None;
     r_count := None; r_project_url := None; r_username := None; r_provider := None;
     r_model := None; r_query := None; r_individual_summaries := None;
     r_collection_summary := None; r_summary_error := None |}.

(** An entry of the [providers] dictionary; a key is present when its field
    is [Some]. *)
Record ProviderInfo := {
  available : bool;
  models : option (list string);
  cost : option string;
  info_error : option string }.

(** The reply of the [/providers] endpoint: the two entries, or the error of
    the outer handler. *)
Inductive ProvidersReply :=
| ProvidersList (groq openai : ProviderInfo)
| ProvidersFailure (error : string).

Section WebLayer.

Variable W : World.

Definition get_llm_client : M (option Client * option string) :=
  c ← get_cache;
  match _llm_client c with
  | None =>
      let groq_key := getenv W "GROQ_API_KEY" in
      let openai_key := getenv W "OPENAI_API_KEY" in
      if Py.truthy_opt groq_key then
        r ← setup_llm_client W "groq" groq_key;
        _ ← set_cache {| _llm_client := r.1; _llm_provider := Some r.2 |};
        c ← get_cache;
        mret (_llm_client c, _llm_provider c)
      else if Py.truthy_opt openai_key then
        r ← setup_llm_client W "openai" openai_key;
        _ ← set_cache {| _llm_client := r.1; _llm_provider := Some r.2 |};
        c ← get_cache;
        mret (_llm_client c, _llm_provider c)
      else mret (None, None)
  | Some _ => mret (_llm_client c, _llm_provider c)
  end.

Definition fetch_issues_logic (data : FetchBody) : M (Reply * nat) :=
  let project_url := b_project_url data in
  let username := Py.or_else (b_username data) (b_user data) in
  match project_url, username with
  | Some project_url, Some username =>
      if Py.truthy project_url && Py.truthy username then
        let access_token :=
          Py.or_else (b_access_token data) (getenv W "GITLAB_ACCESS_TOKEN") in
        let assignee_only := b_assignee_only data in
        let author_only := b_author_only data in
        let fetch_assignee := negb author_only in
        let fetch_author := negb assignee_only in
        issues ← fetch_issues_by_username W project_url username access_token
                   fetch_assignee fetch_author None None None;
        let issues_data := issue_data_of <$> issues in
        mret ({| r_error := None; r_success := Some true;
                 r_issues := Some issues_data; r_count := Some (length issues_data);
                 r_project_url := Some project_url; r_username := Some username;
                 r_provider := None; r_model := None; r_query := None;
                 r_individual_summaries := None; r_collection_summary := None;
                 r_summary_error := None |}, 200%nat)
      else mret (error_reply "Missing required fields: project_url and username", 400%nat)
  | _, _ => mret (error_reply "Missing required fields: project_url and username", 400%nat)
  end.

(** The overview of the query-directed prompt. *)
Definition query_overview (query : string) (mock_issues : list MockIssue) : string :=
  fold_left
    (fun issues_overview issue =>
       issues_overview +:+ "- Issue #" +:+ Py.str_opt_int (m_iid issue) +:+ ": "
         +:+ Py.str_opt (m_title issue) +:+ " (" +:+ Py.str_opt (m_state issue) +:+ ")"
         +:+ Py.nl)
    (take 10 mock_issues)
    ("User Query: " +:+ query +:+ Py.nl +:+ Py.nl +:+ "Issues Summary:" +:+ Py.nl).

Definition query_prompt (query : string) (mock_issues : list MockIssue) : string :=
  block ind8
    [ "Based on the user's query: " +:+ Py.dquote +:+ query +:+ Py.dquote;
      "Please analyze these GitLab issues and provide a relevant response:";
      query_overview query mock_issues;
      "Focus on answering the user's specific question while providing insights from the issues." ].

Definition query_system : string :=
  "You are a helpful assistant that analyzes GitLab issues and answers user questions.".

(** The key looked up for a requested provider: the Groq key for [groq], the
    OpenAI key for any other value, [None] included. *)
Definition requested_key (provider : option string) : option string :=
  if decide (provider = Some "groq") then getenv W "GROQ_API_KEY"
  else getenv W "OPENAI_API_KEY".

(** The provider switch of [summarize_logic]: the requested provider against
    the one resolved so far.  [setup_llm_client(None, api_key)] raises at
    [provider.lower()], its first expression. *)
Definition resolve_requested (provider : option string) (llm_client : option Client)
    (current_provider : option string) : M (option Client * option string) :=
  if decide (provider ≠ current_provider) then
    let api_key := requested_key provider in
    if Py.truthy_opt api_key then
      match provider with
      | Some provider =>
          r ← setup_llm_client W provider api_key;
          mret (r.1, Some r.2)
      | None => raise (AttributeError "NoneType" "lower")
      end
    else mret (llm_client, current_provider)
  else mret (llm_client, current_provider).

(** The summaries of [summarize_logic], once the client is settled: the
    results dictionary, the individual summaries, the collection summary. *)
Definition render_summaries (llm_client : option Client)
    (current_provider : option string) (model : string) (query : option string)
    (summary_type : option string) (issues_data : list IssueData) : M (Reply * nat) :=
  let mock_issues := MockIssue_init <$> issues_data in
  let results :=
    {| r_error := None; r_success := Some true; r_issues := None;
       r_count := None; r_project_url := None; r_username := None;
       r_provider := Some current_provider; r_model := Some model;
       r_query := Some query; r_individual_summaries := None;
       r_collection_summary := None; r_summary_error := None |} in
  individual ←
    (if decide (summary_type = Some "individual") then
       individual_summaries ←
         for_each
           (fun issue =>
              summary ← summarize_issue_with_llm W issue llm_client
                          current_provider (Some model);
              mret {| issue_id := m_iid issue; summary_title := m_title issue;
                      summary := summary |})
           mock_issues;
       mret (Some individual_summaries)
     else mret None);
  collection_summary ←
    (if Py.truthy_opt query then
       complete_or_report W llm_client model query_system
         (query_prompt (default "" query) mock_issues) 300
         "Error generating custom summary: "
     else
       summarize_issues_collection_with_llm W mock_issues llm_client
         current_provider (Some model));
  mret (update results
          {| r_error := None; r_success := None; r_issues := None;
             r_count := None; r_project_url := None; r_username := None;
             r_provider := None; r_model := None; r_query := None;
             r_individual_summaries := individual;
             r_collection_summary := Some collection_summary;
             r_summary_error := None |}, 200%nat).

Definition summarize_logic (data : SummarizeBody) : M (Reply * nat) :=
  let issues_data := default [] (s_issues data) in
  let query := jget (s_query data) (Some "") in
  let summary_type := jget (s_type data) (Some "collection") in
  let provider := jget (s_provider data) (Some "groq") in
  let model := s_model data in
  match issues_data with
  | [] => mret (error_reply "No issues provided for summarization", 400%nat)
  | _ :: _ =>
      r ← get_llm_client;
      let '(llm_client, current_provider) := r in
      match llm_client with
      | None =>
          mret (error_reply "No AI provider available. Set GROQ_API_KEY or OPENAI_API_KEY",
                400%nat)
      | Some _ =>
          r ← resolve_requested provider llm_client current_provider;
          let '(llm_client, current_provider) := r in
          let model := model_or_default model current_provider in
          render_summaries llm_client current_provider model query summary_type issues_data
      end
  end.

(** [data = request.json], and the test [isinstance(data, dict)] that every
    endpoint makes before it reads the body. *)
Definition with_body {A} (body : Body A) (handle : A -> M (Reply * nat))
    : M (Reply * nat) :=
  match body with
  | inl e => raise e
  | inr None => mret (invalid_body_reply, 400%nat)
  | inr (Some data) => handle data
  end.

(** The [/summarize] endpoint around [summarize_logic]. *)
Definition summarize (body : Body SummarizeBody) : M (Reply * nat) :=
  try_except (with_body body summarize_logic)
    (fun e => mret (error_reply (message e), 500%nat)).

(** A key handed on as it was read: [None] becomes the [null] of the new
    dictionary. *)
Definition jset {A} (o : option A) : JField A :=
  match o with Some a => JVal a | None => JNull end.

(** The dictionary [summarize_data] that [fetch_and_summarize] builds. *)
Definition summarize_data_of (data : FetchBody) (issues : list IssueData)
    : SummarizeBody :=
  {| s_issues := Some issues;
     s_query := jset (jget (b_query data) (Some ""));
     s_type := jset (jget (b_summary_type data) (Some "collection"));
     s_provider := jset (jget (b_provider data) (Some "groq"));
     s_model := b_model data |}.

(** The body of [fetch_and_summarize] once [data] is a dictionary. *)
Definition fetch_and_summarize_logic (data : FetchBody) : M (Reply * nat) :=
  r ← fetch_issues_logic data;
  let '(fetch_data, fetch_status) := r in
  if negb (bool_decide (fetch_status = 200%nat))
     || negb (default false (r_success fetch_data))
  then mret (fetch_data, fetch_status)
  else
    let issues := default [] (r_issues fetch_data) in
    fetch_data ←
      (if b_summarize data && bool_decide (issues ≠ []) then
         let summarize_data := summarize_data_of data issues in
         try_except
           (r ← summarize_logic summarize_data;
            let '(summary_data, summary_status) := r in
            if bool_decide (summary_status = 200%nat)
            then mret (update fetch_data summary_data)
            else mret fetch_data)
           (fun e => mret (set_summary_error fetch_data (message e)))
       else mret fetch_data);
    mret (fetch_data, 200%nat).

(** The [/fetch_and_summarize] endpoint. *)
Definition fetch_and_summarize (body : Body FetchBody) : M (Reply * nat) :=
  try_except (with_body body fetch_and_summarize_logic)
    (fun e => mret (error_reply (message e), 500%nat)).

(** The [/fetch_issues] endpoint. *)
Definition fetch_issues (body : Body FetchBody) : M (Reply * nat) :=
  try_except (with_body body fetch_issues_logic)
    (fun e => mret (error_reply (message e), 500%nat)).

(** One provider of [get_providers]: the key lookup, the setup inside its
    [try], and the entry of the provider. *)
Definition provider_entry (provider env_var : string) (models : list string)
    (cost : string) : M ProviderInfo :=
  let key := getenv W env_var in
  if Py.truthy_opt key then
    try_except
      (r ← setup_llm_client W provider key;
       mret {| available := bool_decide (is_Some r.1); models := Some models;
               cost := Some cost; info_error := None |})
      (fun _ =>
         mret {| available := false; models := None; cost := None;
                 info_error := Some "Setup failed" |})
  else
    mret {| available := false; models := None; cost := None;
            info_error := Some "No API key" |}.

(** The [/providers] endpoint. *)
Definition get_providers : M (ProvidersReply * nat) :=
  try_except
    (groq ← provider_entry "groq" "GROQ_API_KEY"
              ["llama-3.3-70b-versatile"; "llama-3.1-8b-instant";
               "llama-3.2-11b-text-preview"] "free";
     openai ← provider_entry "openai" "OPENAI_API_KEY"
                ["gpt-3.5-turbo"; "gpt-4"; "gpt-4o"; "gpt-4-turbo"] "paid";
     mret (ProvidersList groq openai, 200%nat))
    (fun e => mret (ProvidersFailure (message e), 500%nat)).

End WebLayer.

(** * Vocabulary of the properties *)

(** ** Runs and what they leave *)

(** The state after appending events to the trace; the cache is untouched. *)
Definition log (s : State) (evs : list Event) : State :=
  {| cache := cache s; trace := trace s ++ evs |}.

(** [m], run from [s], returns [a] after leaving exactly the events [evs]. *)
Definition yields {A} (m : M A) (s : State) (evs : list Event) (a : A) : Prop :=
  m s = (log s evs, inr a).

(** What a summariser returns for an outcome of the provider call: the
    stripped content of the first choice, or the failure prefix followed by
    the cause. *)
Definition reported (failure_prefix : string) (outcome : Exn + Response)
    (text : string) : Prop :=
  match outcome with
  | inl e => text = failure_prefix +:+ message e
  | inr [] => text = failure_prefix +:+ "list index out of range"
  | inr (None :: _) =>
      text = failure_prefix +:+ "'NoneType' object has no attribute 'strip'"
  | inr (Some content :: _) => text = Py.strip content
  end.

(** The request a summariser sends. *)
Definition request (model system user : string) (max_tokens : nat) : ChatRequest :=
  {| req_model := model; req_system := system; req_user := user;
     req_max_tokens := max_tokens; req_temperature := 3 # 10 |}.

(** Every event is a completion request sent through [client]. *)
Definition chats_of (client : option Client) (evs : list Event) : Prop :=
  Forall (fun e => exists c r, e = EChat c r /\ client = Some c) evs.

(** The dictionary [results] of [summarize_logic] with its two summaries set. *)
Definition summary_reply (current_provider : option string) (model : string)
    (query : option string) (individual : option (list IndividualSummary))
    (collection_summary : string) : Reply :=
  {| r_error := None; r_success := Some true; r_issues := None; r_count := None;
     r_project_url := None; r_username := None;
     r_provider := Some current_provider; r_model := Some model;
     r_query := Some query; r_individual_summaries := individual;
     r_collection_summary := Some collection_summary; r_summary_error := None |}.

(** The issue data carries an author: the key is absent, and the default
    author stands in, or it holds a user reference. *)
Definition authored (issue_data : IssueData) : Prop :=
  is_Some (m_author (MockIssue_init issue_data)).

(** The entry of [individual_summaries] for one issue when the summaries go
    through client [c]: its id, its title, and the text the boundary reports
    for the request of this issue. *)
Definition summary_entry_of (W : World) (c : Client)
    (provider : option string) (model : string) (issue_data : IssueData)
    (entry : IndividualSummary) : Prop :=
  let issue := MockIssue_init issue_data in
  issue_id entry = m_iid issue /\ summary_title entry = m_title issue
  /\ exists prompt,
       issue_prompt issue = inr prompt
       /\ reported "Error generating summary: "
            (chat_create W c
               (request (model_or_default (Some model) provider) issue_system prompt 200))
            (summary entry).

(** Only lines on standard output. *)
Definition prints (evs : list Event) : Prop := Forall (fun e => is_network e = false) evs.

(** The state with the cache replaced. *)
Definition with_cache (s : State) (c : Cache) : State :=
  {| cache := c; trace := trace s |}.

(** The result set of a relation: what the tracker lists when the relation is
    enabled, nothing when it is not. *)
Definition listed (W : World) (gl : Conn) (r : Relation) (user : string)
    (enabled : bool) : Exn + list Issue :=
  if enabled then issues_list W gl r user else inr [].

(** The aggregate of two result sets: the first verbatim, then the issues of
    the second whose [iid] does not occur in the first, in order. *)
Definition aggregate (A B : list Issue) : list Issue :=
  A ++ filter (fun b => iid b ∉ iid <$> A) B.

(** The first exception of the tracker outside the thread fetches: the project
    lookup, then the assignee listing, then the author listing. *)
Definition upstream_error (W : World) (gl : Conn) (user : string)
    (assignee author : bool) : option Exn :=
  match projects_get W gl with
  | inl e => Some e
  | inr _ =>
      match listed W gl Assignee user assignee with
      | inl e => Some e
      | inr _ =>
          match listed W gl Author user author with
          | inl e => Some e
          | inr _ => None
          end
      end
  end.

(** The comment built from a note: the note's fields, and a summary exactly
    when a client and a provider name were given, reported from the note's
    own request. *)
Definition thread_entry (W : World) (llm_client : option Client)
    (provider model : option string) (note : Note) (c : Comment) : Prop :=
  exists llm_summary,
    c = CNote (note_id note) (username (note_author note)) (note_body note)
          (note_created_at note) llm_summary
    /\ match llm_client with
       | Some cl =>
           if Py.truthy_opt provider then
             exists text, llm_summary = Some text
               /\ reported "Error generating comment summary: "
                    (chat_create W cl
                       (request (model_or_default model provider) comment_system
                          (comment_prompt (username (note_author note))
                             (note_created_at note) (note_body note)) 80))
                    text
           else llm_summary = None
       | None => llm_summary = None
       end.

(** The thread attached to an issue: the error entry when the notes could not
    be listed, one comment per note otherwise. *)
Definition thread_of (W : World) (gl : Conn) (llm_client : option Client)
    (provider model : option string) (issue : Issue) (cs : list Comment) : Prop :=
  match notes_list W gl issue with
  | inl e => cs = [thread_error e]
  | inr notes => Forall2 (thread_entry W llm_client provider model) notes cs
  end.

(** [m], run from [s], raises [x] after leaving exactly the events [evs]. *)
Definition raises {A} (m : M A) (s : State) (evs : list Event) (x : Exn) : Prop :=
  m s = (log s evs, inl x).

(** The fetched issue is the aggregated one with its thread attached. *)
Definition fetched (W : World) (gl : Conn) (llm_client : option Client)
    (provider model : option string) (issue out : Issue) : Prop :=
  exists cs,
    out = set_comments issue cs /\ thread_of W gl llm_client provider model issue cs.

(** Two issues agree on every attribute but [comments]. *)
Definition same_but_comments (a b : Issue) : Prop :=
  iid a = iid b /\ id a = id b /\ title a = title b /\ state a = state b
  /\ created_at a = created_at b /\ updated_at a = updated_at b
  /\ closed_at a = closed_at b /\ author a = author b /\ assignee a = assignee b
  /\ web_url a = web_url b /\ description a = description b.

(** ** Sample collaborators and requests *)

Definition alice : UserRef := {| username := "alice"; name := "Alice Doe" |}.

Definition sample_issue (n : Z) (about : option string) : Issue :=
  {| iid := n; id := 1000 + n; title := "Issue " +:+ Py.str_int n; state := "opened";
     created_at := "2024-05-01T10:00:00Z"; updated_at := "2024-05-02T10:00:00Z";
     closed_at := None; author := alice; assignee := Some alice;
     web_url := "https://gitlab.com/g/p/-/issues/" +:+ Py.str_int n;
     description := about; comments := None |}.

Definition sample_note : Note :=
  {| note_id := 7; note_author := alice; note_body := "Looks good";
     note_created_at := "2024-05-03T10:00:00Z" |}.

Definition transport_error : Exn :=
  {| is_gitlab_error := false; message := "Connection reset by peer" |}.

Definition project_not_found : Exn :=
  {| is_gitlab_error := true; message := "404: 404 Project Not Found" |}.

(** An environment from a list of variables. *)
Definition env_of (vars : list (string * string)) (var : string) : option string :=
  match list_find (fun kv => kv.1 = var) vars with
  | Some (_, (_, value)) => Some value
  | None => None
  end.

(** A world: the outcome of the project lookup, the two listings, the issues
    whose thread cannot be listed, the environment, and the answer of every
    provider call. *)
Definition sample_world (lookup : Exn + unit) (by_assignee by_author : Exn + list Issue)
    (broken_thread : Z -> bool) (vars : list (string * string))
    (answer : Exn + Response) : World :=
  {| projects_get := fun _ => lookup;
     issues_list := fun _ r _ => match r with Assignee => by_assignee | Author => by_author end;
     notes_list := fun _ issue =>
       if broken_thread (iid issue) then inl transport_error else inr [sample_note];
     chat_create := fun _ _ => answer;
     getenv := env_of vars;
     GROQ_AVAILABLE := true;
     OPENAI_AVAILABLE := true;
     groq_ctor := fun _ => inr tt;
     openai_ctor := fun _ => inr tt |}.

(** The tracker of the aggregation scenario: assignee issues 1 and 2, author
    issues 2 and 3. *)
Definition scenario_world : World :=
  sample_world (inr tt)
    (inr [sample_issue 1 None; sample_issue 2 (Some "seen as assignee")])
    (inr [sample_issue 2 (Some "seen as author"); sample_issue 3 None])
    (fun _ => false) [] (inr [Some "ok"]).

(** A tracker whose author listing holds the same [iid] twice. *)
Definition repeating_world : World :=
  sample_world (inr tt) (inr [])
    (inr [sample_issue 3 (Some "first page"); sample_issue 3 (Some "next page")])
    (fun _ => false) [] (inr [Some "ok"]).

(** A tracker that does not find the project, and one that finds it empty. *)
Definition missing_project_world : World :=
  sample_world (inl project_not_found) (inr []) (inr []) (fun _ => false) [] (inr [Some "ok"]).
Definition empty_project_world : World :=
  sample_world (inr tt) (inr []) (inr []) (fun _ => false) [] (inr [Some "ok"]).

(** A tracker where the thread of issue 5 cannot be listed. *)
Definition broken_thread_world : World :=
  sample_world (inr tt)
    (inr [sample_issue 4 None; sample_issue 5 None])
    (inr [sample_issue 5 None; sample_issue 6 None])
    (fun n => bool_decide (n = 5)) [] (inr [Some "ok"]).

(** The value a run returns, and the remote calls it made. *)
Definition returned {A} (run : State * (Exn + A)) : Exn + A := run.2.
Definition returned_as {A B} (f : A -> B) (run : State * (Exn + A)) : Exn + B :=
  match run.2 with inl e => inl e | inr a => inr (f a) end.
Definition network_calls {A} (run : State * (Exn + A)) : list Event :=
  filter (fun e => is_network e = true) (trace run.1).

(** The dictionary of a successful [fetch_issues_logic]. *)
Definition fetch_reply (project_url username : string) (issues_data : list IssueData)
    : Reply :=
  {| r_error := None; r_success := Some true; r_issues := Some issues_data;
     r_count := Some (length issues_data); r_project_url := Some project_url;
     r_username := Some username; r_provider := None; r_model := None; r_query := None;
     r_individual_summaries := None; r_collection_summary := None;
     r_summary_error := None |}.

(** The token [fetch_issues_logic] passes on. *)
Definition token_of (W : World) (data : FetchBody) : option string :=
  Py.or_else (b_access_token data) (getenv W "GITLAB_ACCESS_TOKEN").

(** A body that switches both relations off. *)
Definition no_relation_body : FetchBody :=
  {| b_project_url := Some "42"; b_username := Some "alice"; b_user := None;
     b_access_token := None; b_assignee_only := true; b_author_only := true;
     b_summarize := false; b_query := JAbsent; b_summary_type := JAbsent;
     b_provider := JAbsent; b_model := None |}.

(** The text one issue adds to the overview: its line, the preview of its
    description when it has one, and an empty line. *)
Definition overview_entry {T} `{IssueLike T} (issue : T) : string :=
  "- Issue #" +:+ Py.str_opt_int (issue_iid issue) +:+ ": " +:+ Py.str_opt (issue_title issue)
    +:+ " (" +:+ Py.str_opt (issue_state issue) +:+ ")" +:+ Py.nl
    +:+ match issue_description issue with
        | Some d =>
            if Py.truthy d then "  Description: " +:+ desc_preview d +:+ Py.nl else ""
        | None => ""
        end
    +:+ Py.nl.

(** A body for the summarize operation: one issue that carries a comment, an
    individual summary requested. *)
Definition commented_issue_data : IssueData :=
  {| d_iid := JVal 9; d_id := Some 1009; d_title := JVal "Crash on start";
     d_state := JVal "opened"; d_created_at := JVal "2024-05-01T10:00:00Z";
     d_updated_at := None; d_closed_at := None; d_author := JVal alice;
     d_assignee := None; d_web_url := None; d_description := JVal "It crashes.";
     d_comments := Some [CNote 7 "bob" "Same here" "2024-05-03T10:00:00Z" None] |}.

Definition summarize_body (query type provider : JField string) : SummarizeBody :=
  {| s_issues := Some [commented_issue_data]; s_query := query; s_type := type;
     s_provider := provider; s_model := None |}.

(** A world where only the Groq key is set, and one where both keys are. *)
Definition groq_world : World :=
  sample_world (inr tt) (inr [sample_issue 1 None]) (inr []) (fun _ => false)
    [("GROQ_API_KEY", "gsk")] (inr [Some " A summary. "]).
Definition both_keys_world : World :=
  sample_world (inr tt) (inr [sample_issue 1 None]) (inr []) (fun _ => false)
    [("GROQ_API_KEY", "gsk"); ("OPENAI_API_KEY", "sk")] (inr [Some " A summary. "]).
Definition no_key_world : World :=
  sample_world (inr tt) (inr [sample_issue 1 None]) (inr []) (fun _ => false)
    [] (inr [Some " A summary. "]).

(** The user prompts a run sent to the providers. *)
Definition prompts_sent {A} (run : State * (Exn + A)) : list string :=
  omap (fun e => match e with EChat _ r => Some (req_user r) | _ => None end) (trace run.1).

(** The state of a process that has cached a Groq client. *)
Definition groq_cached : State :=
  {| cache := {| _llm_client := Some (GroqClient "gsk"); _llm_provider := Some "groq" |};
     trace := [] |}.

(** A body asking for a fetch followed by a summary. *)
Definition fetch_and_summarize_body : FetchBody :=
  {| b_project_url := Some "42"; b_username := Some "alice"; b_user := None;
     b_access_token := None; b_assignee_only := false; b_author_only := false;
     b_summarize := true; b_query := JAbsent; b_summary_type := JAbsent;
     b_provider := JAbsent; b_model := None |}.

(** Following the specification: start with the assignee sequence, then append
    each author issue whose [iid] is not already present in the sequence built
    so far. *)
Definition aggregate_first_seen (A B : list Issue) : list Issue :=
  fold_left
    (fun merged b => if decide (iid b ∈ iid <$> merged) then merged else merged ++ [b])
    B A.

(** The completion requests among the events of a run, each with the client
    it went through. *)
Definition chat_requests (evs : list Event) : list (Client * ChatRequest) :=
  omap (fun e => match e with EChat c r => Some (c, r) | _ => None end) evs.

(** The prompt of the individual summary written out line by line, from the
    values it renders; [thread] is the text under [Comments:]. *)
Definition written_prompt (iid : option Z) (title state : option string)
    (author : UserRef) (created_at description : option string) (thread : string)
    : string :=
  Py.join Py.nl
    [ "";
      "    Please provide a concise summary (2-3 sentences) of this GitLab issue, including the latest updates and discussions from the comments:";
      "    ";
      "    Issue #" +:+ Py.str_opt_int iid +:+ ": " +:+ Py.str_opt title;
      "    State: " +:+ Py.str_opt state;
      "    Author: " +:+ name author +:+ " (@" +:+ username author +:+ ")";
      "    Created: " +:+ Py.str_opt created_at;
      "    Description:";
      "    " +:+ (if Py.truthy_opt description then default "" description
                  else "No description provided");
      "    Comments:";
      "    " +:+ thread;
      "    ";
      "    Focus on:";
      "    - What the issue is about";
      "    - Current status/state";
      "    - Key actionable points or recent discussions from the comments";
      "    " ].

(** The prompt of an issue rebuilt from its data: the thread is the
    placeholder. *)
Definition rebuilt_prompt (issue : MockIssue) (author : UserRef) : string :=
  written_prompt (m_iid issue) (m_title issue) (m_state issue) author
    (m_created_at issue) (m_description issue) "No comments".

(** The entry of [individual_summaries] for one issue, with the prompt of its
    request written out: the id and the title of the rebuilt issue, and the
    text the boundary reports for the outcome of that request. *)
Definition entry_of_rebuilt (W : World) (c : Client) (provider : option string)
    (model : string) (issue_data : IssueData) (entry : IndividualSummary) : Prop :=
  let issue := MockIssue_init issue_data in
  issue_id entry = m_iid issue /\ summary_title entry = m_title issue
  /\ exists author,
       m_author issue = Some author
       /\ reported "Error generating summary: "
            (chat_create W c
               (request (model_or_default (Some model) provider) issue_system
                  (rebuilt_prompt issue author) 200))
            (summary entry).

(** The request of the individual summary of one issue under [model]. *)
Definition individual_request (model : string) (issue : MockIssue) (r : ChatRequest)
    : Prop :=
  exists prompt,
    issue_prompt issue = inr prompt /\ r = request model issue_system prompt 200.

(** The request of the collection summary under [model], directed by the
    query when there is one. *)
Definition collection_request (model : string) (query : option string)
    (mock_issues : list MockIssue) : ChatRequest :=
  if Py.truthy_opt query
  then request model query_system (query_prompt (default "" query) mock_issues) 300
  else request model collection_system (collection_prompt mock_issues) 200.

(** [m] never touches the cache and leaves only events that satisfy [Q],
    whether it returns or raises. *)
Definition leaves (Q : Event -> Prop) {A} (m : M A) : Prop :=
  forall s, exists evs r, m s = (log s evs, r) /\ Forall Q evs.

(** A completion request of the fetch: the summary of one comment, sent
    through the client the fetch was given, under a provider name. *)
Definition comment_request (llm_client : option Client) (provider : option string)
    (e : Event) : Prop :=
  match e with
  | EChat c r =>
      llm_client = Some c /\ Py.truthy_opt provider = true
      /\ req_system r = comment_system /\ req_max_tokens r = 80%nat
  | _ => True
  end.

(** The first character of a text is a digit. *)
Definition starts_with_digit (s : string) : Prop :=
  match s with String c _ => Py.is_digit c = true | EmptyString => False end.

(** A body has its required fields: a non-empty [project_url], and a
    non-empty [username] or, failing that, [user]. *)
Definition required_fields (data : FetchBody) : bool :=
  Py.truthy_opt (b_project_url data)
  && Py.truthy_opt (Py.or_else (b_username data) (b_user data)).

(** A body whose locator is a bare host name. *)
Definition malformed_locator_body : FetchBody :=
  {| b_project_url := Some "gitlab.com/g/p"; b_username := None; b_user := Some "alice";
     b_access_token := None; b_assignee_only := false; b_author_only := false;
     b_summarize := false; b_query := JAbsent; b_summary_type := JAbsent;
     b_provider := JAbsent; b_model := None |}.

(** A call to the issue tracker, as opposed to a print or a provider call. *)
Definition is_tracker_call (e : Event) : bool :=
  match e with
  | EProjectsGet _ | EIssuesList _ _ _ | ENotesList _ _ => true
  | EPrint _ | EChat _ _ => false
  end.

Definition tracker_calls (evs : list Event) : list Event :=
  filter (fun e => is_tracker_call e = true) evs.

(** A world with both keys set where the Groq package is not installed. *)
Definition groq_uninstalled_world : World :=
  {| projects_get := fun _ => inr tt;
     issues_list := fun _ _ _ => inr [];
     notes_list := fun _ _ => inr [];
     chat_create := fun _ _ => inr [Some "ok"];
     getenv := env_of [("GROQ_API_KEY", "gsk"); ("OPENAI_API_KEY", "sk")];
     GROQ_AVAILABLE := false;
     OPENAI_AVAILABLE := true;
     groq_ctor := fun _ => inr tt;
     openai_ctor := fun _ => inr tt |}.

(** * Properties *)

(** ** Runs *)

Lemma log_nil s : log s [] = s.
Proof. destruct s; unfold log; simpl. by rewrite app_nil_r. Qed.

Lemma log_log s a b : log (log s a) b = log s (a ++ b).
Proof. unfold log; simpl. by rewrite app_assoc. Qed.

Lemma cache_log s evs : cache (log s evs) = cache s.
Proof. done. Qed.

Lemma trace_log s evs : trace (log s evs) = trace s ++ evs.
Proof. done. Qed.

Ltac unfold_M := unfold yields, mbind, M_bind, mret, M_ret, raise, try_except in *.

Lemma yields_ret {A} (a : A) s : yields (mret a) s [] a.
Proof. unfold_M. by rewrite log_nil. Qed.

Lemma yields_bind {A B} (m : M A) (f : A -> M B) s e1 e2 a b :
  yields m s e1 a -> yields (f a) (log s e1) e2 b -> yields (m ≫= f) s (e1 ++ e2) b.
Proof. unfold_M. intros -> ->. by rewrite log_log. Qed.

Lemma yields_emit e s : yields (emit e) s [e] tt.
Proof. done. Qed.

Lemma yields_print line s : yields (print line) s [EPrint line] tt.
Proof. done. Qed.

Lemma yields_remote {A} e (a : A) s : yields (remote e (inr a)) s [e] a.
Proof. unfold remote. apply (yields_bind _ _ _ [e] [] tt); [done | apply yields_ret]. Qed.

Lemma remote_raises {A} e x s : remote (A:=A) e (inl x) s = (log s [e], inl x).
Proof. done. Qed.

Lemma yields_try {A} (body : M A) handler s evs a :
  yields body s evs a -> yields (try_except body handler) s evs a.
Proof. unfold_M. by intros ->. Qed.

Lemma raises_remote {A} e x s : raises (remote (A:=A) e (inl x)) s [e] x.
Proof. done. Qed.

Lemma raises_bind_l {A B} (m : M A) (f : A -> M B) s evs x :
  raises m s evs x -> raises (m ≫= f) s evs x.
Proof. unfold raises. unfold_M. by intros ->. Qed.

Lemma raises_bind_r {A B} (m : M A) (f : A -> M B) s e1 e2 a x :
  yields m s e1 a -> raises (f a) (log s e1) e2 x -> raises (m ≫= f) s (e1 ++ e2) x.
Proof. unfold raises. unfold_M. intros -> ->. by rewrite log_log. Qed.

Lemma yields_except {A} (body : M A) handler s e1 e2 x a :
  raises body s e1 x -> yields (handler x) (log s e1) e2 a ->
  yields (try_except body handler) s (e1 ++ e2) a.
Proof. unfold raises. unfold_M. intros -> ->. by rewrite log_log. Qed.

(** A loop whose every turn returns, returns: one result per element, in
    order, each related to its element as the turns promise. *)
Lemma yields_for_each {A B} (f : A -> M B) (P : A -> B -> Prop) (Q : Event -> Prop) xs :
  (forall x s, x ∈ xs -> exists evs b, yields (f x) s evs b /\ P x b /\ Forall Q evs) ->
  forall s, exists evs out,
    yields (for_each f xs) s evs out /\ Forall2 P xs out /\ Forall Q evs.
Proof.
  induction xs as [|x xs IH]; intros Hf s.
  - exists [], []. split; [apply yields_ret | by split].
  - destruct (Hf x s) as (e1 & b & Hb & HP & HQ); [left |].
    destruct IH with (s := log s e1) as (e2 & out & Hout & HPs & HQs).
    { intros y s' Hy. apply Hf. by right. }
    exists (e1 ++ e2), (b :: out). split; [| split].
    + simpl. eapply yields_bind; [exact Hb |].
      rewrite <- (app_nil_r e2). eapply yields_bind; [exact Hout | apply yields_ret].
    + by constructor.
    + by apply Forall_app.
Qed.

(** ** The summariser boundary *)

Section Boundary.

Variable W : World.

Lemma complete_or_report_client c model system user max_tokens failure_prefix s :
  let r := request model system user max_tokens in
  exists text,
    yields (complete_or_report W (Some c) model system user max_tokens failure_prefix)
      s [EChat c r] text
    /\ reported failure_prefix (chat_create W c r) text.
Proof.
  intros r. unfold complete_or_report, create, remote, first_choice_text, reported.
  fold (request model system user max_tokens). fold r.
  unfold_M. unfold emit. fold (log s [EChat c r]).
  destruct (chat_create W c r) as [e | [| [content |] rest]]; eauto.
Qed.

Lemma complete_or_report_no_client model system user max_tokens failure_prefix s :
  yields (complete_or_report W None model system user max_tokens failure_prefix) s []
    (failure_prefix +:+ "'NoneType' object has no attribute 'chat'").
Proof. unfold complete_or_report, create. unfold_M. by rewrite log_nil. Qed.

End Boundary.

Section Summaries.

Variable W : World.

Lemma model_or_default_truthy model provider :
  Py.truthy (model_or_default model provider) = true.
Proof.
  unfold model_or_default, get_default_model.
  destruct model as [m |]; [destruct (Py.truthy m) eqn:Hm; [done |] |];
    repeat case_decide; done.
Qed.

Lemma model_or_default_some model provider :
  Py.truthy model = true -> model_or_default (Some model) provider = model.
Proof. unfold model_or_default. by intros ->. Qed.

Lemma issue_prompt_authored {T} `{IssueLike T} (issue : T) author :
  issue_author issue = Some author -> exists prompt, issue_prompt issue = inr prompt.
Proof. intros Ha. unfold issue_prompt, issue_content. rewrite Ha. by eexists. Qed.

Lemma issue_prompt_unauthored {T} `{IssueLike T} (issue : T) :
  issue_author issue = None -> issue_prompt issue = inl TypeError_subscript.
Proof. intros Ha. unfold issue_prompt, issue_content. by rewrite Ha. Qed.

Lemma issue_prompt_cases {T} `{IssueLike T} (issue : T) :
  (exists prompt, issue_prompt issue = inr prompt /\ is_Some (issue_author issue))
  \/ (issue_prompt issue = inl TypeError_subscript /\ issue_author issue = None).
Proof.
  destruct (issue_author issue) as [author |] eqn:Ha.
  - left. destruct (issue_prompt_authored issue author Ha) as [prompt Hp]. eauto.
  - right. split; [by apply issue_prompt_unauthored | done].
Qed.

Lemma summarize_issue_client {T} `{IssueLike T} (issue : T) c provider model prompt s :
  issue_prompt issue = inr prompt ->
  let r := request (model_or_default model provider) issue_system prompt 200 in
  exists text,
    yields (summarize_issue_with_llm W issue (Some c) provider model) s [EChat c r] text
    /\ reported "Error generating summary: " (chat_create W c r) text.
Proof.
  intros Hp. unfold summarize_issue_with_llm. rewrite Hp. apply complete_or_report_client.
Qed.

Lemma summarize_issue_unauthored {T} `{IssueLike T} (issue : T) c provider model s :
  issue_author issue = None ->
  summarize_issue_with_llm W issue (Some c) provider model s = (s, inl TypeError_subscript).
Proof.
  intros Ha. unfold summarize_issue_with_llm. by rewrite (issue_prompt_unauthored issue Ha).
Qed.

Lemma summarize_issue_no_client {T} `{IssueLike T} (issue : T) provider model s :
  yields (summarize_issue_with_llm W issue None provider model) s []
    "LLM summarization not available".
Proof. apply yields_ret. Qed.

Lemma summarize_collection_client {T} `{IssueLike T} (issue : T) issues c provider model s :
  let r := request (model_or_default model provider) collection_system
             (collection_prompt (issue :: issues)) 200 in
  exists text,
    yields (summarize_issues_collection_with_llm W (issue :: issues) (Some c) provider model)
      s [EChat c r] text
    /\ reported "Error generating collection summary: " (chat_create W c r) text.
Proof. apply complete_or_report_client. Qed.

Lemma summarize_comment_client i a b t l c provider model s :
  let r := request (model_or_default model provider) comment_system
             (comment_prompt a t b) 80 in
  exists text,
    yields (summarize_comment_with_llm W (CNote i a b t l) (Some c) provider model)
      s [EChat c r] text
    /\ reported "Error generating comment summary: " (chat_create W c r) text.
Proof. apply complete_or_report_client. Qed.

Lemma summarize_collection_total {T} `{IssueLike T} (issues : list T) client provider model s :
  exists evs text,
    yields (summarize_issues_collection_with_llm W issues client provider model) s evs text
    /\ chats_of client evs.
Proof.
  destruct client as [c |], issues as [| issue issues];
    try (eexists [], _; split; [apply yields_ret | constructor]).
  destruct (summarize_collection_client issue issues c provider model s) as (text & Hrun & _).
  eexists _, text. split; [exact Hrun |]. repeat constructor. eauto.
Qed.

(** The loop of the individual summaries through a client: it sends the
    request of each issue in turn and stops, raising, at the first issue
    without an author. *)
Lemma individual_loop c provider model (issues_data : list IssueData) s :
  Py.truthy model = true ->
  exists requests,
    Forall2 (individual_request model)
      (MockIssue_init <$> take (length requests) issues_data) requests
    /\ ((Forall authored issues_data
         /\ exists entries,
              yields
                (for_each
                   (fun issue =>
                      summary ← summarize_issue_with_llm W issue (Some c) provider (Some model);
                      mret {| issue_id := m_iid issue; summary_title := m_title issue;
                              summary := summary |})
                   (MockIssue_init <$> issues_data)) s (EChat c <$> requests) entries
              /\ length requests = length issues_data
              /\ Forall2 (summary_entry_of W c provider model) issues_data entries)
        \/ (~ Forall authored issues_data
            /\ raises
                 (for_each
                    (fun issue =>
                       summary ← summarize_issue_with_llm W issue (Some c) provider
                                   (Some model);
                       mret {| issue_id := m_iid issue; summary_title := m_title issue;
                               summary := summary |})
                    (MockIssue_init <$> issues_data)) s (EChat c <$> requests)
                 TypeError_subscript
            /\ (length requests < length issues_data)%nat)).
Proof.
  intros Hmodel. revert s. induction issues_data as [| d ds IH]; intros s.
  { exists []. split; [constructor |]. left. split; [constructor |].
    exists []. by split; [apply yields_ret |]. }
  cbn [fmap list_fmap for_each].
  destruct (issue_prompt_cases (MockIssue_init d)) as [(prompt & Hp & Ha) | [Hp Ha]].
  - destruct (summarize_issue_client (MockIssue_init d) c provider (Some model) prompt s Hp)
      as (text & Hrun & Hrep).
    rewrite (model_or_default_some model provider Hmodel) in Hrun.
    set (r := request model issue_system prompt 200) in *.
    destruct (IH (log s [EChat c r])) as (requests & Hreqs & Hcases).
    exists (r :: requests). split.
    { cbn [length take fmap list_fmap]. constructor; [by exists prompt | exact Hreqs]. }
    destruct Hcases as [(Hall & entries & Hloop & Hlen & Hentries)
                       | (Hnot & Hloop & Hlen)].
    + left. split; [by constructor |].
      exists ({| issue_id := m_iid (MockIssue_init d);
                 summary_title := m_title (MockIssue_init d); summary := text |} :: entries).
      split; [| split; [cbn; by rewrite Hlen |]].
      * change (EChat c <$> r :: requests) with ([EChat c r] ++ (EChat c <$> requests)).
        apply (yields_bind _ _ s [EChat c r] (EChat c <$> requests)
                 {| issue_id := m_iid (MockIssue_init d);
                    summary_title := m_title (MockIssue_init d); summary := text |}).
        -- apply (yields_bind _ _ s [EChat c r] [] text); [exact Hrun | apply yields_ret].
        -- rewrite <- (app_nil_r (EChat c <$> requests)).
           eapply yields_bind; [exact Hloop | apply yields_ret].
      * constructor; [| exact Hentries]. split; [done |]. split; [done |].
        exists prompt. split; [done | exact Hrep].
    + right. split; [by intros [_ ?]%Forall_cons |]. split; [| cbn; lia].
      change (EChat c <$> r :: requests) with ([EChat c r] ++ (EChat c <$> requests)).
      eapply raises_bind_r.
      { apply (yields_bind _ _ s [EChat c r] [] text); [exact Hrun | apply yields_ret]. }
      by apply raises_bind_l.
  - exists []. split; [constructor |]. right.
    split; [intros [[? Hsome] _]%Forall_cons; unfold authored in *; cbn in *; congruence |].
    split; [| cbn; lia].
    unfold raises, mbind, M_bind.
    rewrite (summarize_issue_unauthored (MockIssue_init d) c provider (Some model) s Ha).
    by rewrite log_nil.
Qed.

(** The collection summary through a client, on at least one issue. *)
Lemma collection_summary_client c provider model query d ds s :
  Py.truthy model = true ->
  exists text,
    yields
      (if Py.truthy_opt query then
         complete_or_report W (Some c) model query_system
           (query_prompt (default "" query) (MockIssue_init <$> d :: ds)) 300
           "Error generating custom summary: "
       else
         summarize_issues_collection_with_llm W (MockIssue_init <$> d :: ds) (Some c)
           provider (Some model)) s
      [EChat c (collection_request model query (MockIssue_init <$> d :: ds))] text
    /\ reported
         (if Py.truthy_opt query then "Error generating custom summary: "
          else "Error generating collection summary: ")
         (chat_create W c (collection_request model query (MockIssue_init <$> d :: ds)))
         text.
Proof.
  intros Hmodel. unfold collection_request. destruct (Py.truthy_opt query).
  - apply complete_or_report_client.
  - destruct (summarize_collection_client (MockIssue_init d) (MockIssue_init <$> ds) c
                provider (Some model) s) as (text & Hrun & Hrep).
    rewrite (model_or_default_some model provider Hmodel) in Hrun, Hrep.
    by exists text.
Qed.

(** The summaries through a client: the requests of the individual summaries
    when they are asked for, then the request of the collection summary; the
    operation raises, after the requests of the issues before it, at an issue
    without an author whose individual summary is asked for. *)
Lemma render_summaries_client c provider model query summary_type d ds s :
  Py.truthy model = true ->
  exists requests,
    (if decide (summary_type = Some "individual")
     then Forall2 (individual_request model)
            (MockIssue_init <$> take (length requests) (d :: ds)) requests
     else requests = [])
    /\ ((exists individual collection_summary,
           yields (render_summaries W (Some c) provider model query summary_type (d :: ds)) s
             (EChat c <$>
                (requests ++ [collection_request model query (MockIssue_init <$> d :: ds)]))
             (summary_reply provider model query individual collection_summary, 200%nat)
           /\ reported
                (if Py.truthy_opt query then "Error generating custom summary: "
                 else "Error generating collection summary: ")
                (chat_create W c
                   (collection_request model query (MockIssue_init <$> d :: ds)))
                collection_summary
           /\ match individual with
              | Some entries =>
                  summary_type = Some "individual"
                  /\ length requests = length (d :: ds)
                  /\ Forall2 (summary_entry_of W c provider model) (d :: ds) entries
              | None => summary_type <> Some "individual"
              end)
        \/ (summary_type = Some "individual"
            /\ ~ Forall authored (d :: ds)
            /\ raises (render_summaries W (Some c) provider model query summary_type (d :: ds))
                 s (EChat c <$> requests) TypeError_subscript
            /\ (length requests < length (d :: ds))%nat)).
Proof.
  intros Hmodel. unfold render_summaries. case_decide as Hty.
  - destruct (individual_loop c provider model (d :: ds) s Hmodel)
      as (requests & Hreqs & [(Hall & entries & Hloop & Hlen & Hentries)
                             | (Hnot & Hloop & Hlen)]).
    + exists requests. split; [done |]. left.
      destruct (collection_summary_client c provider model query d ds
                  (log s (EChat c <$> requests)) Hmodel) as (coll & Hcoll & Hrep).
      exists (Some entries), coll. split; [| by split].
      rewrite fmap_app. eapply yields_bind.
      { rewrite <- (app_nil_r (EChat c <$> requests)).
        eapply yields_bind; [exact Hloop | apply yields_ret]. }
      rewrite <- (app_nil_r (EChat c <$> [_])).
      eapply yields_bind; [exact Hcoll | apply yields_ret].
    + exists requests. split; [done |]. right. split; [done |]. split; [done |].
      split; [| done]. by apply raises_bind_l, raises_bind_l.
  - exists []. split; [done |]. left.
    destruct (collection_summary_client c provider model query d ds s Hmodel)
      as (coll & Hcoll & Hrep).
    exists None, coll. split; [| by split].
    apply (yields_bind _ _ s []
             [EChat c (collection_request model query (MockIssue_init <$> d :: ds))] None);
      [apply yields_ret |].
    rewrite log_nil.
    apply (yields_bind _ _ s
             [EChat c (collection_request model query (MockIssue_init <$> d :: ds))] [] coll);
      [exact Hcoll | apply yields_ret].
Qed.

(** Without a client nothing is requested and nothing raises: every summary
    is the text that says so. *)
Lemma render_summaries_no_client provider model query summary_type issues_data s :
  exists individual collection_summary,
    yields (render_summaries W None provider model query summary_type issues_data) s []
      (summary_reply provider model query individual collection_summary, 200%nat)
    /\ (summary_type = Some "individual" <-> is_Some individual).
Proof.
  unfold render_summaries.
  assert (forall mock_issues s0, exists entries,
    yields
      (for_each
         (fun issue : MockIssue =>
            summary ← summarize_issue_with_llm W issue None provider (Some model);
            mret {| issue_id := m_iid issue; summary_title := m_title issue;
                    summary := summary |})
         mock_issues) s0 [] entries) as Hloop.
  { induction mock_issues as [| issue rest IH]; intros s0.
    - exists []. apply yields_ret.
    - destruct (IH s0) as [entries Hrest]. eexists. cbn [for_each].
      apply (yields_bind _ _ s0 [] [] _ _ (yields_ret _ _)).
      rewrite log_nil. apply (yields_bind _ _ s0 [] [] entries); [exact Hrest |].
      rewrite log_nil. apply yields_ret. }
  assert (exists coll,
    yields
      (if Py.truthy_opt query then
         complete_or_report W None model query_system
           (query_prompt (default "" query) (MockIssue_init <$> issues_data)) 300
           "Error generating custom summary: "
       else
         summarize_issues_collection_with_llm W (MockIssue_init <$> issues_data) None
           provider (Some model)) s [] coll) as [coll Hcoll].
  { destruct (Py.truthy_opt query).
    - eexists. apply complete_or_report_no_client.
    - eexists. apply yields_ret. }
  case_decide as Hty.
  - destruct (Hloop (MockIssue_init <$> issues_data) s) as [entries Hentries].
    exists (Some entries), coll. split; [| by split; [eauto |]].
    apply (yields_bind _ _ s [] [] (Some entries)).
    { apply (yields_bind _ _ s [] [] entries); [exact Hentries |].
      rewrite log_nil. apply yields_ret. }
    rewrite log_nil. apply (yields_bind _ _ s [] [] coll); [exact Hcoll |].
    rewrite log_nil. apply yields_ret.
  - exists None, coll. split; [| by split; [| intros [? ?]]].
    apply (yields_bind _ _ s [] [] None); [apply yields_ret |].
    rewrite log_nil. apply (yields_bind _ _ s [] [] coll); [exact Hcoll |].
    rewrite log_nil. apply yields_ret.
Qed.

End Summaries.

(** ** The provider registry *)

Section Registry.

Variable W : World.

Lemma for_each_print_yields lines s :
  exists out, yields (for_each print lines) s (EPrint <$> lines) out.
Proof.
  revert s. induction lines as [| l lines IH]; intros s.
  - exists []. apply yields_ret.
  - destruct (IH (log s [EPrint l])) as (out & Hout). exists (tt :: out).
    change (yields (y ← print l; ys ← for_each print lines; mret (y :: ys)) s
              ([EPrint l] ++ (EPrint <$> lines)) (tt :: out)).
    eapply yields_bind; [apply yields_print |].
    rewrite <- (app_nil_r (EPrint <$> lines)).
    eapply yields_bind; [exact Hout | apply yields_ret].
Qed.

Lemma prints_fmap lines : prints (EPrint <$> lines).
Proof. unfold prints. rewrite Forall_fmap. by apply Forall_true. Qed.

Lemma missing_key_yields (r : option Client * string) lines s :
  exists evs, yields (_ ← for_each print lines; mret r) s evs r /\ prints evs.
Proof.
  destruct (for_each_print_yields lines s) as (out & Hout).
  exists (EPrint <$> lines). split; [| apply prints_fmap].
  rewrite <- (app_nil_r (EPrint <$> lines)).
  eapply yields_bind; [exact Hout | apply yields_ret].
Qed.

(** A provider branch returns: either a client under the resolved name, or no
    client under the name that was asked for. *)
Lemma setup_branch_total provider api_key available label package env_var resolved
    ctor mk hint s :
  exists evs client name,
    yields (setup_branch W provider api_key available label package env_var resolved
              ctor mk hint) s evs (client, name)
    /\ prints evs
    /\ match client with
       | Some c => exists key, c = mk key /\ name = resolved
       | None => name = provider
       end.
Proof.
  unfold setup_branch. destruct available; simpl.
  - destruct (Py.or_else api_key (getenv W env_var)) as [key |].
    + destruct (Py.truthy key).
      * destruct (ctor key) as [e | []].
        -- eexists [_], None, provider.
           split; [done | split; [by repeat constructor | done]].
        -- eexists [], (Some (mk key)), resolved.
           split; [unfold_M; by rewrite log_nil | split; [constructor | eauto]].
      * destruct (missing_key_yields (None, provider)
          (("Error: " +:+ label +:+ " API key not found. Set " +:+ env_var
            +:+ " environment variable or use --api-key") :: hint) s) as (evs & Hrun & Hp).
        by exists evs, None, provider.
    + destruct (missing_key_yields (None, provider)
        (("Error: " +:+ label +:+ " API key not found. Set " +:+ env_var
          +:+ " environment variable or use --api-key") :: hint) s) as (evs & Hrun & Hp).
      by exists evs, None, provider.
  - eexists [_], None, provider. split; [done | split; [by repeat constructor | done]].
Qed.

Lemma setup_llm_client_total provider api_key s :
  exists evs client name,
    yields (setup_llm_client W provider api_key) s evs (client, name)
    /\ prints evs
    /\ match client with
       | Some c => name = client_provider c
       | None => name = provider
       end.
Proof.
  unfold setup_llm_client. repeat case_decide.
  - destruct (setup_branch_total provider api_key (GROQ_AVAILABLE W) "Groq" "groq"
      "GROQ_API_KEY" "groq" (groq_ctor W) GroqClient
      ["Get your free Groq API key at: https://console.groq.com/keys"] s)
      as (evs & client & name & Hrun & Hp & Hc).
    exists evs, client, name. split; [done |]. split; [done |].
    destruct client; [by destruct Hc as (key & -> & ->) | done].
  - destruct (setup_branch_total provider api_key (OPENAI_AVAILABLE W) "OpenAI" "openai"
      "OPENAI_API_KEY" "openai" (openai_ctor W) OpenAIClient [] s)
      as (evs & client & name & Hrun & Hp & Hc).
    exists evs, client, name. split; [done |]. split; [done |].
    destruct client; [by destruct Hc as (key & -> & ->) | done].
  - eexists [_], None, provider. split; [done | split; [by repeat constructor | done]].
Qed.

End Registry.

Section Resolution.

Variable W : World.

Lemma get_llm_client_cached c s :
  _llm_client (cache s) = Some c ->
  get_llm_client W s = (s, inr (Some c, _llm_provider (cache s))).
Proof. intros Hc. unfold get_llm_client, get_cache. unfold_M. by rewrite Hc. Qed.

(** The registry never raises, and leaves only prints behind. *)
Lemma get_llm_client_total s :
  exists s' client provider evs,
    get_llm_client W s = (s', inr (client, provider))
    /\ trace s' = trace s ++ evs /\ prints evs.
Proof.
  unfold get_llm_client, get_cache. unfold_M.
  destruct (_llm_client (cache s)) as [c |] eqn:Hc.
  { exists s, (Some c), (_llm_provider (cache s)), []. rewrite app_nil_r.
    split; [done |]. split; [done | constructor]. }
  destruct (Py.truthy_opt (getenv W "GROQ_API_KEY")).
  { destruct (setup_llm_client_total W "groq" (getenv W "GROQ_API_KEY") s)
      as (evs & client & name & Hrun & Hp & _).
    rewrite Hrun. unfold set_cache. simpl. eauto 10. }
  destruct (Py.truthy_opt (getenv W "OPENAI_API_KEY")).
  { destruct (setup_llm_client_total W "openai" (getenv W "OPENAI_API_KEY") s)
      as (evs & client & name & Hrun & Hp & _).
    rewrite Hrun. unfold set_cache. simpl. eauto 10. }
  exists s, None, None, []. rewrite app_nil_r. split; [done |]. split; [done | constructor].
Qed.

(** The provider switch returns, leaving only prints, unless the requested
    provider is [None] while another one is current and the OpenAI key is set:
    then the setup is called on [None] and raises. *)
Lemma resolve_requested_cases provider client current_provider s :
  (exists evs client' provider',
     yields (resolve_requested W provider client current_provider) s evs (client', provider')
     /\ prints evs)
  \/ (provider = None /\ current_provider <> None
      /\ Py.truthy_opt (getenv W "OPENAI_API_KEY") = true
      /\ resolve_requested W provider client current_provider s
         = (s, inl (AttributeError "NoneType" "lower"))).
Proof.
  unfold resolve_requested. case_decide as Hne.
  - destruct (Py.truthy_opt (requested_key W provider)) eqn:Hkey.
    + destruct provider as [provider |].
      * left. destruct (setup_llm_client_total W provider (requested_key W (Some provider)) s)
          as (evs & c & name & Hrun & Hp & _).
        exists evs, c, (Some name). split; [| done].
        rewrite <- (app_nil_r evs). eapply yields_bind; [exact Hrun | apply yields_ret].
      * right. split; [done |]. split; [done |]. split; [| done].
        unfold requested_key in Hkey. by rewrite decide_False in Hkey.
    + left. eexists [], _, _. split; [apply yields_ret | constructor].
  - left. eexists [], _, _. split; [apply yields_ret | constructor].
Qed.

(** The course of [summarize_logic]: the refusal of an empty list; else the
    registry, leaving prints, and the refusal when it gives no client; else
    the provider switch, which raises on a [null] provider or settles the
    client for the summaries. *)
Lemma summarize_logic_cases data s :
  (default [] (s_issues data) = []
   /\ summarize_logic W data s
      = (s, inr (error_reply "No issues provided for summarization", 400%nat)))
  \/ exists d ds s1 client p0 e1,
       default [] (s_issues data) = d :: ds
       /\ get_llm_client W s = (s1, inr (client, p0))
       /\ trace s1 = trace s ++ e1 /\ prints e1
       /\ match client with
          | None =>
              summarize_logic W data s
              = (s1, inr (error_reply
                            "No AI provider available. Set GROQ_API_KEY or OPENAI_API_KEY",
                          400%nat))
          | Some c0 =>
              (jget (s_provider data) (Some "groq") = None
               /\ Py.truthy_opt (getenv W "OPENAI_API_KEY") = true
               /\ summarize_logic W data s = (s1, inl (AttributeError "NoneType" "lower")))
              \/ exists e2 client' provider,
                   yields (resolve_requested W (jget (s_provider data) (Some "groq"))
                             (Some c0) p0) s1 e2 (client', provider)
                   /\ prints e2
                   /\ summarize_logic W data s
                      = render_summaries W client' provider
                          (model_or_default (s_model data) provider)
                          (jget (s_query data) (Some ""))
                          (jget (s_type data) (Some "collection")) (d :: ds) (log s1 e2)
          end.
Proof.
  unfold summarize_logic.
  destruct (default [] (s_issues data)) as [| d ds] eqn:Hissues; [by left | right].
  destruct (get_llm_client_total s) as (s1 & client & p0 & e1 & Hget & Htrace & Hp1).
  exists d, ds, s1, client, p0, e1. do 4 (split; [done |]).
  destruct client as [c0 |]; [| by unfold mbind at 1, M_bind at 1; rewrite Hget].
  destruct (resolve_requested_cases (jget (s_provider data) (Some "groq")) (Some c0) p0 s1)
    as [(e2 & client' & provider & Hres & Hp2) | (Hnull & _ & Hkey & Hres)].
  - right. exists e2, client', provider. split; [done |]. split; [done |].
    unfold mbind at 1, M_bind at 1. rewrite Hget.
    unfold mbind at 1, M_bind at 1. by rewrite Hres.
  - left. split; [done |]. split; [done |].
    unfold mbind at 1, M_bind at 1. rewrite Hget.
    unfold mbind at 1, M_bind at 1. by rewrite Hres.
Qed.

End Resolution.

(** ** Aggregation and threads *)

Lemma elem_of_iid_set (z : Z) (issues : list Issue) :
  z ∈ iid_set issues <-> z ∈ iid <$> issues.
Proof. unfold iid_set. apply elem_of_list_to_set. Qed.

Lemma append_new_aggregate A B : append_new A B = aggregate A B.
Proof.
  unfold append_new, aggregate.
  cut (forall acc,
         fold_left
           (fun issues issue =>
              if decide (iid issue ∉ iid_set A) then issues ++ [issue] else issues) B acc
         = acc ++ filter (fun b => iid b ∉ iid <$> A) B); [by intros -> |].
  induction B as [| b B IH]; intros acc; simpl.
  - by rewrite app_nil_r.
  - rewrite IH, filter_cons.
    destruct (decide (iid b ∉ iid_set A)) as [Hin | Hin];
      destruct (decide (iid b ∉ iid <$> A)) as [Hin' | Hin'];
      rewrite elem_of_iid_set in Hin; try done.
    by rewrite <- app_assoc.
Qed.

Lemma aggregate_length A B : (length (aggregate A B) <= length A + length B)%nat.
Proof.
  unfold aggregate. rewrite length_app.
  pose proof (length_filter (fun b => iid b ∉ iid <$> A) B). lia.
Qed.

Lemma aggregate_NoDup A B :
  NoDup (iid <$> A) -> NoDup (iid <$> B) -> NoDup (iid <$> aggregate A B).
Proof.
  intros HA HB. unfold aggregate. rewrite fmap_app. apply NoDup_app. split; [done |]. split.
  - intros z Hz Hz'. apply list_elem_of_fmap in Hz' as (b & -> & Hb).
    by apply list_elem_of_filter in Hb as [Hb _].
  - revert HB. induction B as [| b B IH]; [done |].
    rewrite fmap_cons. intros [Hb HB]%NoDup_cons. rewrite filter_cons.
    case_decide; [| by apply IH].
    rewrite fmap_cons. apply NoDup_cons. split; [| by apply IH].
    intros (b' & Heq & Hb')%list_elem_of_fmap. apply Hb.
    apply list_elem_of_filter in Hb' as [_ Hb']. rewrite Heq. by apply list_elem_of_fmap_2.
Qed.

Lemma aggregate_covers A B x :
  x ∈ A \/ x ∈ B -> iid x ∈ iid <$> aggregate A B.
Proof.
  unfold aggregate. rewrite fmap_app, elem_of_app. intros [Hx | Hx].
  - left. by apply list_elem_of_fmap_2.
  - destruct (decide (iid x ∈ iid <$> A)) as [Hin | Hin]; [by left | right].
    apply list_elem_of_fmap_2. by apply list_elem_of_filter.
Qed.

Section Threads.

Variable W : World.

Lemma notes_loop_total llm_client provider model notes comments s :
  exists evs cs,
    notes_loop W llm_client provider model notes comments s
    = (log s evs, (comments ++ cs, None))
    /\ Forall2 (thread_entry W llm_client provider model) notes cs
    /\ chats_of llm_client evs.
Proof.
  revert comments s. induction notes as [| note notes IH]; intros comments s.
  - exists [], []. rewrite log_nil, app_nil_r. split; [done |]. split; constructor.
  - cbn [notes_loop]. destruct llm_client as [cl |].
    + rewrite bool_decide_true by eauto. rewrite andb_true_l.
      destruct (Py.truthy_opt provider) eqn:Hp.
      * destruct (summarize_comment_client W (note_id note) (username (note_author note))
          (note_body note) (note_created_at note) None cl provider model s)
          as (text & Hrun & Hrep).
        unfold comment_of_note. rewrite Hrun.
        destruct (IH (comments ++
                        [set_llm_summary
                           (CNote (note_id note) (username (note_author note))
                              (note_body note) (note_created_at note) None) text])
                     (log s [EChat cl
                               (request (model_or_default model provider) comment_system
                                  (comment_prompt (username (note_author note))
                                     (note_created_at note) (note_body note)) 80)]))
          as (evs & cs & Hloop & Hcs & Hev).
        rewrite Hloop. eexists (_ :: evs), (_ :: cs). rewrite log_log, <- app_assoc.
        split; [reflexivity |]. split.
        -- constructor; [| done]. eexists. split; [reflexivity |]. rewrite Hp. eauto.
        -- constructor; [eauto | done].
      * destruct (IH (comments ++ [comment_of_note note]) s) as (evs & cs & Hloop & Hcs & Hev).
        rewrite Hloop. exists evs, (comment_of_note note :: cs). rewrite <- app_assoc.
        split; [done |]. split; [| done].
        constructor; [| done]. eexists. split; [reflexivity |]. by rewrite Hp.
    + rewrite bool_decide_false by (by intros [? ?]). rewrite andb_false_l.
      destruct (IH (comments ++ [comment_of_note note]) s) as (evs & cs & Hloop & Hcs & Hev).
      rewrite Hloop. exists evs, (comment_of_note note :: cs). rewrite <- app_assoc.
      split; [done |]. split; [| done].
      constructor; [| done]. by eexists.
Qed.

(** One turn of the issue loop always returns the issue with its thread. *)
Lemma attach_comments_total gl llm_client provider model issue s :
  exists evs cs,
    yields (attach_comments W gl llm_client provider model issue) s
      (ENotesList gl (iid issue) :: evs) (set_comments issue cs)
    /\ thread_of W gl llm_client provider model issue cs
    /\ chats_of llm_client evs.
Proof.
  unfold attach_comments, thread_of, yields.
  destruct (notes_list W gl issue) as [e | notes].
  - exists [], [thread_error e]. rewrite remote_raises. split; [done |]. split; [done | constructor].
  - rewrite (yields_remote _ notes s).
    destruct (notes_loop_total llm_client provider model notes []
                (log s [ENotesList gl (iid issue)])) as (evs & cs & Hloop & Hcs & Hev).
    rewrite Hloop. exists evs, cs. rewrite log_log. by split.
Qed.

(** The aggregation returns the aggregate of the two result sets; with both
    relations off it leaves no event. *)
Lemma collect_issues_yields gl user assignee author A B s :
  listed W gl Assignee user assignee = inr A ->
  listed W gl Author user author = inr B ->
  exists evs,
    yields (collect_issues W gl user assignee author) s evs (aggregate A B)
    /\ (assignee = false -> author = false -> evs = []).
Proof.
  unfold listed, collect_issues. intros HA HB.
  destruct assignee, author.
  - rewrite HA, HB. eexists. split; [| intros; discriminate].
    eapply yields_bind.
    { eapply yields_bind; [apply yields_print |].
      eapply yields_bind; [apply yields_remote | apply yields_ret]. }
    eapply yields_bind; [apply yields_print |].
    eapply yields_bind; [apply yields_remote |].
    rewrite append_new_aggregate. apply yields_ret.
  - rewrite HA. injection HB as <-. unfold aggregate. rewrite filter_nil, app_nil_r.
    eexists. split; [| intros; discriminate].
    eapply yields_bind.
    { eapply yields_bind; [apply yields_print |].
      eapply yields_bind; [apply yields_remote | apply yields_ret]. }
    apply yields_ret.
  - rewrite HB. injection HA as <-. eexists. split; [| intros; discriminate].
    eapply yields_bind; [apply yields_ret |].
    eapply yields_bind; [apply yields_print |].
    eapply yields_bind; [apply yields_remote |].
    rewrite append_new_aggregate. apply yields_ret.
  - injection HA as <-. injection HB as <-. exists []. split; [| done].
    apply (yields_bind _ _ s [] [] []); apply yields_ret.
Qed.

End Threads.

(** ** The fetch operation *)

Section Fetch.

Variable W : World.

(** When the project lookup and the enabled listings succeed, the fetch
    returns the aggregate, every issue with its thread. *)
Lemma fetch_reaches_every_issue project_url user access_token assignee author
    llm_client provider model project_path A B s :
  parse_project project_url = inr (Some project_path) ->
  let gl := connect access_token project_path in
  projects_get W gl = inr tt ->
  listed W gl Assignee user assignee = inr A ->
  listed W gl Author user author = inr B ->
  exists evs out,
    yields (fetch_issues_by_username W project_url user access_token assignee author
              llm_client provider model) s evs out
    /\ Forall2 (fetched W gl llm_client provider model) (aggregate A B) out.
Proof.
  intros Hparse gl Hget HA HB. unfold fetch_issues_by_username. rewrite Hparse. fold gl.
  destruct (collect_issues_yields W gl user assignee author A B
              (log s [EProjectsGet gl]) HA HB) as (e2 & Hcollect & _).
  destruct (yields_for_each (attach_comments W gl llm_client provider model)
              (fetched W gl llm_client provider model) (fun _ => True) (aggregate A B))
    with (s := log (log s [EProjectsGet gl]) e2) as (e3 & out & Hloop & Hout & _).
  { intros issue s0 _.
    destruct (attach_comments_total W gl llm_client provider model issue s0)
      as (evs & cs & Hrun & Hcs & _).
    eexists _, _. split; [exact Hrun |]. split; [by exists cs | by apply Forall_true]. }
  eexists _, out. split; [| exact Hout].
  apply yields_try. rewrite Hget.
  eapply yields_bind; [apply yields_remote |].
  eapply yields_bind; [exact Hcollect | exact Hloop].
Qed.

(** When the project lookup or an enabled listing raises, the handler prints
    the error and the fetch returns the empty list. *)
Lemma fetch_upstream_error project_url user access_token assignee author
    llm_client provider model project_path e s :
  parse_project project_url = inr (Some project_path) ->
  upstream_error W (connect access_token project_path) user assignee author = Some e ->
  exists evs,
    yields (fetch_issues_by_username W project_url user access_token assignee author
              llm_client provider model) s (evs ++ [EPrint (error_line e)]) [].
Proof.
  intros Hparse Herr. unfold fetch_issues_by_username. rewrite Hparse.
  set (gl := connect access_token project_path) in *.
  assert (forall evs body,
    raises body s evs e ->
    yields (try_except body (fun e => _ ← print (error_line e); mret [])) s
      (evs ++ [EPrint (error_line e)]) ([] : list Issue)) as Hcatch.
  { intros evs body Hbody. eapply yields_except; [exact Hbody |].
    apply (yields_bind _ _ _ [EPrint (error_line e)] [] tt);
      [apply yields_print | apply yields_ret]. }
  unfold upstream_error in Herr.
  destruct (projects_get W gl) as [e0 | []] eqn:Hget.
  { injection Herr as ->. eexists. apply Hcatch. apply raises_bind_l, raises_remote. }
  unfold listed in Herr. unfold collect_issues.
  destruct assignee.
  - destruct (issues_list W gl Assignee user) as [e0 | A] eqn:HA.
    + injection Herr as ->. eexists. apply Hcatch.
      eapply raises_bind_r; [apply yields_remote |].
      apply raises_bind_l, raises_bind_l.
      eapply raises_bind_r; [apply yields_print |].
      apply raises_bind_l, raises_remote.
    + destruct author; [| done].
      destruct (issues_list W gl Author user) as [e0 | B] eqn:HB; [| done].
      injection Herr as ->. eexists. apply Hcatch.
      eapply raises_bind_r; [apply yields_remote |].
      apply raises_bind_l. eapply raises_bind_r.
      { eapply yields_bind; [apply yields_print |].
        eapply yields_bind; [apply yields_remote | apply yields_ret]. }
      eapply raises_bind_r; [apply yields_print |].
      apply raises_bind_l, raises_remote.
  - destruct author; [| done].
    destruct (issues_list W gl Author user) as [e0 | B] eqn:HB; [| done].
    injection Herr as ->. eexists. apply Hcatch.
    eapply raises_bind_r; [apply yields_remote |].
    apply raises_bind_l. eapply raises_bind_r; [apply yields_ret |].
    eapply raises_bind_r; [apply yields_print |].
    apply raises_bind_l, raises_remote.
Qed.

(** The fetch returns, without touching the cache, unless the locator is a
    text of digit characters that [int] rejects: then it raises before it
    leaves any event. *)
Lemma fetch_issues_by_username_run project_url user access_token assignee author
    llm_client provider model s :
  match parse_project project_url with
  | inl e =>
      fetch_issues_by_username W project_url user access_token assignee author
        llm_client provider model s = (s, inl e)
  | inr _ =>
      exists evs out,
        yields (fetch_issues_by_username W project_url user access_token assignee author
                  llm_client provider model) s evs out
  end.
Proof.
  destruct (parse_project project_url) as [e | [project_path |]] eqn:Hparse.
  - unfold fetch_issues_by_username. by rewrite Hparse.
  - destruct (upstream_error W (connect access_token project_path) user assignee author)
      as [e |] eqn:Herr.
    + destruct (fetch_upstream_error project_url user access_token assignee author
                  llm_client provider model project_path e s Hparse Herr) as (evs & Hrun).
      eauto.
    + unfold upstream_error in Herr.
      destruct (projects_get W (connect access_token project_path)) as [| []] eqn:Hget;
        [done |].
      destruct (listed W (connect access_token project_path) Assignee user assignee)
        as [| A] eqn:HA; [done |].
      destruct (listed W (connect access_token project_path) Author user author)
        as [| B] eqn:HB; [done |].
      destruct (fetch_reaches_every_issue project_url user access_token assignee author
                  llm_client provider model project_path A B s Hparse Hget HA HB)
        as (evs & out & Hrun & _).
      eauto.
  - unfold fetch_issues_by_username. rewrite Hparse. eexists _, _.
    eapply yields_bind; [apply yields_print | apply yields_ret].
Qed.

(** A locator raises only as a text of digit characters, superscripts among
    them, and with the error of [int]. *)
Lemma parse_project_raises project_url e :
  parse_project project_url = inl e ->
  e = ValueError_int project_url
  /\ Py.isdigit project_url = true /\ Py.all_decimal project_url = false.
Proof.
  unfold parse_project, Py.int.
  destruct (Py.startswith "https://gitlab.com/" project_url); [done |].
  destruct (Py.isdigit project_url) eqn:Hd; [| done].
  destruct (Py.truthy project_url && Py.all_decimal project_url) eqn:Hdec; [done |].
  intros [= <-]. split; [done |]. split; [done |].
  unfold Py.isdigit in Hd. apply andb_prop in Hd as [Ht _]. by rewrite Ht in Hdec.
Qed.

End Fetch.

(** ** Claims on the fetch operation *)

Lemma fetched_iids W gl llm_client provider model issues out :
  Forall2 (fetched W gl llm_client provider model) issues out ->
  iid <$> out = iid <$> issues.
Proof.
  induction 1 as [| issue o issues out (cs & -> & _) _ IH]; [done |].
  rewrite !fmap_cons. by rewrite IH.
Qed.

(** C1 (amended).  When the project lookup and both listings succeed with the
    assignee sequence [A] and the author sequence [B], the fetch returns [A]
    followed by the issues of [B] whose [iid] does not occur in [A], in the
    order of [B], each with only its comments set.  The result is no longer
    than [A] and [B] together; every issue of either input has its [iid] in
    the result; and the result has no two issues with the same [iid] provided
    neither [A] nor [B] has. *)
Theorem fetch_aggregates_assignee_first W project_url user access_token
    llm_client provider model project_path A B s :
  parse_project project_url = inr (Some project_path) ->
  projects_get W (connect access_token project_path) = inr tt ->
  issues_list W (connect access_token project_path) Assignee user = inr A ->
  issues_list W (connect access_token project_path) Author user = inr B ->
  exists evs out,
    yields (fetch_issues_by_username W project_url user access_token true true
              llm_client provider model) s evs out
    /\ Forall2 (fun issue o => exists cs, o = set_comments issue cs)
         (A ++ filter (fun b => iid b ∉ iid <$> A) B) out
    /\ (length out <= length A + length B)%nat
    /\ (forall x, x ∈ A \/ x ∈ B -> iid x ∈ iid <$> out)
    /\ (NoDup (iid <$> A) -> NoDup (iid <$> B) -> NoDup (iid <$> out)).
Proof.
  intros Hparse Hget HA HB.
  destruct (fetch_reaches_every_issue W project_url user access_token true true
              llm_client provider model project_path A B s Hparse Hget HA HB)
    as (evs & out & Hrun & Hout).
  pose proof (fetched_iids _ _ _ _ _ _ _ Hout) as Hiids.
  exists evs, out. split; [exact Hrun |]. split; [| split; [| split]].
  - eapply Forall2_impl; [exact Hout |]. intros issue o (cs & -> & _). by exists cs.
  - rewrite <- (length_fmap iid out), Hiids, length_fmap. apply aggregate_length.
  - intros x Hx. rewrite Hiids. by apply aggregate_covers.
  - intros HnA HnB. rewrite Hiids. by apply aggregate_NoDup.
Qed.

Lemma fetch_aggregates_assignee_first_witness :
  exists evs out,
    yields (fetch_issues_by_username scenario_world "42" "alice" None true true
              None None None) init_state evs out
    /\ Forall2 (fun issue o => exists cs, o = set_comments issue cs)
         ([sample_issue 1 None; sample_issue 2 (Some "seen as assignee")]
          ++ filter (fun b => iid b ∉ iid <$> [sample_issue 1 None;
                                               sample_issue 2 (Some "seen as assignee")])
               [sample_issue 2 (Some "seen as author"); sample_issue 3 None]) out
    /\ (length out <= 2 + 2)%nat
    /\ (forall x,
          x ∈ [sample_issue 1 None; sample_issue 2 (Some "seen as assignee")]
          \/ x ∈ [sample_issue 2 (Some "seen as author"); sample_issue 3 None] ->
          iid x ∈ iid <$> out)
    /\ (NoDup (iid <$> [sample_issue 1 None; sample_issue 2 (Some "seen as assignee")]) ->
        NoDup (iid <$> [sample_issue 2 (Some "seen as author"); sample_issue 3 None]) ->
        NoDup (iid <$> out)).
Proof.
  apply (fetch_aggregates_assignee_first scenario_world "42" "alice" None None None None
           (ProjectId 42)); reflexivity.
Defined.

(** The scenario of the specification: assignee issues 1 and 2, author issues
    2 and 3, aggregate 1, 2, 3, the second taken from the assignee side. *)
Example scenario_aggregate :
  returned_as (fun out => (iid <$> out, description <$> out))
    (fetch_issues_by_username scenario_world "42" "alice" None true true
       None None None init_state)
  = inr ([1; 2; 3], [None; Some "seen as assignee"; None]).
Proof. vm_compute. reflexivity. Qed.

(** C1, as stated, fails: an author listing that holds an [iid] twice is
    appended twice, since the set of ids is computed once before the loop. *)
Lemma repeated_iid_is_kept :
  returned_as (fmap iid)
    (fetch_issues_by_username repeating_world "42" "alice" None true true
       None None None init_state)
  = inr [3; 3].
Proof. vm_compute. reflexivity. Qed.

(** C2 (amended).  When the project lookup or an enabled listing raises, the
    fetch catches the exception, prints one line naming it and returns the
    empty list: the value a fetch that found no issue returns. *)
Theorem upstream_error_returns_empty_list W project_url user access_token
    assignee author llm_client provider model project_path e s :
  parse_project project_url = inr (Some project_path) ->
  upstream_error W (connect access_token project_path) user assignee author = Some e ->
  exists evs,
    yields (fetch_issues_by_username W project_url user access_token assignee author
              llm_client provider model) s (evs ++ [EPrint (error_line e)]) [].
Proof. apply fetch_upstream_error. Qed.

Lemma upstream_error_returns_empty_list_witness :
  parse_project "42" = inr (Some (ProjectId 42))
  /\ upstream_error missing_project_world (connect None (ProjectId 42)) "alice" true true
     = Some project_not_found
  /\ exists evs,
       yields (fetch_issues_by_username missing_project_world "42" "alice" None true true
                 None None None) init_state
         (evs ++ [EPrint "GitLab API Error: 404: 404 Project Not Found"]) [].
Proof.
  split; [reflexivity |]. split; [reflexivity |].
  apply (upstream_error_returns_empty_list missing_project_world "42" "alice" None true true
           None None None (ProjectId 42) project_not_found init_state); reflexivity.
Defined.

(** C2, as stated, fails: a project the tracker does not find and a project
    without issues give the same returned value, the empty list. *)
Lemma failed_fetch_returns_empty_list :
  returned (fetch_issues_by_username missing_project_world "42" "alice" None true true
              None None None init_state) = inr []
  /\ returned (fetch_issues_by_username empty_project_world "42" "alice" None true true
                 None None None init_state) = inr [].
Proof. split; vm_compute; reflexivity. Qed.

(** C3.  When the fetch reaches the aggregate, the result has one issue per
    aggregated issue, in order, each with every attribute but [comments] as
    it was.  An issue whose thread cannot be listed carries the single error
    entry naming the failure; every other issue carries one comment per note
    of its own thread, in order, whatever happened to the threads of the
    others. *)
Theorem thread_failure_stays_on_its_issue W project_url user access_token assignee author
    llm_client provider model project_path A B s :
  parse_project project_url = inr (Some project_path) ->
  projects_get W (connect access_token project_path) = inr tt ->
  listed W (connect access_token project_path) Assignee user assignee = inr A ->
  listed W (connect access_token project_path) Author user author = inr B ->
  exists evs out,
    yields (fetch_issues_by_username W project_url user access_token assignee author
              llm_client provider model) s evs out
    /\ Forall2
         (fun issue o =>
            same_but_comments issue o
            /\ (forall e,
                  notes_list W (connect access_token project_path) issue = inl e ->
                  comments o
                  = Some [CError ("Failed to fetch or summarize comments: " +:+ message e)])
            /\ (forall notes,
                  notes_list W (connect access_token project_path) issue = inr notes ->
                  exists cs,
                    comments o = Some cs
                    /\ Forall2 (thread_entry W llm_client provider model) notes cs))
         (aggregate A B) out.
Proof.
  intros Hparse Hget HA HB.
  destruct (fetch_reaches_every_issue W project_url user access_token assignee author
              llm_client provider model project_path A B s Hparse Hget HA HB)
    as (evs & out & Hrun & Hout).
  exists evs, out. split; [exact Hrun |].
  eapply Forall2_impl; [exact Hout |].
  intros issue o (cs & -> & Hcs). split; [by repeat split |].
  unfold thread_of in Hcs. split.
  - intros e He. rewrite He in Hcs. by rewrite Hcs.
  - intros notes Hn. rewrite Hn in Hcs. by exists cs.
Qed.

Lemma thread_failure_stays_on_its_issue_witness :
  exists evs out,
    yields (fetch_issues_by_username broken_thread_world "42" "alice" None true true
              None None None) init_state evs out
    /\ Forall2
         (fun issue o =>
            same_but_comments issue o
            /\ (forall e,
                  notes_list broken_thread_world (connect None (ProjectId 42)) issue = inl e ->
                  comments o
                  = Some [CError ("Failed to fetch or summarize comments: " +:+ message e)])
            /\ (forall notes,
                  notes_list broken_thread_world (connect None (ProjectId 42)) issue
                  = inr notes ->
                  exists cs,
                    comments o = Some cs
                    /\ Forall2 (thread_entry broken_thread_world None None None) notes cs))
         (aggregate [sample_issue 4 None; sample_issue 5 None]
                    [sample_issue 5 None; sample_issue 6 None]) out.
Proof.
  apply (thread_failure_stays_on_its_issue broken_thread_world "42" "alice" None true true
           None None None (ProjectId 42)); reflexivity.
Defined.

(** The scenario of the specification, on issues 4, 5 and 6: only issue 5
    carries the error entry. *)
Example scenario_broken_thread :
  returned_as (fmap (fun o => (iid o, comments o)))
    (fetch_issues_by_username broken_thread_world "42" "alice" None true true
       None None None init_state)
  = inr [ (4, Some [CNote 7 "alice" "Looks good" "2024-05-03T10:00:00Z" None]);
          (5, Some [CError "Failed to fetch or summarize comments: Connection reset by peer"]);
          (6, Some [CNote 7 "alice" "Looks good" "2024-05-03T10:00:00Z" None]) ].
Proof. vm_compute. reflexivity. Qed.

(** The course of [fetch_issues_logic]: the refusal of a body without its
    required fields, leaving nothing; else the fetch, whose exception it lets
    through and whose issues it reports as a success. *)
Lemma fetch_issues_logic_run W data s :
  (required_fields data = false
   /\ yields (fetch_issues_logic W data) s []
        (error_reply "Missing required fields: project_url and username", 400%nat))
  \/ exists project_url username,
       required_fields data = true
       /\ b_project_url data = Some project_url /\ Py.truthy project_url = true
       /\ Py.or_else (b_username data) (b_user data) = Some username
       /\ Py.truthy username = true
       /\ match parse_project project_url with
          | inl e => fetch_issues_logic W data s = (s, inl e)
          | inr _ =>
              exists evs issues,
                yields (fetch_issues_by_username W project_url username (token_of W data)
                          (negb (b_author_only data)) (negb (b_assignee_only data))
                          None None None) s evs issues
                /\ yields (fetch_issues_logic W data) s evs
                     (fetch_reply project_url username (issue_data_of <$> issues), 200%nat)
          end.
Proof.
  unfold fetch_issues_logic, required_fields.
  destruct (b_project_url data) as [project_url |];
    [| left; split; [done | apply yields_ret]].
  destruct (Py.or_else (b_username data) (b_user data)) as [username |];
    [| left; split; [apply andb_false_r | apply yields_ret]].
  cbn [Py.truthy_opt].
  destruct (Py.truthy project_url) eqn:Hp; [| left; split; [done | apply yields_ret]].
  destruct (Py.truthy username) eqn:Hu; [| left; split; [done | apply yields_ret]].
  right. exists project_url, username. do 5 (split; [done |]). cbn [andb].
  pose proof (fetch_issues_by_username_run W project_url username (token_of W data)
                (negb (b_author_only data)) (negb (b_assignee_only data)) None None None s)
    as Hfetch.
  destruct (parse_project project_url) as [e | r].
  - unfold mbind, M_bind. fold (token_of W data). by rewrite Hfetch.
  - destruct Hfetch as (evs & issues & Hrun). exists evs, issues. split; [exact Hrun |].
    rewrite <- (app_nil_r evs). eapply yields_bind; [exact Hrun |].
    unfold fetch_reply. apply yields_ret.
Qed.

(** C8 (amended).  With both relations off the fetch lists neither issues nor
    notes, and returns the empty list when it returns: with a locator that
    names a project it still looks the project up, and prints the error when
    that lookup raises; with a locator that is neither a URL nor made of digit
    characters it only prints; a text of digit characters that [int] rejects
    makes it raise before any event.  Through [fetch_issues_logic] the outcome
    is a success with no issue whenever the required fields are there and the
    locator does not raise. *)
Theorem fetch_without_relations W s :
  (forall project_url user access_token llm_client provider model,
     match parse_project project_url with
     | inl e =>
         raises (fetch_issues_by_username W project_url user access_token false false
                   llm_client provider model) s [] e
     | inr None =>
         yields (fetch_issues_by_username W project_url user access_token false false
                   llm_client provider model) s
           [EPrint "Error: Please provide either a GitLab URL or project ID"] []
     | inr (Some project_path) =>
         yields (fetch_issues_by_username W project_url user access_token false false
                   llm_client provider model) s
           (EProjectsGet (connect access_token project_path)
            :: match projects_get W (connect access_token project_path) with
               | inl e => [EPrint (error_line e)]
               | inr _ => []
               end) []
     end)
  /\ (forall data project_url username r,
        b_project_url data = Some project_url -> Py.truthy project_url = true ->
        Py.or_else (b_username data) (b_user data) = Some username ->
        Py.truthy username = true ->
        parse_project project_url = inr r ->
        b_assignee_only data = true -> b_author_only data = true ->
        exists evs,
          yields (fetch_issues_logic W data) s evs (fetch_reply project_url username [], 200%nat)).
Proof.
  assert (forall project_url user access_token llm_client provider model,
     match parse_project project_url with
     | inl e =>
         raises (fetch_issues_by_username W project_url user access_token false false
                   llm_client provider model) s [] e
     | inr None =>
         yields (fetch_issues_by_username W project_url user access_token false false
                   llm_client provider model) s
           [EPrint "Error: Please provide either a GitLab URL or project ID"] []
     | inr (Some project_path) =>
         yields (fetch_issues_by_username W project_url user access_token false false
                   llm_client provider model) s
           (EProjectsGet (connect access_token project_path)
            :: match projects_get W (connect access_token project_path) with
               | inl e => [EPrint (error_line e)]
               | inr _ => []
               end) []
     end) as Hfetch.
  { intros project_url user access_token llm_client provider model.
    unfold fetch_issues_by_username.
    destruct (parse_project project_url) as [e | [project_path |]].
    - unfold raises, raise. by rewrite log_nil.
    - set (gl := connect access_token project_path).
      destruct (projects_get W gl) as [e | []].
      + apply (yields_except _ _ _ [EProjectsGet gl] [EPrint (error_line e)] e).
        * apply raises_bind_l, raises_remote.
        * apply (yields_bind _ _ _ [EPrint (error_line e)] [] tt);
            [apply yields_print | apply yields_ret].
      + apply yields_try.
        apply (yields_bind _ _ _ [EProjectsGet gl] [] tt); [apply yields_remote |].
        destruct (collect_issues_yields W gl user false false [] []
                    (log s [EProjectsGet gl]) eq_refl eq_refl) as (evs & Hrun & Hevs).
        rewrite (Hevs eq_refl eq_refl) in Hrun.
        apply (yields_bind _ _ _ [] [] []); [exact Hrun | apply yields_ret].
    - apply (yields_bind _ _ _ [_] [] tt); [apply yields_print | apply yields_ret]. }
  split; [exact Hfetch |].
  intros data project_url username r Hp Hpt Hu Hut Hparse Ha Hb.
  unfold fetch_issues_logic. rewrite Hp, Hu, Hpt, Hut, Ha, Hb. simpl.
  specialize (Hfetch project_url username
                (Py.or_else (b_access_token data) (getenv W "GITLAB_ACCESS_TOKEN"))
                None None None).
  rewrite Hparse in Hfetch.
  destruct r as [project_path |]; eexists; rewrite <- (app_nil_r _);
    (eapply yields_bind; [exact Hfetch | apply yields_ret]).
Qed.

Lemma fetch_without_relations_witness :
  exists evs,
    yields (fetch_issues_logic empty_project_world no_relation_body) init_state evs
      (fetch_reply "42" "alice" [], 200%nat).
Proof.
  apply (proj2 (fetch_without_relations empty_project_world init_state) no_relation_body
           "42" "alice" (Some (ProjectId 42)));
    reflexivity.
Defined.

(** C8, as stated, fails: with both relations off and a well-formed locator
    the project is still looked up on the tracker. *)
Lemma project_lookup_without_relations :
  network_calls (fetch_issues_by_username empty_project_world "42" "alice" None false false
                   None None None init_state)
  = [EProjectsGet {| private_token := None; project := ProjectId 42 |}].
Proof. vm_compute. reflexivity. Qed.

(** ** Claims on the prompt builder *)

Lemma str_app_assoc (a b c : string) : (a +:+ b) +:+ c = a +:+ (b +:+ c).
Proof.
  induction a as [| x a IH]; [done |].
  change (String x ((a +:+ b) +:+ c) = String x (a +:+ (b +:+ c))). by rewrite IH.
Qed.

Lemma str_app_nil_r (a : string) : a +:+ "" = a.
Proof.
  induction a as [| x a IH]; [done |].
  change (String x (a +:+ "") = String x a). by rewrite IH.
Qed.

Lemma len_app (a b : string) : Py.len (a +:+ b) = (Py.len a + Py.len b)%nat.
Proof.
  induction a as [| x a IH]; [done |].
  change (S (Py.len (a +:+ b)) = S (Py.len a + Py.len b)). by rewrite IH.
Qed.

Lemma len_take n s : Py.len (Py.take n s) = (n `min` Py.len s)%nat.
Proof.
  revert s. induction n as [| n IH]; intros [| c s]; try done.
  cbn. by rewrite IH.
Qed.

Lemma overview_step_entry {T} `{IssueLike T} (acc : string) (issue : T) :
  overview_step acc issue = acc +:+ overview_entry issue.
Proof.
  unfold overview_step, overview_entry.
  destruct (issue_description issue) as [d |]; [destruct (Py.truthy d) |];
    rewrite ?str_app_assoc; done.
Qed.

Lemma overview_loop_entries {T} `{IssueLike T} (issues : list T) (acc : string) :
  fold_left overview_step issues acc
  = acc +:+ foldr String.append "" (overview_entry <$> issues).
Proof.
  revert acc. induction issues as [| issue issues IH]; intros acc.
  - cbn. by rewrite str_app_nil_r.
  - rewrite fmap_cons. cbn [fold_left foldr].
    by rewrite IH, overview_step_entry, str_app_assoc.
Qed.

(** C5.  The overview of a collection is the total count, then the entries of
    the first ten issues in order, then the count of the remainder when there
    are more than ten; an entry previews a non-empty description, and a
    preview is the description itself up to 100 characters, else its first 100
    characters followed by three dots.  This overview is what the collection
    summary sends to the provider. *)
Theorem collection_overview_is_bounded {T} `{IssueLike T} (issues : list T) :
  issues_overview issues
  = "Total issues: " +:+ Py.str_nat (length issues) +:+ Py.nl +:+ Py.nl
      +:+ foldr String.append "" (overview_entry <$> take 10 issues)
      +:+ (if decide (10 < length issues)%nat
           then "... and " +:+ Py.str_nat (length issues - 10) +:+ " more issues" +:+ Py.nl
           else "")
  /\ (length (overview_entry <$> take 10 issues) <= 10)%nat
  /\ (forall d,
        (Py.len (desc_preview d) <= 103)%nat
        /\ ((Py.len d <= 100)%nat -> desc_preview d = d)
        /\ ((100 < Py.len d)%nat ->
            desc_preview d = Py.take 100 d +:+ "..."
            /\ Py.len (Py.take 100 d) = 100%nat
            /\ Py.len (desc_preview d) = 103%nat))
  /\ (forall W c issue rest provider model s,
        issues = issue :: rest ->
        exists text,
          yields (summarize_issues_collection_with_llm W issues (Some c) provider model) s
            [EChat c (request (model_or_default model provider) collection_system
                        (block ind4
                           [ "Please provide a high-level summary of this collection of GitLab issues:";
                             ""; issues_overview issues; ""; "Include:";
                             "- Overall themes or patterns";
                             "- Distribution of issue states (open/closed)";
                             "- Key areas of focus or concern";
                             "- Any notable trends"; "";
                             "Keep it concise (3-4 sentences)." ]) 200)] text).
Proof.
  split; [| split; [| split]].
  - unfold issues_overview. rewrite overview_loop_entries.
    case_decide; rewrite ?str_app_assoc, ?str_app_nil_r; done.
  - rewrite length_fmap, length_take. lia.
  - intros d. unfold desc_preview. case_decide as Hd.
    + rewrite len_app, len_take. cbn [Py.len String.length].
      repeat split; try lia.
    + repeat split; try lia; done.
  - intros W c issue rest provider model s ->.
    destruct (summarize_collection_client W issue rest c provider model s)
      as (text & Hrun & _).
    by exists text.
Qed.

(** An overview of twelve issues, the second with a long description. *)
Example overview_of_twelve :
  let long := foldr String.append "" (replicate 21 "abcde") in
  let issues :=
    sample_issue 1 None :: sample_issue 2 (Some long)
      :: ((fun n => sample_issue n None) <$> seqZ 3 10) in
  length (overview_entry <$> take 10 issues) = 10%nat
  /\ desc_preview long = foldr String.append "" (replicate 20 "abcde") +:+ "..."
  /\ Py.drop (Py.len (issues_overview issues) - 23) (issues_overview issues)
     = Py.nl +:+ "... and 2 more issues" +:+ Py.nl.
Proof. vm_compute. repeat split. Qed.

(** ** The summarize operation, once the client is settled *)

Lemma issue_prompt_written {T} `{IssueLike T} (issue : T) author :
  issue_author issue = Some author ->
  issue_prompt issue
  = inr (written_prompt (issue_iid issue) (issue_title issue) (issue_state issue) author
           (issue_created_at issue) (issue_description issue)
           (text_or (comments_text issue) "No comments")).
Proof.
  intros Ha. unfold issue_prompt, issue_content. rewrite Ha. f_equal.
  unfold written_prompt, block, ind4, Py.join, text_or, Py.nl. cbn [fold_right].
  assert ((if Py.truthy (default "" (issue_description issue))
           then default "" (issue_description issue) else "No description provided")
          = (if Py.truthy_opt (issue_description issue)
             then default "" (issue_description issue) else "No description provided")) as ->.
  { by destruct (issue_description issue). }
  rewrite !str_app_assoc. reflexivity.
Qed.

(** When the registry gives a client and the switch settles on client [c]
    under the name [provider], [summarize_logic] is the summaries through
    [c]. *)
Lemma summarize_logic_client W data s s1 c0 p0 e2 client provider d ds :
  default [] (s_issues data) = d :: ds ->
  get_llm_client W s = (s1, inr (Some c0, p0)) ->
  yields (resolve_requested W (jget (s_provider data) (Some "groq")) (Some c0) p0) s1 e2
    (client, provider) ->
  summarize_logic W data s
  = render_summaries W client provider (model_or_default (s_model data) provider)
      (jget (s_query data) (Some "")) (jget (s_type data) (Some "collection")) (d :: ds)
      (log s1 e2).
Proof.
  intros Hissues Hget Hres. unfold summarize_logic. rewrite Hissues.
  unfold mbind at 1, M_bind at 1. rewrite Hget.
  unfold mbind at 1, M_bind at 1. by rewrite Hres.
Qed.

(** The events of the registry are prints. *)
Lemma get_llm_client_prints W s s1 r :
  get_llm_client W s = (s1, r) -> exists e1, trace s1 = trace s ++ e1 /\ prints e1.
Proof.
  intros Hget. destruct (get_llm_client_total W s) as (s1' & c & p & e1 & Hrun & Ht & Hp).
  rewrite Hget in Hrun. injection Hrun as -> _. eauto.
Qed.

Lemma chat_requests_app a b : chat_requests (a ++ b) = chat_requests a ++ chat_requests b.
Proof. apply omap_app. Qed.

Lemma chat_requests_prints evs : prints evs -> chat_requests evs = [].
Proof. induction 1 as [| [] evs He _ IH]; done. Qed.

Lemma chat_requests_chats c rs : chat_requests (EChat c <$> rs) = pair c <$> rs.
Proof. induction rs as [| r rs IH]; [done |]. cbn. by f_equal. Qed.

Lemma tracker_calls_prints evs : prints evs -> tracker_calls evs = [].
Proof.
  unfold tracker_calls. induction 1 as [| [] evs He _ IH]; done.
Qed.

Lemma tracker_calls_app a b : tracker_calls (a ++ b) = tracker_calls a ++ tracker_calls b.
Proof. apply filter_app. Qed.

Lemma tracker_calls_requests c rs : tracker_calls (EChat c <$> rs) = [].
Proof. unfold tracker_calls. induction rs as [| r rs IH]; [done |]. exact IH. Qed.

Lemma jget_null {A} (f : JField A) (a : A) : jget f (Some a) = None -> f = JNull.
Proof. by destruct f. Qed.

(** The events of [summarize_logic], case by case: no call to the tracker,
    and the requests of the summaries when a client is settled. *)
Lemma summarize_logic_trace W data s :
  let issues := default [] (s_issues data) in
  let individual :=
    bool_decide (jget (s_type data) (Some "collection") = Some "individual") in
  exists s' r evs,
    summarize_logic W data s = (s', r)
    /\ trace s' = trace s ++ evs
    /\ tracker_calls evs = []
    /\ (length (chat_requests evs) <= length issues + 1)%nat
    /\ match r with
       | inr (reply, status) =>
           (status = 400%nat /\ chat_requests evs = [])
           \/ (status = 200%nat
               /\ exists model,
                    r_model reply = Some model /\ Py.truthy model = true
                    /\ (chat_requests evs = []
                        \/ exists c requests,
                             chat_requests evs
                             = pair c <$> (requests
                                           ++ [collection_request model
                                                 (jget (s_query data) (Some ""))
                                                 (MockIssue_init <$> issues)])
                             /\ if individual
                                then Forall2 (individual_request model)
                                       (MockIssue_init <$> issues) requests
                                else requests = []))
       | inl e =>
           (e = AttributeError "NoneType" "lower" /\ s_provider data = JNull
            /\ chat_requests evs = [])
           \/ (e = TypeError_subscript /\ individual = true /\ ~ Forall authored issues
               /\ exists c model requests,
                    chat_requests evs = pair c <$> requests
                    /\ Forall2 (individual_request model)
                         (MockIssue_init <$> take (length requests) issues) requests)
       end.
Proof.
  intros issues individual. subst issues individual.
  destruct (summarize_logic_cases W data s)
    as [[Hissues Hrefuse]
       | (d & ds & s1 & client & p0 & e1 & Hissues & Hget & Htrace & Hp1 & Hcases)].
  { rewrite Hissues. exists s. eexists _, []. rewrite app_nil_r.
    split; [exact Hrefuse |]. split; [done |]. split; [done |]. split; [cbn; lia |].
    by left. }
  rewrite Hissues.
  destruct client as [c0 |].
  2:{ exists s1. eexists _, e1. split; [exact Hcases |]. split; [done |].
      split; [by apply tracker_calls_prints |].
      rewrite (chat_requests_prints _ Hp1). split; [cbn; lia |]. by left. }
  destruct Hcases as [(Hnull & _ & Hraise) | (e2 & client & provider & Hres & Hp2 & Hrender)].
  { exists s1. eexists _, e1. split; [exact Hraise |]. split; [done |].
    split; [by apply tracker_calls_prints |].
    rewrite (chat_requests_prints _ Hp1). split; [cbn; lia |].
    left. split; [done |]. split; [by apply jget_null in Hnull | done]. }
  set (model := model_or_default (s_model data) provider) in *.
  assert (Py.truthy model = true) as Hmodel by apply model_or_default_truthy.
  rewrite Hrender. destruct client as [c |].
  - destruct (render_summaries_client W c provider model (jget (s_query data) (Some ""))
                (jget (s_type data) (Some "collection")) d ds (log s1 e2) Hmodel)
      as (requests & Hreqs & [(individual & coll & Hrun & _ & Hshape)
                             | (Hty & Hnot & Hraise & Hlen)]).
    + unfold yields in Hrun. rewrite Hrun.
      assert (length requests
              = if bool_decide (jget (s_type data) (Some "collection") = Some "individual")
                then length (d :: ds) else 0%nat) as Hcount.
      { destruct individual as [entries |].
        - destruct Hshape as (Hty & Hlen & _). by rewrite bool_decide_true.
        - rewrite bool_decide_false by done. rewrite decide_False in Hreqs by done.
          by subst requests. }
      eexists _, _, (e1 ++ e2 ++ (EChat c <$> (requests ++ [_]))).
      split; [reflexivity |].
      split; [by rewrite !trace_log, Htrace, <- !app_assoc |].
      rewrite !tracker_calls_app, !chat_requests_app.
      rewrite (tracker_calls_prints _ Hp1), (tracker_calls_prints _ Hp2),
        tracker_calls_requests.
      rewrite (chat_requests_prints _ Hp1), (chat_requests_prints _ Hp2),
        chat_requests_chats. cbn [app].
      split; [done |].
      split.
      { rewrite length_fmap, length_app, Hcount. case_bool_decide; cbn; lia. }
      right. split; [done |]. exists model. split; [done |]. split; [done |].
      right. exists c, requests. split; [done |].
      case_bool_decide as Hty.
      * rewrite decide_True in Hreqs by done.
        by rewrite Hcount, firstn_all in Hreqs.
      * rewrite decide_False in Hreqs by done. done.
    + unfold raises in Hraise. rewrite Hraise.
      eexists _, _, (e1 ++ e2 ++ (EChat c <$> requests)).
      split; [reflexivity |].
      split; [by rewrite !trace_log, Htrace, <- !app_assoc |].
      rewrite !tracker_calls_app, !chat_requests_app.
      rewrite (tracker_calls_prints _ Hp1), (tracker_calls_prints _ Hp2),
        tracker_calls_requests.
      rewrite (chat_requests_prints _ Hp1), (chat_requests_prints _ Hp2),
        chat_requests_chats. cbn [app].
      split; [done |]. split; [rewrite length_fmap; lia |].
      right. split; [done |]. split; [by rewrite bool_decide_true |]. split; [done |].
      exists c, model, requests. split; [done |]. by rewrite decide_True in Hreqs.
  - destruct (render_summaries_no_client W provider model (jget (s_query data) (Some ""))
                (jget (s_type data) (Some "collection")) (d :: ds) (log s1 e2))
      as (individual & coll & Hrun & _).
    unfold yields in Hrun. rewrite Hrun. eexists _, _, (e1 ++ e2).
    split; [reflexivity |].
    split; [by rewrite !trace_log, Htrace, app_nil_r, <- !app_assoc |].
    rewrite !tracker_calls_app, !chat_requests_app.
    rewrite (tracker_calls_prints _ Hp1), (tracker_calls_prints _ Hp2).
    rewrite (chat_requests_prints _ Hp1), (chat_requests_prints _ Hp2).
    split; [done |]. split; [cbn; lia |].
    right. split; [done |]. exists model. split; [done |]. split; [done |]. by left.
Qed.

(** The request of the individual summary of a rebuilt issue carries the
    prompt with the placeholder. *)
Lemma individual_request_rebuilt model issue_data r :
  individual_request model (MockIssue_init issue_data) r ->
  exists author,
    m_author (MockIssue_init issue_data) = Some author
    /\ r = request model issue_system (rebuilt_prompt (MockIssue_init issue_data) author) 200.
Proof.
  intros (prompt & Hprompt & ->).
  destruct (m_author (MockIssue_init issue_data)) as [author |] eqn:Ha.
  - exists author. split; [done |].
    assert (issue_author (MockIssue_init issue_data) = Some author) as Ha' by exact Ha.
    rewrite (issue_prompt_written (MockIssue_init issue_data) author Ha') in Hprompt.
    by injection Hprompt as <-.
  - assert (issue_author (MockIssue_init issue_data) = None) as Ha' by exact Ha.
    by rewrite (issue_prompt_unauthored (MockIssue_init issue_data) Ha') in Hprompt.
Qed.

(** An entry of the individual summaries is reported from the request that
    carries the prompt with the placeholder. *)
Lemma summary_entry_rebuilt W c provider model issue_data entry :
  summary_entry_of W c provider model issue_data entry ->
  entry_of_rebuilt W c provider model issue_data entry.
Proof.
  intros (Hid & Htitle & prompt & Hprompt & Hrep).
  split; [done |]. split; [done |].
  destruct (individual_request_rebuilt (model_or_default (Some model) provider) issue_data
              (request (model_or_default (Some model) provider) issue_system prompt 200))
    as (author & Ha & Hreq); [by exists prompt |].
  exists author. split; [done |]. by rewrite <- Hreq.
Qed.

Lemma individual_requests_rebuilt c model (issues_data : list IssueData) requests :
  Forall2 (individual_request model) (MockIssue_init <$> issues_data) requests ->
  Forall
    (fun cr : Client * ChatRequest =>
       exists issue_data author,
         issue_data ∈ issues_data
         /\ m_author (MockIssue_init issue_data) = Some author
         /\ req_user cr.2 = rebuilt_prompt (MockIssue_init issue_data) author)
    (pair c <$> requests).
Proof.
  rewrite Forall2_fmap_l. induction 1 as [| d r ds rs Hr _ IH]; [constructor |].
  rewrite fmap_cons. constructor.
  - destruct (individual_request_rebuilt model d r Hr) as (author & Ha & ->).
    exists d, author. split; [left | done].
  - eapply Forall_impl; [exact IH |].
    intros cr (d' & author & Hin & Ha & Hu). exists d', author. split; [by right | done].
Qed.

(** C10.  Whatever the body, every request that the summarize operation sends
    under the system prompt of the individual summaries carries the prompt
    written out from the six attributes of one of the rebuilt issues, with the
    placeholder [No comments] under [Comments:], whatever [comments] key its
    data held.  When individual summaries are asked for and a client is
    settled, the requests of the issues, in order, and then the one of the
    collection summary are all the operation sends.  The prompt of an issue
    that carries a [comments] attribute, as after a fetch, is the same text
    with its thread in that place: one line per comment with a body, the
    placeholder only when there is none. *)
Theorem rebuilt_issue_has_no_thread W :
  (forall data s,
     exists s' r evs,
       summarize_logic W data s = (s', r)
       /\ trace s' = trace s ++ evs
       /\ Forall
            (fun cr : Client * ChatRequest =>
               req_system cr.2 = issue_system ->
               exists issue_data author,
                 issue_data ∈ default [] (s_issues data)
                 /\ m_author (MockIssue_init issue_data) = Some author
                 /\ req_user cr.2 = rebuilt_prompt (MockIssue_init issue_data) author)
            (chat_requests evs))
  /\ (forall data s s1 c0 p0 e2 c provider d ds,
        default [] (s_issues data) = d :: ds ->
        jget (s_type data) (Some "collection") = Some "individual" ->
        Forall authored (d :: ds) ->
        get_llm_client W s = (s1, inr (Some c0, p0)) ->
        yields (resolve_requested W (jget (s_provider data) (Some "groq")) (Some c0) p0)
          s1 e2 (Some c, provider) ->
        let model := model_or_default (s_model data) provider in
        exists s' reply evs requests,
          summarize_logic W data s = (s', inr (reply, 200%nat))
          /\ trace s' = trace s ++ evs
          /\ chat_requests evs
             = pair c <$> (requests
                           ++ [collection_request model (jget (s_query data) (Some ""))
                                 (MockIssue_init <$> d :: ds)])
          /\ Forall2
               (fun issue_data r =>
                  exists author,
                    m_author (MockIssue_init issue_data) = Some author
                    /\ r = request model issue_system
                             (rebuilt_prompt (MockIssue_init issue_data) author) 200)
               (d :: ds) requests)
  /\ (forall (issue : Issue) cs,
        issue_prompt (set_comments issue cs)
        = inr (written_prompt (Some (iid issue)) (Some (title issue)) (Some (state issue))
                 (author issue) (Some (created_at issue)) (description issue)
                 (if Py.truthy (Py.join Py.nl (comment_lines cs))
                  then Py.join Py.nl (comment_lines cs) else "No comments"))).
Proof.
  split; [| split].
  - intros data s.
    destruct (summarize_logic_trace W data s)
      as (s' & r & evs & Hrun & Htrace & _ & _ & Hr).
    exists s', r, evs. split; [done |]. split; [done |].
    assert (forall model query mock_issues,
              req_system (collection_request model query mock_issues) <> issue_system)
      as Hother.
    { intros model query mock_issues. unfold collection_request.
      destruct (Py.truthy_opt query); by apply String.eqb_neq. }
    destruct r as [e | [reply status]].
    + destruct Hr as [(_ & _ & ->) | (_ & _ & _ & c & model & requests & -> & Hreqs)];
        [constructor |].
      eapply Forall_impl; [exact (individual_requests_rebuilt c model _ _ Hreqs) |].
      intros cr (d & author & Hin & Ha & Hu) _. exists d, author.
      split; [by eapply subseteq_take | done].
    + destruct Hr as [[_ ->] | (_ & model & _ & _ & [-> | (c & requests & -> & Hreqs)])];
        [constructor | constructor |].
      rewrite fmap_app. apply Forall_app. split.
      * case_bool_decide; [| subst requests; constructor].
        eapply Forall_impl; [exact (individual_requests_rebuilt c model _ _ Hreqs) |].
        by intros cr ? _.
      * constructor; [| constructor]. intros Hsys. by apply Hother in Hsys.
  - intros data s s1 c0 p0 e2 c provider d ds Hissues Hty Hall Hget Hres model.
    rewrite (summarize_logic_client W data s s1 c0 p0 e2 (Some c) provider d ds
               Hissues Hget Hres). rewrite Hty. fold model.
    assert (Py.truthy model = true) as Hmodel by apply model_or_default_truthy.
    destruct (get_llm_client_prints W s s1 _ Hget) as (e1 & Htrace & Hp1).
    assert (prints e2) as Hp2.
    { destruct (resolve_requested_cases W (jget (s_provider data) (Some "groq"))
                  (Some c0) p0 s1) as [(e2' & c' & p' & Hres' & Hp) | (_ & _ & _ & Hraise)].
      - unfold yields in Hres, Hres'. rewrite Hres in Hres'. injection Hres' as Hlog _ _.
        by apply app_inv_head in Hlog as ->.
      - unfold yields in Hres. by rewrite Hres in Hraise. }
    destruct (render_summaries_client W c provider model (jget (s_query data) (Some ""))
                (Some "individual") d ds (log s1 e2) Hmodel)
      as (requests & Hreqs & [(individual & coll & Hrun & _ & Hshape)
                             | (_ & Hnot & _)]); [| done].
    rewrite decide_True in Hreqs by done.
    destruct individual as [entries |]; [| by destruct Hshape].
    destruct Hshape as (_ & Hlen & _). rewrite Hlen, firstn_all in Hreqs.
    unfold yields in Hrun. rewrite Hrun.
    eexists _, _, (e1 ++ e2 ++ (EChat c <$> (requests ++ [_]))), requests.
    split; [reflexivity |].
    split; [by rewrite !trace_log, Htrace, <- !app_assoc |].
    split.
    { rewrite !chat_requests_app, (chat_requests_prints _ Hp1), (chat_requests_prints _ Hp2).
      by rewrite chat_requests_chats. }
    rewrite Forall2_fmap_l in Hreqs. eapply Forall2_impl; [exact Hreqs |].
    intros issue_data r. apply individual_request_rebuilt.
  - intros issue cs.
    assert (issue_author (set_comments issue cs) = Some (author issue)) as Ha by done.
    rewrite (issue_prompt_written (set_comments issue cs) (author issue) Ha).
    unfold text_or, comments_text. cbn [issue_comments Issue_like set_comments comments].
    by destruct cs.
Qed.

Lemma rebuilt_issue_has_no_thread_witness :
  exists s' reply evs requests,
    summarize_logic groq_world (summarize_body JAbsent (JVal "individual") JAbsent) init_state
    = (s', inr (reply, 200%nat))
    /\ trace s' = trace init_state ++ evs
    /\ chat_requests evs
       = pair (GroqClient "gsk")
           <$> (requests
                ++ [collection_request "llama-3.3-70b-versatile" (Some "")
                      (MockIssue_init <$> [commented_issue_data])])
    /\ Forall2
         (fun issue_data r =>
            exists author,
              m_author (MockIssue_init issue_data) = Some author
              /\ r = request "llama-3.3-70b-versatile" issue_system
                       (rebuilt_prompt (MockIssue_init issue_data) author) 200)
         [commented_issue_data] requests.
Proof.
  apply (proj1 (proj2 (rebuilt_issue_has_no_thread groq_world))
           (summarize_body JAbsent (JVal "individual") JAbsent) init_state
           {| cache := {| _llm_client := Some (GroqClient "gsk");
                          _llm_provider := Some "groq" |};
              trace := [] |}
           (GroqClient "gsk") (Some "groq") [] (GroqClient "gsk") (Some "groq")
           commented_issue_data []).
  - reflexivity.
  - reflexivity.
  - repeat constructor. by eexists.
  - reflexivity.
  - reflexivity.
Defined.

(** Through the summarize operation, the comment that came with the issue is
    not in the prompt of its individual summary. *)
Example individual_prompt_through_boundary :
  head (prompts_sent (summarize_logic groq_world
                        (summarize_body JAbsent (JVal "individual") JAbsent) init_state))
  = Some (Py.join Py.nl
            [ "";
              "    Please provide a concise summary (2-3 sentences) of this GitLab issue, including the latest updates and discussions from the comments:";
              "    "; "    Issue #9: Crash on start"; "    State: opened";
              "    Author: Alice Doe (@alice)"; "    Created: 2024-05-01T10:00:00Z";
              "    Description:"; "    It crashes."; "    Comments:"; "    No comments";
              "    "; "    Focus on:"; "    - What the issue is about";
              "    - Current status/state";
              "    - Key actionable points or recent discussions from the comments";
              "    " ]).
Proof. vm_compute. reflexivity. Qed.

(** ** Claims on the summariser *)

(** C6 (amended).  Whatever the provider call does, each summariser that has
    a client returns a text: the stripped content of the first choice, which
    is the empty text for an empty or blank content, or the failure prefix of
    the call site followed by the message of the exception, of the missing
    choice or of the missing content.  The issue summariser does so for every
    issue with an author, under the prompt written from its attributes.  In
    the loop of the individual summaries of the summarize operation, once a
    client is settled for issues that carry authors, and in the loop over the
    notes of the fetch, every entry is reported from the request of its own
    issue or note, whatever happened to the others. *)
Theorem summariser_failures_become_text W :
  (forall T (H : IssueLike T) (issue : T) author c provider model s,
     issue_author issue = Some author ->
     let prompt :=
       written_prompt (issue_iid issue) (issue_title issue) (issue_state issue) author
         (issue_created_at issue) (issue_description issue)
         (text_or (comments_text issue) "No comments") in
     exists text,
       yields (summarize_issue_with_llm W issue (Some c) provider model) s
         [EChat c (request (model_or_default model provider) issue_system prompt 200)] text
       /\ reported "Error generating summary: "
            (chat_create W c (request (model_or_default model provider) issue_system
                                prompt 200)) text)
  /\ (forall T (H : IssueLike T) (issue : T) issues c provider model s,
        exists text,
          yields (summarize_issues_collection_with_llm W (issue :: issues) (Some c)
                    provider model) s
            [EChat c (request (model_or_default model provider) collection_system
                        (collection_prompt (issue :: issues)) 200)] text
          /\ reported "Error generating collection summary: "
               (chat_create W c (request (model_or_default model provider) collection_system
                                   (collection_prompt (issue :: issues)) 200)) text)
  /\ (forall i a b t l c provider model s,
        exists text,
          yields (summarize_comment_with_llm W (CNote i a b t l) (Some c) provider model) s
            [EChat c (request (model_or_default model provider) comment_system
                        (comment_prompt a t b) 80)] text
          /\ reported "Error generating comment summary: "
               (chat_create W c (request (model_or_default model provider) comment_system
                                   (comment_prompt a t b) 80)) text)
  /\ (forall data s s1 c0 p0 e2 c provider d ds,
        default [] (s_issues data) = d :: ds ->
        Forall authored (d :: ds) ->
        get_llm_client W s = (s1, inr (Some c0, p0)) ->
        yields (resolve_requested W (jget (s_provider data) (Some "groq")) (Some c0) p0)
          s1 e2 (Some c, provider) ->
        let model := model_or_default (s_model data) provider in
        let query := jget (s_query data) (Some "") in
        exists s' reply collection_summary,
          summarize_logic W data s = (s', inr (reply, 200%nat))
          /\ r_collection_summary reply = Some collection_summary
          /\ reported
               (if Py.truthy_opt query then "Error generating custom summary: "
                else "Error generating collection summary: ")
               (chat_create W c
                  (collection_request model query (MockIssue_init <$> d :: ds)))
               collection_summary
          /\ (jget (s_type data) (Some "collection") = Some "individual" ->
              exists entries,
                r_individual_summaries reply = Some entries
                /\ Forall2 (entry_of_rebuilt W c provider model) (d :: ds) entries))
  /\ (forall c provider model notes comments s,
        Py.truthy_opt provider = true ->
        exists evs cs,
          notes_loop W (Some c) provider model notes comments s
          = (log s evs, (comments ++ cs, None))
          /\ Forall2 (thread_entry W (Some c) provider model) notes cs).
Proof.
  split.
  { intros T H issue author c provider model s Ha prompt.
    apply summarize_issue_client. by apply issue_prompt_written. }
  split; [intros; apply summarize_collection_client |].
  split; [intros; apply summarize_comment_client |].
  split.
  - intros data s s1 c0 p0 e2 c provider d ds Hissues Hall Hget Hres model query.
    rewrite (summarize_logic_client W data s s1 c0 p0 e2 (Some c) provider d ds
               Hissues Hget Hres). fold model query.
    assert (Py.truthy model = true) as Hmodel by apply model_or_default_truthy.
    destruct (render_summaries_client W c provider model query
                (jget (s_type data) (Some "collection")) d ds (log s1 e2) Hmodel)
      as (requests & _ & [(individual & coll & Hrun & Hrep & Hshape) | (_ & Hnot & _)]);
      [| done].
    unfold yields in Hrun. rewrite Hrun. eexists _, _, coll. split; [reflexivity |].
    split; [by destruct individual |]. split; [exact Hrep |].
    intros Hty. destruct individual as [entries |]; [| done].
    exists entries. split; [done |]. destruct Hshape as (_ & _ & Hentries).
    eapply Forall2_impl; [exact Hentries |].
    intros issue_data entry. apply summary_entry_rebuilt.
  - intros c provider model notes comments s Hp.
    destruct (notes_loop_total W (Some c) provider model notes comments s)
      as (evs & cs & Hloop & Hcs & _).
    by exists evs, cs.
Qed.

Lemma summariser_failures_become_text_witness :
  exists s' reply collection_summary,
    summarize_logic groq_world (summarize_body JAbsent (JVal "individual") JAbsent) init_state
    = (s', inr (reply, 200%nat))
    /\ r_collection_summary reply = Some collection_summary
    /\ reported "Error generating collection summary: "
         (chat_create groq_world (GroqClient "gsk")
            (collection_request "llama-3.3-70b-versatile" (Some "")
               (MockIssue_init <$> [commented_issue_data])))
         collection_summary
    /\ (Some "individual" = Some "individual" ->
        exists entries,
          r_individual_summaries reply = Some entries
          /\ Forall2 (entry_of_rebuilt groq_world (GroqClient "gsk") (Some "groq")
                        "llama-3.3-70b-versatile")
               [commented_issue_data] entries).
Proof.
  apply (proj1 (proj2 (proj2 (proj2 (summariser_failures_become_text groq_world))))
           (summarize_body JAbsent (JVal "individual") JAbsent) init_state
           {| cache := {| _llm_client := Some (GroqClient "gsk");
                          _llm_provider := Some "groq" |};
              trace := [] |}
           (GroqClient "gsk") (Some "groq") [] (GroqClient "gsk") (Some "groq")
           commented_issue_data []).
  - reflexivity.
  - repeat constructor. by eexists.
  - reflexivity.
  - reflexivity.
Defined.

(** C6, as stated, fails: a first choice whose content is an empty or a blank
    text is not treated as malformed.  The summary is the empty text, not an
    error description. *)
Lemma blank_content_gives_empty_summary :
  let world answer :=
    sample_world (inr tt) (inr []) (inr []) (fun _ => false) [("GROQ_API_KEY", "gsk")] answer in
  let summary answer :=
    returned_as (fun r => (r_collection_summary r.1, r.2))
      (summarize_logic (world answer) (summarize_body JAbsent JAbsent JAbsent) init_state) in
  summary (inr [Some ""]) = inr (Some "", 200%nat)
  /\ summary (inr [Some "   "]) = inr (Some "", 200%nat).
Proof. vm_compute. repeat split. Qed.

(** The prompt is built before the [try]: an issue whose author is [null]
    makes the summariser raise, and the summarize operation with it, before
    the provider is called. *)
Example null_author_raises_before_the_call :
  let unauthored :=
    {| d_iid := JVal 9; d_id := None; d_title := JVal "Crash on start";
       d_state := JVal "opened"; d_created_at := JAbsent; d_updated_at := None;
       d_closed_at := None; d_author := JNull; d_assignee := None; d_web_url := None;
       d_description := JAbsent; d_comments := None |} in
  returned (summarize_issue_with_llm groq_world (MockIssue_init unauthored)
              (Some (GroqClient "gsk")) (Some "groq") None init_state)
  = inl TypeError_subscript
  /\ summarize_logic groq_world
       {| s_issues := Some [unauthored]; s_query := JAbsent; s_type := JVal "individual";
          s_provider := JAbsent; s_model := None |} init_state
     = ({| cache := {| _llm_client := Some (GroqClient "gsk");
                       _llm_provider := Some "groq" |};
           trace := [] |}, inl TypeError_subscript).
Proof. vm_compute. repeat split. Qed.

(** A provider that raises, one that answers without a choice, one whose
    choice has no content, and the text each leaves in the summary. *)
Example failure_texts :
  let world answer :=
    sample_world (inr tt) (inr []) (inr []) (fun _ => false) [("GROQ_API_KEY", "gsk")] answer in
  let summary answer :=
    returned_as (fun r => r_collection_summary r.1)
      (summarize_logic (world answer) (summarize_body JAbsent JAbsent JAbsent) init_state) in
  summary (inl transport_error)
  = inr (Some "Error generating collection summary: Connection reset by peer")
  /\ summary (inr [])
     = inr (Some "Error generating collection summary: list index out of range")
  /\ summary (inr [None])
     = inr (Some "Error generating collection summary: 'NoneType' object has no attribute 'strip'")
  /\ summary (inr [Some " Mostly bugs. "]) = inr (Some "Mostly bugs.").
Proof. vm_compute. repeat split. Qed.

(** A provider that fails on the first of two issues and answers on the
    second: the first entry reports the failure, the second its summary. *)
Example failed_summary_does_not_stop_the_loop :
  let second := {| d_iid := JVal 10; d_id := None; d_title := JVal "Typo in the manual";
                   d_state := JVal "closed"; d_created_at := JAbsent; d_updated_at := None;
                   d_closed_at := None; d_author := JAbsent; d_assignee := None;
                   d_web_url := None; d_description := JNull; d_comments := None |} in
  let world :=
    {| projects_get := fun _ => inr tt;
       issues_list := fun _ _ _ => inr [];
       notes_list := fun _ _ => inr [];
       chat_create := fun _ r =>
         if decide (req_user r
                    = rebuilt_prompt (MockIssue_init commented_issue_data) alice)
         then inl transport_error else inr [Some "Fixed."];
       getenv := env_of [("GROQ_API_KEY", "gsk")];
       GROQ_AVAILABLE := true; OPENAI_AVAILABLE := true;
       groq_ctor := fun _ => inr tt; openai_ctor := fun _ => inr tt |} in
  returned_as (fun r => (fun entries : list IndividualSummary => summary <$> entries)
                          <$> r_individual_summaries r.1)
    (summarize_logic world
       {| s_issues := Some [commented_issue_data; second]; s_query := JAbsent;
          s_type := JVal "individual"; s_provider := JAbsent; s_model := None |}
       init_state)
  = inr (Some ["Error generating summary: Connection reset by peer"; "Fixed."]).
Proof. vm_compute. reflexivity. Qed.

(** ** Claims on the provider registry *)

(** C4: the code at a request for a provider that is neither of the two, with
    a Groq client cached and the OpenAI key set.  The key of another provider
    is taken for the credential of the requested one, the result of the setup
    is not checked, and the cached Groq client is dropped: the operation sends
    no request at all, answers 200 with the text of a missing client as its
    summary, and returns the requested name as the provider identity.  Without
    the OpenAI key the cached client is kept and runs. *)
Theorem unknown_provider_is_reported :
  let run := summarize_logic both_keys_world
               (summarize_body JAbsent JAbsent (JVal "anthropic")) groq_cached in
  let kept := summarize_logic groq_world
                (summarize_body JAbsent JAbsent (JVal "anthropic")) groq_cached in
  returned_as (fun r => (r_provider r.1, r_collection_summary r.1, r.2)) run
  = inr (Some (Some "anthropic"), Some "No issues to summarize or LLM not available", 200%nat)
  /\ network_calls run = []
  /\ returned_as (fun r => (r_provider r.1, r_collection_summary r.1, r.2)) kept
     = inr (Some (Some "groq"), Some "A summary.", 200%nat)
  /\ fst <$> chat_requests (trace kept.1) = [GroqClient "gsk"].
Proof. vm_compute. repeat split. Qed.

(** ** Claims on the query-directed path *)

(** C7: the code at a query made of one space.  The summarize operation takes
    the query-directed path: its only request is the query prompt, with the
    blank query rendered in the prefix of the overview. *)
Theorem blank_query_takes_query_path :
  let run := summarize_logic groq_world (summarize_body (JVal " ") JAbsent JAbsent)
               init_state in
  prompts_sent run = [query_prompt " " [MockIssue_init commented_issue_data]]
  /\ query_overview " " [MockIssue_init commented_issue_data]
     = Py.join Py.nl
         [ "User Query:  "; ""; "Issues Summary:"; "- Issue #9: Crash on start (opened)"; "" ]
  /\ returned_as (fun r => r_query r.1) run = inr (Some (Some " ")).
Proof. vm_compute. repeat split. Qed.

(** An absent, empty or null query takes the standard collection path. *)
Example empty_query_takes_collection_path :
  let standard := [collection_prompt [MockIssue_init commented_issue_data]] in
  prompts_sent (summarize_logic groq_world (summarize_body JAbsent JAbsent JAbsent)
                  init_state)
  = standard
  /\ prompts_sent (summarize_logic groq_world (summarize_body (JVal "") JAbsent JAbsent)
                     init_state)
     = standard
  /\ prompts_sent (summarize_logic groq_world (summarize_body JNull JAbsent JAbsent)
                     init_state)
     = standard.
Proof. vm_compute. repeat split. Qed.

(** ** Claims on the combined operation *)

(** A reply of [summarize_logic] with status 200 is the dictionary of the
    summaries. *)
Lemma summarize_logic_reply W data s s' reply :
  summarize_logic W data s = (s', inr (reply, 200%nat)) ->
  exists provider model query individual collection_summary,
    reply = summary_reply provider model query individual collection_summary.
Proof.
  intros Hrun.
  destruct (summarize_logic_cases W data s)
    as [[_ Hrefuse] | (d & ds & s1 & client & p0 & e1 & _ & _ & _ & _ & Hcases)].
  { rewrite Hrun in Hrefuse. by injection Hrefuse. }
  destruct client as [c0 |]; [| rewrite Hrun in Hcases; by injection Hcases].
  destruct Hcases as [(_ & _ & Hraise) | (e2 & client & provider & _ & _ & Hrender)].
  { by rewrite Hrun in Hraise. }
  rewrite Hrun in Hrender. destruct client as [c |].
  - destruct (render_summaries_client W c provider
                (model_or_default (s_model data) provider) (jget (s_query data) (Some ""))
                (jget (s_type data) (Some "collection")) d ds (log s1 e2)
                (model_or_default_truthy _ _))
      as (requests & _ & [(individual & coll & Hyield & _) | (_ & _ & Hraise & _)]).
    + unfold yields in Hyield. rewrite Hyield in Hrender. injection Hrender as _ ->. eauto 6.
    + unfold raises in Hraise. by rewrite Hraise in Hrender.
  - destruct (render_summaries_no_client W provider
                (model_or_default (s_model data) provider) (jget (s_query data) (Some ""))
                (jget (s_type data) (Some "collection")) (d :: ds) (log s1 e2))
      as (individual & coll & Hyield & _).
    unfold yields in Hyield. rewrite Hyield in Hrender. injection Hrender as _ ->. eauto 6.
Qed.

(** C9 (amended).  The combined operation never raises.  A body that cannot
    be read, or a fetch that raises on its locator, is answered by the handler
    with status 500; a body that is not an object, or one that lacks a
    required field, gets the refusal of the fetch step, unchanged.  Otherwise
    the status is 200 and the reply lists the fetched issues and their count:
    it is the fetch reply itself when no summary was requested or no issue
    was fetched; the fetch reply with the results of the summarize operation
    merged in when that operation returned status 200; the fetch reply as it
    is, with neither summary nor marker, when it returned another status; and
    the fetch reply with the error marker when it raised. *)
Theorem fetch_and_summarize_keeps_issues W body s :
  match body with
  | inl e => fetch_and_summarize W body s = (s, inr (error_reply (message e), 500%nat))
  | inr None => fetch_and_summarize W body s = (s, inr (invalid_body_reply, 400%nat))
  | inr (Some data) =>
      (required_fields data = false
       /\ fetch_and_summarize W body s
          = (s, inr (error_reply "Missing required fields: project_url and username",
                     400%nat)))
      \/ exists project_url username,
           required_fields data = true
           /\ b_project_url data = Some project_url
           /\ Py.or_else (b_username data) (b_user data) = Some username
           /\ match parse_project project_url with
              | inl e =>
                  fetch_and_summarize W body s = (s, inr (error_reply (message e), 500%nat))
              | inr _ =>
                  exists e1 issues s' reply,
                    yields (fetch_issues_by_username W project_url username (token_of W data)
                              (negb (b_author_only data)) (negb (b_assignee_only data))
                              None None None) s e1 issues
                    /\ fetch_and_summarize W body s = (s', inr (reply, 200%nat))
                    /\ r_issues reply = Some (issue_data_of <$> issues)
                    /\ r_count reply = Some (length issues)
                    /\ r_success reply = Some true
                    /\ let fetch_data :=
                         fetch_reply project_url username (issue_data_of <$> issues) in
                       if b_summarize data && bool_decide (issues ≠ []) then
                         match summarize_logic W
                                 (summarize_data_of data (issue_data_of <$> issues))
                                 (log s e1) with
                         | (s2, inr (summary_data, status)) =>
                             s' = s2
                             /\ reply = (if decide (status = 200%nat)
                                         then update fetch_data summary_data
                                         else fetch_data)
                         | (s2, inl e) =>
                             s' = s2 /\ reply = set_summary_error fetch_data (message e)
                         end
                       else s' = log s e1 /\ reply = fetch_data
              end
  end.
Proof.
  destruct body as [e | [data |]]; [done | | done].
  unfold fetch_and_summarize, with_body, fetch_and_summarize_logic.
  destruct (fetch_issues_logic_run W data s)
    as [[Hmissing Hrefuse]
       | (project_url & username & Hfields & Hp & _ & Hu & _ & Hfetch)].
  { left. split; [done |]. unfold try_except, mbind, M_bind. unfold yields in Hrefuse.
    rewrite Hrefuse. by rewrite log_nil. }
  right. exists project_url, username. do 3 (split; [done |]).
  destruct (parse_project project_url) as [e | r].
  { unfold try_except, mbind, M_bind. by rewrite Hfetch. }
  destruct Hfetch as (e1 & issues & Hrun & Hlogic). unfold yields in Hlogic.
  exists e1, issues.
  assert (bool_decide (issue_data_of <$> issues ≠ []) = bool_decide (issues ≠ [])) as Hne.
  { by destruct issues. }
  unfold try_except at 1. unfold mbind at 1, M_bind at 1. rewrite Hlogic.
  cbn [fetch_reply r_success r_issues default from_option]. unfold Datatypes.id.
  rewrite bool_decide_true by done. cbn [negb orb]. rewrite Hne.
  destruct (b_summarize data && bool_decide (issues ≠ [])) eqn:Hsum.
  - unfold mbind at 1, M_bind at 1. unfold try_except at 1.
    unfold mbind at 1, M_bind at 1.
    destruct (summarize_logic W (summarize_data_of data (issue_data_of <$> issues))
                (log s e1)) as [s2 [e | [summary_data status]]] eqn:Hsummary.
    + eexists _, _. split; [done |]. split; [reflexivity |].
      repeat split; try done; cbn; by rewrite length_fmap.
    + destruct (decide (status = 200%nat)) as [-> | Hstatus].
      * destruct (summarize_logic_reply W _ _ _ _ Hsummary)
          as (provider & model & query & individual & coll & ->).
        rewrite bool_decide_true by done.
        eexists _, _. split; [done |]. split; [reflexivity |].
        repeat split; try done; cbn; by rewrite length_fmap.
      * rewrite bool_decide_false by done.
        eexists _, _. split; [done |]. split; [reflexivity |].
        repeat split; try done; cbn; by rewrite length_fmap.
  - eexists _, _. split; [done |]. split; [reflexivity |].
    repeat split; try done; cbn; by rewrite length_fmap.
Qed.

(** With a provider key the summary is merged into the fetch reply. *)
Example summary_is_attached :
  returned_as (fun r => (length <$> r_issues r.1, r_collection_summary r.1,
                         r_provider r.1, r_summary_error r.1, r.2))
    (fetch_and_summarize groq_world (inr (Some fetch_and_summarize_body)) init_state)
  = inr (Some 1%nat, Some "A summary.", Some (Some "groq"), None, 200%nat).
Proof. vm_compute. reflexivity. Qed.

(** With both keys set and a [null] provider in the body the summarize
    operation raises, and the error marker is attached to the fetched
    issues. *)
Example summary_error_is_attached :
  returned_as (fun r => (length <$> r_issues r.1, r_collection_summary r.1,
                         r_summary_error r.1, r.2))
    (fetch_and_summarize both_keys_world
       (inr (Some {| b_project_url := Some "42"; b_username := Some "alice"; b_user := None;
                     b_access_token := None; b_assignee_only := false;
                     b_author_only := false; b_summarize := true; b_query := JAbsent;
                     b_summary_type := JAbsent; b_provider := JNull; b_model := None |}))
       init_state)
  = inr (Some 1%nat, None, Some "'NoneType' object has no attribute 'lower'", 200%nat).
Proof. vm_compute. reflexivity. Qed.

(** C9, as stated, fails: with no provider key the summarize operation returns
    status 400, and the combined operation returns the fetched issues with
    neither a summary nor an error marker. *)
Lemma unavailable_provider_leaves_no_marker :
  returned_as (fun r => (length <$> r_issues r.1, r_collection_summary r.1,
                         r_summary_error r.1, r_error r.1, r.2))
    (fetch_and_summarize no_key_world (inr (Some fetch_and_summarize_body)) init_state)
  = inr (Some 1%nat, None, None, None, 200%nat).
Proof. vm_compute. reflexivity. Qed.


(** ** The aggregation in the words of the specification *)

Lemma aggregate_first_seen_from A F B :
  NoDup (iid <$> B) ->
  (forall b, b ∈ B -> iid b ∉ iid <$> F) ->
  fold_left
    (fun merged b => if decide (iid b ∈ iid <$> merged) then merged else merged ++ [b])
    B (A ++ F)
  = A ++ F ++ filter (fun b => iid b ∉ iid <$> A) B.
Proof.
  revert F. induction B as [| b B IH]; intros F Hnodup Hfresh.
  - cbn [fold_left]. by rewrite filter_nil, app_nil_r.
  - rewrite fmap_cons in Hnodup. apply NoDup_cons in Hnodup as [Hb Hnodup].
    assert (iid b ∉ iid <$> F) as HbF by (apply Hfresh; left).
    cbn [fold_left]. rewrite filter_cons.
    destruct (decide (iid b ∈ iid <$> (A ++ F))) as [Hin | Hin];
      rewrite fmap_app, elem_of_app in Hin.
    + destruct Hin as [Hin | Hin]; [| done].
      rewrite decide_False by (by intros ?). apply IH; [done |].
      intros b' Hb'. apply Hfresh. by right.
    + rewrite decide_True by (intros ?; apply Hin; by left).
      rewrite <- app_assoc. rewrite IH; [by rewrite <- app_assoc | done |].
      intros b' Hb'. rewrite fmap_app, elem_of_app. intros [HF | Hlast].
      * eapply Hfresh; [right; exact Hb' | exact HF].
      * apply list_elem_of_singleton in Hlast. apply Hb. rewrite <- Hlast.
        by apply list_elem_of_fmap_2.
Qed.

(** The code agrees with the specification's algorithm on an author sequence
    without repeated [iid]. *)
Lemma append_new_first_seen A B :
  NoDup (iid <$> B) -> append_new A B = aggregate_first_seen A B.
Proof.
  intros Hnodup. rewrite append_new_aggregate. unfold aggregate, aggregate_first_seen.
  pose proof (aggregate_first_seen_from A [] B Hnodup) as Hfrom.
  rewrite app_nil_r in Hfrom. rewrite Hfrom; [done |].
  intros b _. rewrite fmap_nil. apply not_elem_of_nil.
Qed.

(** On a repeated [iid] they part: the code keeps both, the specification's
    algorithm only the first. *)
Example first_seen_differs :
  let B := [sample_issue 3 (Some "first page"); sample_issue 3 (Some "next page")] in
  iid <$> append_new [] B = [3; 3] /\ iid <$> aggregate_first_seen [] B = [3].
Proof. vm_compute. split; reflexivity. Qed.

(** ** Sanity checks of the model *)

Example py_strip_ex : Py.strip "  ok  " = "ok" /\ Py.strip "   " = "".
Proof. split; reflexivity. Qed.

Example py_replace_ex :
  Py.replace "https://gitlab.com/" "" "https://gitlab.com/g/p" = "g/p".
Proof. reflexivity. Qed.

Example py_int_ex : Py.int "71150749" = Some 71150749 /\ Py.int "007" = Some 7.
Proof. split; reflexivity. Qed.

(** The superscript two is a digit character that is not a decimal digit: a
    locator made of it passes [isdigit] and is rejected by [int]. *)
Example py_superscript_ex :
  let two := String (ascii_of_nat 178) "" in
  Py.isdigit two = true /\ Py.int two = None
  /\ parse_project two = inl (ValueError_int two)
  /\ fetch_issues_by_username scenario_world two "alice" None true true None None None
       init_state
     = (init_state, inl (ValueError_int two)).
Proof. vm_compute. repeat split. Qed.

(** The next-line character and the no-break space are stripped; the
    accented capitals are lowered. *)
Example py_latin1_ex :
  Py.strip (String (ascii_of_nat 133) ("ok" +:+ String (ascii_of_nat 160) "")) = "ok"
  /\ Py.lower (String (ascii_of_nat 201) "T") = String (ascii_of_nat 233) "t"
  /\ Py.lower (String (ascii_of_nat 215) "") = String (ascii_of_nat 215) "".
Proof. vm_compute. repeat split. Qed.

Example py_str_ex : Py.str_int 12 = "12" /\ Py.str_nat 0 = "0".
Proof. split; reflexivity. Qed.

Example parse_project_ex :
  parse_project "https://gitlab.com/sachin.lade-group/sachin.lade-project"
  = inr (Some (ProjectPath "sachin.lade-group/sachin.lade-project"))
  /\ parse_project "71150749" = inr (Some (ProjectId 71150749))
  /\ parse_project "gitlab.com/g/p" = inr None
  /\ parse_project "" = inr None.
Proof. repeat split. Qed.

Example env_of_ex :
  env_of [("GROQ_API_KEY", "gsk"); ("OPENAI_API_KEY", "sk")] "OPENAI_API_KEY" = Some "sk"
  /\ env_of [("GROQ_API_KEY", "gsk")] "OPENAI_API_KEY" = None.
Proof. split; reflexivity. Qed.

Example setup_llm_client_ex :
  returned (setup_llm_client both_keys_world "GROQ" None init_state)
  = inr (Some (GroqClient "gsk"), "groq")
  /\ returned (setup_llm_client no_key_world "groq" None init_state) = inr (None, "groq")
  /\ returned (setup_llm_client both_keys_world "anthropic" (Some "k") init_state)
     = inr (None, "anthropic").
Proof. vm_compute. repeat split. Qed.

Example get_default_model_ex :
  get_default_model (Some "groq") = "llama-3.3-70b-versatile"
  /\ get_default_model (Some "openai") = "gpt-3.5-turbo"
  /\ get_default_model None = "llama-3.3-70b-versatile".
Proof. repeat split. Qed.

(** The events of the aggregation scenario, in order: the project lookup, the
    two listings with their announcements, then one thread per issue. *)
Example scenario_trace :
  let gl := {| private_token := Some "glpat"; project := ProjectPath "g/p" |} in
  trace (fetch_issues_by_username scenario_world "https://gitlab.com/g/p" "alice"
           (Some "glpat") true true None None None init_state).1
  = [ EProjectsGet gl;
      EPrint "Fetching issues assigned to alice...";
      EIssuesList gl Assignee "alice";
      EPrint "Fetching issues created by alice...";
      EIssuesList gl Author "alice";
      ENotesList gl 1; ENotesList gl 2; ENotesList gl 3 ].
Proof. vm_compute. reflexivity. Qed.

(** With a client and a provider name every comment carries its summary, and
    the default model of the provider is requested. *)
Example thread_with_summaries :
  let run := fetch_issues_by_username groq_world "42" "alice" None true false
               (Some (GroqClient "gsk")) (Some "groq") None init_state in
  returned_as (fmap comments) run
  = inr [Some [CNote 7 "alice" "Looks good" "2024-05-03T10:00:00Z" (Some "A summary.")]]
  /\ omap (fun e => match e with EChat _ r => Some (req_model r, req_max_tokens r) | _ => None end)
       (trace run.1)
     = [("llama-3.3-70b-versatile", 80%nat)].
Proof. vm_compute. split; reflexivity. Qed.

(** * Further properties *)

(** ** The aggregator *)

(** An issue is in the merged list exactly when it is an assignee issue, or
    an author issue whose [iid] no assignee issue has: nothing is invented,
    and an author issue is dropped only for an [iid] of the assignee side. *)
Theorem append_new_membership (A B : list Issue) (x : Issue) :
  x ∈ append_new A B <-> x ∈ A \/ (x ∈ B /\ iid x ∉ iid <$> A).
Proof.
  rewrite append_new_aggregate. unfold aggregate.
  rewrite elem_of_app, list_elem_of_filter. tauto.
Qed.

(** Reordering the author listing leaves the assignee part where it is and
    only permutes the issues appended after it. *)
Theorem append_new_author_order (A B B' : list Issue) :
  B ≡ₚ B' ->
  exists tail tail',
    append_new A B = A ++ tail /\ append_new A B' = A ++ tail' /\ tail ≡ₚ tail'.
Proof.
  intros HB. rewrite !append_new_aggregate. unfold aggregate.
  eexists _, _. split; [done |]. split; [done |]. by rewrite HB.
Qed.

Lemma append_new_author_order_witness :
  exists tail tail',
    append_new [sample_issue 1 None] [sample_issue 2 None; sample_issue 3 None]
    = [sample_issue 1 None] ++ tail
    /\ append_new [sample_issue 1 None] [sample_issue 3 None; sample_issue 2 None]
       = [sample_issue 1 None] ++ tail'
    /\ tail ≡ₚ tail'.
Proof.
  apply (append_new_author_order [sample_issue 1 None]
           [sample_issue 2 None; sample_issue 3 None]
           [sample_issue 3 None; sample_issue 2 None]).
  apply Permutation_swap.
Defined.

(** Merging is idempotent: merging the same author listing a second time, or
    a listing with itself, appends nothing. *)
Theorem append_new_idempotent (A B : list Issue) :
  append_new (append_new A B) B = append_new A B /\ append_new A A = A.
Proof.
  assert (forall X Y : list Issue,
            (forall y, y ∈ Y -> iid y ∈ iid <$> X) -> append_new X Y = X) as Hnothing.
  { intros X Y Hall. rewrite append_new_aggregate. unfold aggregate.
    assert (filter (fun b => iid b ∉ iid <$> X) Y = []) as ->; [| by rewrite app_nil_r].
    apply elem_of_nil_inv. intros y [Hnot Hy]%list_elem_of_filter. by apply Hnot, Hall. }
  split.
  - apply Hnothing. intros y Hy. rewrite append_new_aggregate. by apply aggregate_covers; right.
  - apply Hnothing. intros y Hy. by apply list_elem_of_fmap_2.
Qed.

(** ** Prompts across the web layer *)

Lemma rebuilt_entry (issue : Issue) :
  overview_entry (MockIssue_init (issue_data_of issue)) = overview_entry issue.
Proof. unfold overview_entry. cbn. by destruct (description issue). Qed.

(** An issue that went through [fetch_issues_logic] and came back to
    [summarize_logic] gives the collection prompt of the fetched issues
    themselves; its individual prompt is the one of the fetched issue with an
    empty thread. *)
Theorem prompts_survive_json (issues : list Issue) :
  collection_prompt (MockIssue_init <$> (issue_data_of <$> issues))
  = collection_prompt issues
  /\ Forall
       (fun issue =>
          issue_prompt (MockIssue_init (issue_data_of issue))
          = issue_prompt (set_comments issue []))
       issues.
Proof.
  split.
  - unfold collection_prompt. do 3 f_equal. unfold issues_overview.
    rewrite !overview_loop_entries, !length_fmap, <- !fmap_take, <- !list_fmap_compose.
    assert (overview_entry ∘ MockIssue_init ∘ issue_data_of <$> take 10 issues
            = overview_entry <$> take 10 issues) as ->; [| done].
    apply list_fmap_ext. intros _ issue _. apply rebuilt_entry.
  - apply Forall_forall. intros issue _.
    unfold issue_prompt, issue_content. cbn. by destruct (description issue).
Qed.

Lemma comment_lines_of_thread W llm_client provider model notes cs :
  Forall2 (thread_entry W llm_client provider model) notes cs ->
  comment_lines cs
  = omap (fun note =>
            if Py.truthy (note_body note)
            then Some (username (note_author note) +:+ ": " +:+ note_body note)
            else None) notes.
Proof.
  induction 1 as [| note c notes cs (summary & -> & _) _ IH]; [done |].
  unfold comment_lines in *. cbn. rewrite IH. by destruct (Py.truthy (note_body note)).
Qed.

(** The thread in the individual prompt of a fetched issue: one line
    [author: body] per note with a non-empty body, in thread order, whatever
    the comment summaries; nothing when the thread could not be listed, so
    that the prompt shows the placeholder. *)
Theorem fetched_thread_rendering W project_url user access_token assignee author
    llm_client provider model project_path A B s :
  parse_project project_url = inr (Some project_path) ->
  projects_get W (connect access_token project_path) = inr tt ->
  listed W (connect access_token project_path) Assignee user assignee = inr A ->
  listed W (connect access_token project_path) Author user author = inr B ->
  exists evs out,
    yields (fetch_issues_by_username W project_url user access_token assignee author
              llm_client provider model) s evs out
    /\ Forall2
         (fun issue o =>
            comments_text o
            = match notes_list W (connect access_token project_path) issue with
              | inl _ => ""
              | inr notes =>
                  Py.join Py.nl
                    (omap (fun note =>
                             if Py.truthy (note_body note)
                             then Some (username (note_author note) +:+ ": "
                                        +:+ note_body note)
                             else None) notes)
              end)
         (aggregate A B) out.
Proof.
  intros Hparse Hget HA HB.
  destruct (fetch_reaches_every_issue W project_url user access_token assignee author
              llm_client provider model project_path A B s Hparse Hget HA HB)
    as (evs & out & Hrun & Hout).
  exists evs, out. split; [exact Hrun |].
  eapply Forall2_impl; [exact Hout |].
  intros issue o (cs & -> & Hcs). unfold thread_of in Hcs.
  destruct (notes_list W (connect access_token project_path) issue) as [e | notes].
  - by rewrite Hcs.
  - rewrite <- (comment_lines_of_thread _ _ _ _ _ _ Hcs). by destruct cs.
Qed.

Lemma fetched_thread_rendering_witness :
  exists evs out,
    yields (fetch_issues_by_username broken_thread_world "42" "alice" None true true
              None None None) init_state evs out
    /\ Forall2
         (fun issue o =>
            comments_text o
            = match notes_list broken_thread_world (connect None (ProjectId 42)) issue with
              | inl _ => ""
              | inr notes =>
                  Py.join Py.nl
                    (omap (fun note =>
                             if Py.truthy (note_body note)
                             then Some (username (note_author note) +:+ ": "
                                        +:+ note_body note)
                             else None) notes)
              end)
         (aggregate [sample_issue 4 None; sample_issue 5 None]
                    [sample_issue 5 None; sample_issue 6 None]) out.
Proof.
  apply (fetched_thread_rendering broken_thread_world "42" "alice" None true true
           None None None (ProjectId 42)); reflexivity.
Defined.

Lemma query_loop_lines (mock_issues : list MockIssue) (acc : string) :
  fold_left
    (fun issues_overview issue =>
       issues_overview +:+ "- Issue #" +:+ Py.str_opt_int (m_iid issue) +:+ ": "
         +:+ Py.str_opt (m_title issue) +:+ " (" +:+ Py.str_opt (m_state issue) +:+ ")"
         +:+ Py.nl)
    mock_issues acc
  = acc +:+ foldr String.append ""
              ((fun x : option Z * option string * option string =>
                  "- Issue #" +:+ Py.str_opt_int x.1.1 +:+ ": " +:+ Py.str_opt x.1.2
                    +:+ " (" +:+ Py.str_opt x.2 +:+ ")" +:+ Py.nl)
               <$> ((fun issue => (m_iid issue, m_title issue, m_state issue))
                    <$> mock_issues)).
Proof.
  revert acc. induction mock_issues as [| issue rest IH]; intros acc.
  - cbn. by rewrite str_app_nil_r.
  - rewrite !fmap_cons. cbn [fold_left foldr]. rewrite IH. cbn [fst snd].
    by rewrite !str_app_assoc.
Qed.

(** The query-directed prompt reads the number, title and state of the first
    ten issues and nothing else: later issues, descriptions, authors and
    dates never reach it. *)
Theorem query_prompt_reads_first_ten (query : string) (issues issues' : list MockIssue) :
  (fun issue => (m_iid issue, m_title issue, m_state issue)) <$> take 10 issues
  = (fun issue => (m_iid issue, m_title issue, m_state issue)) <$> take 10 issues' ->
  query_prompt query issues = query_prompt query issues'.
Proof.
  intros Hsame. unfold query_prompt, query_overview.
  by rewrite !query_loop_lines, Hsame.
Qed.

Lemma query_prompt_reads_first_ten_witness :
  query_prompt "status?"
    ((fun n => MockIssue_init (issue_data_of (sample_issue n (Some "long text"))))
     <$> seqZ 1 12)
  = query_prompt "status?"
      ((fun n => MockIssue_init (issue_data_of (sample_issue n None))) <$> seqZ 1 10).
Proof. apply query_prompt_reads_first_ten. reflexivity. Defined.

(** ** The project locator *)

Lemma pretty_digit (d : N) :
  (d < 10)%N ->
  (Py.is_digit (pretty_N_char d) = true /\ Py.is_decimal (pretty_N_char d) = true)
  /\ Z.of_nat (nat_of_ascii (pretty_N_char d)) - 48 = Z.of_N d.
Proof.
  intros Hd.
  assert (d = 0 \/ d = 1 \/ d = 2 \/ d = 3 \/ d = 4 \/ d = 5 \/ d = 6 \/ d = 7
          \/ d = 8 \/ d = 9)%N as Hcases by lia.
  repeat (destruct Hcases as [-> | Hcases]; [by vm_compute |]). by subst d.
Qed.

Lemma pretty_go_digits (x : N) :
  forall s,
    Py.all_digits (pretty_N_go x s) = Py.all_digits s
    /\ Py.all_decimal (pretty_N_go x s) = Py.all_decimal s
    /\ ((0 < x)%N \/ starts_with_digit s -> starts_with_digit (pretty_N_go x s)).
Proof.
  induction (N.lt_wf_0 x) as [x _ IH]. intros s.
  destruct (decide (x = 0)%N) as [-> | Hx].
  - rewrite pretty_N_go_0. split; [done |]. split; [done |]. intros [? | ?]; [lia | done].
  - rewrite pretty_N_go_step by lia.
    destruct (pretty_digit (x `mod` 10)) as [[Hdigit Hdecimal] _]; [by apply N.mod_lt |].
    destruct (IH (x `div` 10)%N) with (s := String (pretty_N_char (x `mod` 10)) s)
      as (Hall & Hdec & Hhead); [apply N.div_lt; lia |].
    split; [| split].
    + rewrite Hall. cbn [Py.all_digits]. by rewrite Hdigit.
    + rewrite Hdec. cbn [Py.all_decimal]. by rewrite Hdecimal.
    + intros _. apply Hhead. by right.
Qed.

Lemma pretty_go_int (x : N) :
  exists p, forall s k, Py.int_go k (pretty_N_go x s) = Py.int_go (k * p + Z.of_N x) s.
Proof.
  induction (N.lt_wf_0 x) as [x _ IH].
  destruct (decide (x = 0)%N) as [-> | Hx].
  - exists 1. intros s k. rewrite pretty_N_go_0. f_equal. lia.
  - destruct (IH (x `div` 10)%N) as [p Hp]; [apply N.div_lt; lia |].
    exists (10 * p). intros s k. rewrite pretty_N_go_step by lia. rewrite Hp.
    cbn [Py.int_go].
    destruct (pretty_digit (x `mod` 10)) as [_ ->]; [by apply N.mod_lt |].
    f_equal. pose proof (N.div_mod x 10). lia.
Qed.

Lemma startswith_url_digit (s : string) :
  starts_with_digit s -> Py.startswith "https://gitlab.com/" s = false.
Proof.
  destruct s as [| c s]; [done |]. cbn. intros Hc. case_decide; [| done].
  subst c. by vm_compute in Hc.
Qed.

Lemma parse_project_decimal_N (n : N) :
  parse_project (pretty n) = inr (Some (ProjectId (Z.of_N n))).
Proof.
  unfold pretty, pretty_N. case_decide as Hn; [by subst n |].
  destruct (pretty_go_digits n "") as (Hall & Hdec & Hhead).
  assert (starts_with_digit (pretty_N_go n "")) as Hdigit by (apply Hhead; left; lia).
  unfold parse_project. rewrite startswith_url_digit by done.
  unfold Py.isdigit, Py.int. rewrite Hall, Hdec.
  destruct (pretty_N_go n "") as [| c r] eqn:Hgo; [done |]. cbn [Py.truthy andb Py.all_digits
    Py.all_decimal].
  rewrite <- Hgo. destruct (pretty_go_int n) as [p ->].
  cbn [Py.int_go]. do 3 f_equal; lia.
Qed.

(** A project id written in decimal, as the web form and the test script send
    it, is accepted as a locator and read back as that id. *)
Theorem parse_project_decimal (n : Z) :
  0 <= n -> parse_project (Py.str_int n) = inr (Some (ProjectId n)).
Proof.
  intros Hn. unfold Py.str_int, pretty, pretty_Z.
  destruct n as [| p | p]; [done | | lia].
  apply (parse_project_decimal_N (Npos p)).
Qed.

Lemma parse_project_decimal_witness :
  parse_project (Py.str_int 71150749) = inr (Some (ProjectId 71150749)).
Proof. apply parse_project_decimal. lia. Defined.

Lemma startswith_url_colon (s : string) :
  Py.startswith "https://gitlab.com/" s = true ->
  ":"%char ∈ list_ascii_of_string s.
Proof.
  intros H.
  do 6 (destruct s as [| ? s]; [done |]; cbn in H; case_decide; [subst | done]).
  cbn. rewrite !elem_of_cons. tauto.
Qed.

Lemma replace_url_no_colon (s : string) :
  ":"%char ∉ list_ascii_of_string s ->
  Py.replace_go "https://gitlab.com/" "" 0 s = s.
Proof.
  induction s as [| c r IH]; [done |]. intros Hno. cbn [Py.replace_go].
  destruct (Py.startswith "https://gitlab.com/" (String c r)) eqn:Hstart.
  - by apply startswith_url_colon in Hstart.
  - f_equal. apply IH. intros Hin. apply Hno. cbn. by right.
Qed.

(** A project URL under the tracker's domain is read as the path after the
    domain, for every path that holds no colon. *)
Theorem parse_project_url (path : string) :
  ":"%char ∉ list_ascii_of_string path ->
  parse_project ("https://gitlab.com/" +:+ path) = inr (Some (ProjectPath path)).
Proof.
  intros Hno. unfold parse_project.
  change (Py.startswith "https://gitlab.com/" ("https://gitlab.com/" +:+ path)) with true.
  cbn match.
  change (Py.replace "https://gitlab.com/" "" ("https://gitlab.com/" +:+ path))
    with (Py.replace_go "https://gitlab.com/" "" 0 path).
  by rewrite replace_url_no_colon.
Qed.

Lemma parse_project_url_witness :
  parse_project ("https://gitlab.com/" +:+ "sachin.lade-group/sachin.lade-project")
  = inr (Some (ProjectPath "sachin.lade-group/sachin.lade-project")).
Proof. apply parse_project_url. apply (bool_decide_unpack _). by vm_compute. Defined.

(** ** The fetch endpoints *)

(** A locator that neither starts with the URL of the tracker nor is made of
    digit characters only ([str.isdigit]) is not an error of the web
    operation: nothing is requested from the tracker, one line is printed, and
    the reply is a success with no issue. *)
Theorem malformed_locator_reports_success W data project_url user s :
  b_project_url data = Some project_url -> Py.truthy project_url = true ->
  Py.or_else (b_username data) (b_user data) = Some user -> Py.truthy user = true ->
  Py.startswith "https://gitlab.com/" project_url = false ->
  Py.isdigit project_url = false ->
  yields (fetch_issues_logic W data) s
    [EPrint "Error: Please provide either a GitLab URL or project ID"]
    (fetch_reply project_url user [], 200%nat).
Proof.
  intros Hp Hpt Hu Hut Hurl Hdigit.
  assert (parse_project project_url = inr None) as Hparse.
  { unfold parse_project. by rewrite Hurl, Hdigit. }
  unfold fetch_issues_logic. rewrite Hp, Hu, Hpt, Hut. simpl.
  apply (yields_bind _ _ _ [EPrint "Error: Please provide either a GitLab URL or project ID"]
           [] []); [| apply yields_ret].
  unfold fetch_issues_by_username. rewrite Hparse.
  apply (yields_bind _ _ _ [_] [] tt); [apply yields_print | apply yields_ret].
Qed.

Lemma malformed_locator_reports_success_witness :
  yields (fetch_issues_logic scenario_world malformed_locator_body) init_state
    [EPrint "Error: Please provide either a GitLab URL or project ID"]
    (fetch_reply "gitlab.com/g/p" "alice" [], 200%nat).
Proof.
  apply (malformed_locator_reports_success scenario_world malformed_locator_body
           "gitlab.com/g/p" "alice" init_state); reflexivity.
Defined.

(** The [/fetch_issues] endpoint always answers, with status 200, 400 or
    500.  It answers 500 exactly when the body cannot be read as JSON, or when
    the body has its required fields and a locator of digit characters that
    [int] rejects; it answers 400 exactly when the body is not an object or
    lacks a required field.  In both cases nothing was printed or requested,
    and the reply carries an error and no success.  Every other reply has
    status 200, says success and counts the issues it lists. *)
Theorem fetch_issues_status W body s :
  exists evs reply status,
    yields (fetch_issues W body) s evs (reply, status)
    /\ (status = 500%nat <->
        (exists e, body = inl e)
        \/ (exists data project_url e,
              body = inr (Some data) /\ required_fields data = true
              /\ b_project_url data = Some project_url
              /\ parse_project project_url = inl e))
    /\ (status = 400%nat <->
        body = inr None
        \/ (exists data, body = inr (Some data) /\ required_fields data = false))
    /\ (status = 500%nat \/ status = 400%nat ->
        evs = [] /\ r_success reply <> Some true /\ is_Some (r_error reply))
    /\ (status <> 500%nat -> status <> 400%nat ->
        status = 200%nat /\ r_success reply = Some true
        /\ exists issues, r_issues reply = Some issues /\ r_count reply = Some (length issues)).
Proof.
  unfold fetch_issues, with_body. destruct body as [e | [data |]].
  - exists [], (error_reply (message e)), 500%nat.
    split; [unfold yields, try_except, raise, mret, M_ret; by rewrite log_nil |].
    split; [split; [intros _; left; by exists e | done] |].
    split; [split; [done | by intros [? | (? & ? & ?)]] |].
    split; [| done]. intros _. split; [done |]. split; [done | by eexists].
  - destruct (fetch_issues_logic_run W data s)
      as [[Hmissing Hrefuse]
         | (project_url & username & Hfields & Hp & _ & _ & _ & Hfetch)].
    + exists []. eexists _, _. split; [apply yields_try; exact Hrefuse |].
      split.
      { split; [done |]. intros [[? ?] | (d & ? & ? & [= <-] & ? & _)]; congruence. }
      split; [split; [intros _; right; by exists data | done] |].
      split; [| done]. intros _. split; [done |]. split; [done | by eexists].
    + destruct (parse_project project_url) as [e | r] eqn:Hparse.
      * exists [], (error_reply (message e)), 500%nat.
        split; [unfold yields, try_except, mret, M_ret; rewrite Hfetch; by rewrite log_nil |].
        split; [split; [intros _; right; by exists data, project_url, e | done] |].
        split.
        { split; [done |]. intros [? | (d & [= <-] & ?)]; congruence. }
        split; [| done]. intros _. split; [done |]. split; [done | by eexists].
      * destruct Hfetch as (evs & issues & _ & Hrun).
        exists evs. eexists _, _. split; [apply yields_try; exact Hrun |].
        split.
        { split; [done |].
          intros [[? ?] | (d & url & e & [= <-] & _ & Hurl & He)]; [done |].
          rewrite Hp in Hurl. injection Hurl as <-. congruence. }
        split.
        { split; [done |]. intros [? | (d & [= <-] & ?)]; congruence. }
        split; [by intros [? | ?] |].
        intros _ _. split; [done |]. split; [done |]. by eexists.
  - exists []. eexists _, _. split; [apply yields_try, yields_ret |].
    split; [split; [done | by intros [[? ?] | (? & ? & ? & ? & _)]] |].
    split; [split; [intros _; by left | done] |].
    split; [| done]. intros _. split; [done |]. split; [done | by eexists].
Qed.

(** ** The order of the tracker calls *)

(** A loop whose every turn returns, with the events of each turn. *)
Lemma yields_for_each_events {A B} (f : A -> M B) (R : A -> list Event -> Prop) xs :
  (forall x s, exists evs b, yields (f x) s evs b /\ R x evs) ->
  forall s, exists evss out,
    yields (for_each f xs) s (concat evss) out /\ Forall2 R xs evss.
Proof.
  intros Hf. induction xs as [| x xs IH]; intros s.
  - exists [], []. split; [apply yields_ret | constructor].
  - destruct (Hf x s) as (e1 & b & Hb & HR).
    destruct (IH (log s e1)) as (evss & out & Hout & HRs).
    exists (e1 :: evss), (b :: out). split; [| by constructor].
    cbn [concat for_each]. eapply yields_bind; [exact Hb |].
    rewrite <- (app_nil_r (concat evss)). eapply yields_bind; [exact Hout | apply yields_ret].
Qed.

Lemma tracker_calls_chats client evs : chats_of client evs -> tracker_calls evs = [].
Proof.
  unfold chats_of, tracker_calls. induction 1 as [| e evs (c & r & -> & _) _ IH]; [done |].
  by rewrite filter_cons_False.
Qed.

Lemma tracker_calls_threads gl client (issues : list Issue) evss :
  Forall2 (fun issue evs =>
             exists chats, evs = ENotesList gl (iid issue) :: chats /\ chats_of client chats)
    issues evss ->
  tracker_calls (concat evss) = ENotesList gl <$> (iid <$> issues).
Proof.
  unfold tracker_calls.
  induction 1 as [| issue evs issues evss (chats & -> & Hchats) _ IH]; [done |].
  cbn [concat]. rewrite filter_app, IH, filter_cons_True by done.
  fold (tracker_calls chats). by rewrite (tracker_calls_chats _ _ Hchats).
Qed.

Lemma collect_issues_calls W gl user assignee author A B s :
  listed W gl Assignee user assignee = inr A ->
  listed W gl Author user author = inr B ->
  exists evs,
    yields (collect_issues W gl user assignee author) s evs (aggregate A B)
    /\ tracker_calls evs
       = (if assignee then [EIssuesList gl Assignee user] else [])
         ++ (if author then [EIssuesList gl Author user] else []).
Proof.
  unfold listed, collect_issues. intros HA HB.
  destruct assignee, author.
  - rewrite HA, HB.
    exists [EPrint ("Fetching issues assigned to " +:+ user +:+ "...");
            EIssuesList gl Assignee user;
            EPrint ("Fetching issues created by " +:+ user +:+ "...");
            EIssuesList gl Author user].
    split; [| reflexivity].
    apply (yields_bind _ _ _ [_; _] [_; _] A).
    { apply (yields_bind _ _ _ [_] [_] tt); [apply yields_print |].
      apply (yields_bind _ _ _ [_] [] A); [apply yields_remote | apply yields_ret]. }
    apply (yields_bind _ _ _ [_] [_] tt); [apply yields_print |].
    apply (yields_bind _ _ _ [_] [] B); [apply yields_remote |].
    rewrite append_new_aggregate. apply yields_ret.
  - rewrite HA. injection HB as <-. unfold aggregate. rewrite filter_nil, app_nil_r.
    exists [EPrint ("Fetching issues assigned to " +:+ user +:+ "...");
            EIssuesList gl Assignee user].
    split; [| reflexivity].
    apply (yields_bind _ _ _ [_; _] [] A); [| apply yields_ret].
    apply (yields_bind _ _ _ [_] [_] tt); [apply yields_print |].
    apply (yields_bind _ _ _ [_] [] A); [apply yields_remote | apply yields_ret].
  - rewrite HB. injection HA as <-.
    exists [EPrint ("Fetching issues created by " +:+ user +:+ "...");
            EIssuesList gl Author user].
    split; [| reflexivity].
    apply (yields_bind _ _ _ [] [_; _] []); [apply yields_ret |].
    apply (yields_bind _ _ _ [_] [_] tt); [apply yields_print |].
    apply (yields_bind _ _ _ [_] [] B); [apply yields_remote |].
    rewrite append_new_aggregate. apply yields_ret.
  - injection HA as <-. injection HB as <-. exists []. split; [| done].
    apply (yields_bind _ _ s [] [] []); apply yields_ret.
Qed.

(** A fetch that reaches the aggregate calls the tracker in this order and no
    more: the project lookup once, the assignee listing if enabled, the author
    listing if enabled, then the notes of each returned issue exactly once, in
    the order of the result. *)
Theorem tracker_calls_in_order W project_url user access_token assignee author
    llm_client provider model project_path A B s :
  parse_project project_url = inr (Some project_path) ->
  projects_get W (connect access_token project_path) = inr tt ->
  listed W (connect access_token project_path) Assignee user assignee = inr A ->
  listed W (connect access_token project_path) Author user author = inr B ->
  exists evs out,
    yields (fetch_issues_by_username W project_url user access_token assignee author
              llm_client provider model) s evs out
    /\ tracker_calls evs
       = EProjectsGet (connect access_token project_path)
         :: (if assignee
             then [EIssuesList (connect access_token project_path) Assignee user] else [])
         ++ (if author
             then [EIssuesList (connect access_token project_path) Author user] else [])
         ++ (ENotesList (connect access_token project_path) <$> (iid <$> out)).
Proof.
  intros Hparse Hget HA HB. set (gl := connect access_token project_path) in *.
  unfold fetch_issues_by_username. rewrite Hparse. fold gl.
  destruct (collect_issues_calls W gl user assignee author A B
              (log s [EProjectsGet gl]) HA HB) as (e2 & Hcollect & Hcalls).
  destruct (yields_for_each (attach_comments W gl llm_client provider model)
              (fetched W gl llm_client provider model) (fun _ => True) (aggregate A B))
    with (s := log (log s [EProjectsGet gl]) e2) as (e3 & out & Hloop & Hout & _).
  { intros issue s0 _.
    destruct (attach_comments_total W gl llm_client provider model issue s0)
      as (evs & cs & Hrun & Hcs & _).
    eexists _, _. split; [exact Hrun |]. split; [by exists cs | by apply Forall_true]. }
  destruct (yields_for_each_events (attach_comments W gl llm_client provider model)
              (fun issue evs =>
                 exists chats,
                   evs = ENotesList gl (iid issue) :: chats /\ chats_of llm_client chats)
              (aggregate A B)) with (s := log (log s [EProjectsGet gl]) e2)
    as (evss & out' & Hloop' & Hevss).
  { intros issue s0.
    destruct (attach_comments_total W gl llm_client provider model issue s0)
      as (evs & cs & Hrun & _ & Hchats).
    eexists _, _. split; [exact Hrun |]. by exists evs. }
  assert (out' = out /\ e3 = concat evss) as [-> ->].
  { unfold yields in Hloop, Hloop'. rewrite Hloop in Hloop'.
    injection Hloop' as Htrace Hout'. split; [done |]. by apply app_inv_head in Htrace. }
  exists ([EProjectsGet gl] ++ e2 ++ concat evss), out. split.
  - apply yields_try. rewrite Hget.
    eapply yields_bind; [apply yields_remote |].
    eapply yields_bind; [exact Hcollect | exact Hloop].
  - unfold tracker_calls in *. rewrite !filter_app, Hcalls.
    fold (tracker_calls (concat evss)).
    rewrite (tracker_calls_threads _ _ _ _ Hevss), (fetched_iids _ _ _ _ _ _ _ Hout).
    cbn. by rewrite <- app_assoc.
Qed.

Lemma tracker_calls_in_order_witness :
  exists evs out,
    yields (fetch_issues_by_username scenario_world "42" "alice" None true false
              None None None) init_state evs out
    /\ tracker_calls evs
       = EProjectsGet (connect None (ProjectId 42))
         :: [EIssuesList (connect None (ProjectId 42)) Assignee "alice"]
         ++ []
         ++ (ENotesList (connect None (ProjectId 42)) <$> (iid <$> out)).
Proof.
  apply (tracker_calls_in_order scenario_world "42" "alice" None true false
           None None None (ProjectId 42)
           [sample_issue 1 None; sample_issue 2 (Some "seen as assignee")] []);
    reflexivity.
Defined.

(** ** Provider setup *)

Lemma missing_key_events (r : option Client * string) lines s :
  yields (_ ← for_each print lines; mret r) s (EPrint <$> lines) r.
Proof.
  destruct (for_each_print_yields lines s) as (out & Hout).
  rewrite <- (app_nil_r (EPrint <$> lines)).
  eapply yields_bind; [exact Hout | apply yields_ret].
Qed.

Lemma setup_branch_cases W provider api_key available label package env_var resolved
    ctor mk hint s :
  exists evs client name,
    yields (setup_branch W provider api_key available label package env_var resolved
              ctor mk hint) s evs (client, name)
    /\ prints evs
    /\ (forall c,
          client = Some c <->
          exists key,
            available = true
            /\ Py.or_else api_key (getenv W env_var) = Some key
            /\ Py.truthy key = true
            /\ (exists u, ctor key = inr u)
            /\ c = mk key)
    /\ (is_Some client -> evs = [] /\ name = resolved)
    /\ (client = None -> evs <> [] /\ name = provider).
Proof.
  unfold setup_branch. destruct available; simpl.
  - destruct (Py.or_else api_key (getenv W env_var)) as [key |] eqn:Hkey.
    + destruct (Py.truthy key) eqn:Htruthy.
      * destruct (ctor key) as [e | u] eqn:Hctor.
        -- eexists [_], None, provider. split; [done |].
           split; [by repeat constructor |]. split; [| by split; [intros [? ?] |]].
           intros c. split; [done |]. intros (k & _ & [= <-] & _ & [u Hu] & _). congruence.
        -- exists [], (Some (mk key)), resolved.
           split; [unfold_M; by rewrite log_nil |].
           split; [constructor |]. split; [| by split].
           intros c. split.
           ++ intros [= <-]. exists key. repeat split; eauto.
           ++ by intros (k & _ & [= <-] & _ & _ & ->).
      * eexists _, None, provider. split.
        { exact (missing_key_events (None, provider)
                   (("Error: " +:+ label +:+ " API key not found. Set " +:+ env_var
                     +:+ " environment variable or use --api-key") :: hint) s). }
        split; [apply prints_fmap |]. split; [| by split; [intros [? ?] |]].
        intros c. split; [done |]. intros (k & _ & [= <-] & Hk & _). congruence.
    + eexists _, None, provider. split.
      { exact (missing_key_events (None, provider)
                 (("Error: " +:+ label +:+ " API key not found. Set " +:+ env_var
                   +:+ " environment variable or use --api-key") :: hint) s). }
      split; [apply prints_fmap |]. split; [| by split; [intros [? ?] |]].
      intros c. split; [done |]. by intros (k & _ & [=] & _).
  - eexists [_], None, provider. split; [done |].
    split; [by repeat constructor |]. split; [| by split; [intros [? ?] |]].
    intros c. split; [done |]. by intros (k & [=] & _).
Qed.

Lemma setup_llm_client_cases W provider api_key s :
  exists evs client name,
    yields (setup_llm_client W provider api_key) s evs (client, name)
    /\ prints evs
    /\ (forall c,
          client = Some c <->
          exists key,
            Py.truthy key = true
            /\ ((Py.lower provider = "groq" /\ GROQ_AVAILABLE W = true
                 /\ Py.or_else api_key (getenv W "GROQ_API_KEY") = Some key
                 /\ (exists u, groq_ctor W key = inr u) /\ c = GroqClient key)
                \/ (Py.lower provider = "openai" /\ OPENAI_AVAILABLE W = true
                    /\ Py.or_else api_key (getenv W "OPENAI_API_KEY") = Some key
                    /\ (exists u, openai_ctor W key = inr u) /\ c = OpenAIClient key)))
    /\ (is_Some client -> evs = [] /\ name = Py.lower provider)
    /\ (client = None -> evs <> [] /\ name = provider).
Proof.
  unfold setup_llm_client.
  destruct (decide (Py.lower provider = "groq")) as [Hgroq | Hgroq];
    [| destruct (decide (Py.lower provider = "openai")) as [Hopenai | Hopenai]].
  - destruct (setup_branch_cases W provider api_key (GROQ_AVAILABLE W) "Groq" "groq"
      "GROQ_API_KEY" "groq" (groq_ctor W) GroqClient
      ["Get your free Groq API key at: https://console.groq.com/keys"] s)
      as (evs & client & name & Hrun & Hp & Hiff & Hok & Hfail).
    exists evs, client, name. split; [done |]. split; [done |].
    split; [| split; [by rewrite Hgroq | done]].
    intros c. rewrite Hiff. split.
    + intros (key & Ha & Hk & Ht & Hc & ->). exists key. split; [done |]. left. by repeat split.
    + intros (key & Ht & [(_ & Ha & Hk & Hc & ->) | (Ho & _)]); [| congruence].
      exists key. by repeat split.
  - destruct (setup_branch_cases W provider api_key (OPENAI_AVAILABLE W) "OpenAI" "openai"
      "OPENAI_API_KEY" "openai" (openai_ctor W) OpenAIClient [] s)
      as (evs & client & name & Hrun & Hp & Hiff & Hok & Hfail).
    exists evs, client, name. split; [done |]. split; [done |].
    split; [| split; [by rewrite Hopenai | done]].
    intros c. rewrite Hiff. split.
    + intros (key & Ha & Hk & Ht & Hc & ->). exists key. split; [done |]. right. by repeat split.
    + intros (key & Ht & [(Hg & _) | (_ & Ha & Hk & Hc & ->)]); [congruence |].
      exists key. by repeat split.
  - eexists [_], None, provider. split; [done |]. split; [by repeat constructor |].
    split; [| by split; [intros [? ?] |]].
    intros c. split; [done |]. by intros (key & _ & [(? & _) | (? & _)]).
Qed.

(** [setup_llm_client] returns a client exactly when the provider name is
    [groq] or [openai] up to case, the package of that provider is installed,
    a non-empty key is found (the argument, else the environment variable of
    the provider) and the constructor accepts it.  It is then silent and
    returns the canonical name; every failure is printed and returns no client
    with the name as it was asked. *)
Theorem setup_llm_client_succeeds_iff W provider api_key s :
  exists evs client name,
    yields (setup_llm_client W provider api_key) s evs (client, name)
    /\ prints evs
    /\ (forall c,
          client = Some c <->
          exists key,
            Py.truthy key = true
            /\ ((Py.lower provider = "groq" /\ GROQ_AVAILABLE W = true
                 /\ Py.or_else api_key (getenv W "GROQ_API_KEY") = Some key
                 /\ (exists u, groq_ctor W key = inr u) /\ c = GroqClient key)
                \/ (Py.lower provider = "openai" /\ OPENAI_AVAILABLE W = true
                    /\ Py.or_else api_key (getenv W "OPENAI_API_KEY") = Some key
                    /\ (exists u, openai_ctor W key = inr u) /\ c = OpenAIClient key)))
    /\ (is_Some client -> evs = [] /\ name = Py.lower provider)
    /\ (client = None -> evs <> [] /\ name = provider).
Proof. apply setup_llm_client_cases. Qed.

(** ** The cached client *)

(** [get_llm_client] returns the client it leaves in the cache; after a
    success a second call returns the same client and name and changes
    nothing, and after a failure the cache holds no client, so that the next
    call tries again. *)
Theorem get_llm_client_caches W s :
  exists s1 client provider,
    get_llm_client W s = (s1, inr (client, provider))
    /\ _llm_client (cache s1) = client
    /\ (is_Some client ->
        _llm_provider (cache s1) = provider
        /\ get_llm_client W s1 = (s1, inr (client, provider))).
Proof.
  unfold get_llm_client at 1, get_cache. unfold_M.
  destruct (_llm_client (cache s)) as [c |] eqn:Hc.
  { exists s, (Some c), (_llm_provider (cache s)). split; [done |]. split; [done |].
    intros _. split; [done |]. by apply get_llm_client_cached. }
  destruct (Py.truthy_opt (getenv W "GROQ_API_KEY")).
  { destruct (setup_llm_client_total W "groq" (getenv W "GROQ_API_KEY") s)
      as (evs & client & name & Hrun & _ & _).
    rewrite Hrun. unfold set_cache. cbn.
    eexists _, client, (Some name). split; [done |]. split; [done |].
    intros [c ->]. split; [done |]. by apply get_llm_client_cached. }
  destruct (Py.truthy_opt (getenv W "OPENAI_API_KEY")).
  { destruct (setup_llm_client_total W "openai" (getenv W "OPENAI_API_KEY") s)
      as (evs & client & name & Hrun & _ & _).
    rewrite Hrun. unfold set_cache. cbn.
    eexists _, client, (Some name). split; [done |]. split; [done |].
    intros [c ->]. split; [done |]. by apply get_llm_client_cached. }
  exists s, None, None. split; [done |]. split; [done |]. by intros [? ?].
Qed.

(** There is no fallback from Groq to OpenAI: when the Groq key is set and
    the Groq package is not installed, the summarize operation reports that
    no provider is available, whatever the OpenAI key and whatever provider
    the caller names, and sends no request. *)
Theorem groq_failure_blocks_openai W data s d ds :
  default [] (s_issues data) = d :: ds ->
  _llm_client (cache s) = None ->
  Py.truthy_opt (getenv W "GROQ_API_KEY") = true ->
  GROQ_AVAILABLE W = false ->
  exists s',
    summarize_logic W data s
    = (s', inr (error_reply "No AI provider available. Set GROQ_API_KEY or OPENAI_API_KEY",
                400%nat))
    /\ exists evs, trace s' = trace s ++ evs /\ prints evs.
Proof.
  intros Hissues Hcache Hkey Hmissing. unfold summarize_logic. rewrite Hissues.
  unfold mbind at 1, M_bind at 1. unfold get_llm_client, get_cache. unfold_M.
  rewrite Hcache, Hkey.
  unfold setup_llm_client, setup_branch. cbn. rewrite Hmissing. cbn.
  eexists. split; [reflexivity |]. eexists [_]. split; [reflexivity | by repeat constructor].
Qed.

Lemma groq_failure_blocks_openai_witness :
  exists s',
    summarize_logic groq_uninstalled_world (summarize_body JAbsent JAbsent (JVal "openai"))
      init_state
    = (s', inr (error_reply "No AI provider available. Set GROQ_API_KEY or OPENAI_API_KEY",
                400%nat))
    /\ exists evs, trace s' = trace init_state ++ evs /\ prints evs.
Proof.
  apply (groq_failure_blocks_openai groq_uninstalled_world
           (summarize_body JAbsent JAbsent (JVal "openai")) init_state commented_issue_data []);
    reflexivity.
Defined.

(** ** The providers endpoint *)

Lemma or_else_same (a : option string) : Py.or_else a a = a.
Proof. unfold Py.or_else. by destruct (Py.truthy_opt a). Qed.

Lemma provider_entry_groq W models cost s :
  exists evs entry,
    yields (provider_entry W "groq" "GROQ_API_KEY" models cost) s evs entry
    /\ prints evs
    /\ (available entry = true <->
        exists key, getenv W "GROQ_API_KEY" = Some key /\ Py.truthy key = true
                    /\ GROQ_AVAILABLE W = true /\ exists u, groq_ctor W key = inr u)
    /\ info_error entry
       = (if Py.truthy_opt (getenv W "GROQ_API_KEY") then None else Some "No API key").
Proof.
  unfold provider_entry. destruct (Py.truthy_opt (getenv W "GROQ_API_KEY")) eqn:Hkey.
  - destruct (setup_llm_client_cases W "groq" (getenv W "GROQ_API_KEY") s)
      as (evs & client & name & Hrun & Hp & Hiff & _).
    rewrite or_else_same in Hiff.
    exists evs. eexists. split.
    { apply yields_try. rewrite <- (app_nil_r evs).
      eapply yields_bind; [exact Hrun | apply yields_ret]. }
    split; [done |]. split; [| done]. cbn. rewrite bool_decide_eq_true. split.
    + intros [c Hc]. apply Hiff in Hc as (key & Ht & [(_ & Ha & Hk & Hu & _) | (Ho & _)]);
        [| done]. by exists key.
    + intros (key & Hk & Ht & Ha & Hu). exists (GroqClient key). apply Hiff.
      exists key. split; [done |]. left. by repeat split.
  - eexists [], _. split; [apply yields_ret |]. split; [constructor |]. split; [| done].
    cbn. split; [done |]. intros (key & Hk & Ht & _). rewrite Hk in Hkey. cbn in Hkey. congruence.
Qed.

Lemma provider_entry_openai W models cost s :
  exists evs entry,
    yields (provider_entry W "openai" "OPENAI_API_KEY" models cost) s evs entry
    /\ prints evs
    /\ (available entry = true <->
        exists key, getenv W "OPENAI_API_KEY" = Some key /\ Py.truthy key = true
                    /\ OPENAI_AVAILABLE W = true /\ exists u, openai_ctor W key = inr u)
    /\ info_error entry
       = (if Py.truthy_opt (getenv W "OPENAI_API_KEY") then None else Some "No API key").
Proof.
  unfold provider_entry. destruct (Py.truthy_opt (getenv W "OPENAI_API_KEY")) eqn:Hkey.
  - destruct (setup_llm_client_cases W "openai" (getenv W "OPENAI_API_KEY") s)
      as (evs & client & name & Hrun & Hp & Hiff & _).
    rewrite or_else_same in Hiff.
    exists evs. eexists. split.
    { apply yields_try. rewrite <- (app_nil_r evs).
      eapply yields_bind; [exact Hrun | apply yields_ret]. }
    split; [done |]. split; [| done]. cbn. rewrite bool_decide_eq_true. split.
    + intros [c Hc]. apply Hiff in Hc as (key & Ht & [(Hg & _) | (_ & Ha & Hk & Hu & _)]);
        [done |]. by exists key.
    + intros (key & Hk & Ht & Ha & Hu). exists (OpenAIClient key). apply Hiff.
      exists key. split; [done |]. right. by repeat split.
  - eexists [], _. split; [apply yields_ret |]. split; [constructor |]. split; [| done].
    cbn. split; [done |]. intros (key & Hk & Ht & _). rewrite Hk in Hkey. cbn in Hkey. congruence.
Qed.

(** The [/providers] endpoint always answers 200 with both entries and leaves
    the cache alone.  A provider is reported available exactly when its key is
    set and non-empty, its package is installed and its constructor accepts
    the key; the only error it ever reports is the missing key, never a failed
    setup.  When it reports Groq available, a summarize operation starting
    from an empty cache resolves a Groq client. *)
Theorem get_providers_reports_setup W s :
  exists evs groq openai,
    yields (get_providers W) s evs (ProvidersList groq openai, 200%nat)
    /\ prints evs
    /\ (available groq = true <->
        exists key, getenv W "GROQ_API_KEY" = Some key /\ Py.truthy key = true
                    /\ GROQ_AVAILABLE W = true /\ exists u, groq_ctor W key = inr u)
    /\ (available openai = true <->
        exists key, getenv W "OPENAI_API_KEY" = Some key /\ Py.truthy key = true
                    /\ OPENAI_AVAILABLE W = true /\ exists u, openai_ctor W key = inr u)
    /\ info_error groq
       = (if Py.truthy_opt (getenv W "GROQ_API_KEY") then None else Some "No API key")
    /\ info_error openai
       = (if Py.truthy_opt (getenv W "OPENAI_API_KEY") then None else Some "No API key")
    /\ (available groq = true ->
        forall s0, _llm_client (cache s0) = None ->
        exists s1 key,
          get_llm_client W s0 = (s1, inr (Some (GroqClient key), Some "groq"))).
Proof.
  destruct (provider_entry_groq W
              ["llama-3.3-70b-versatile"; "llama-3.1-8b-instant"; "llama-3.2-11b-text-preview"]
              "free" s) as (e1 & groq & Hgroq & Hp1 & Hag & Heg).
  destruct (provider_entry_openai W ["gpt-3.5-turbo"; "gpt-4"; "gpt-4o"; "gpt-4-turbo"]
              "paid" (log s e1)) as (e2 & openai & Hopenai & Hp2 & Hao & Heo).
  exists (e1 ++ e2), groq, openai. split.
  { unfold get_providers. apply yields_try.
    eapply yields_bind; [exact Hgroq |].
    rewrite <- (app_nil_r e2). eapply yields_bind; [exact Hopenai | apply yields_ret]. }
  split; [by apply Forall_app_2 |]. do 4 (split; [done |]).
  intros Havail s0 Hcache. apply Hag in Havail as (key & Hk & Ht & Ha & [u Hu]).
  destruct (setup_llm_client_cases W "groq" (Some key) s0)
    as (evs & client & name & Hrun & _ & Hiff & Hok & _).
  assert (client = Some (GroqClient key)) as ->.
  { apply Hiff. exists key. split; [done |]. left. repeat split; eauto.
    unfold Py.or_else. cbn. by rewrite Ht. }
  destruct Hok as [-> ->]; [by eexists |].
  unfold get_llm_client, get_cache. unfold_M. rewrite Hcache, Hk. cbn. rewrite Ht, Hrun.
  cbn. by eexists _, key.
Qed.

(** ** The requests of the summarize operation *)

(** The summarize operation never calls the tracker and sends at most one
    request per issue and one more.  It refuses (status 400) without sending
    a request.  It raises in two cases only: on a [null] provider, before any
    request, and on an issue without an author when individual summaries are
    asked for.  When it answers 200 it reports a non-empty model name, and
    either it sends no request (the provider switch left no client) or it
    sends, through one client and under the model it reports, the request of
    each issue in order when individual summaries are asked for, followed by
    the single request of the collection summary. *)
Theorem summarize_logic_requests W data s :
  let issues := default [] (s_issues data) in
  let individual :=
    bool_decide (jget (s_type data) (Some "collection") = Some "individual") in
  exists s' r evs,
    summarize_logic W data s = (s', r)
    /\ trace s' = trace s ++ evs
    /\ tracker_calls evs = []
    /\ (length (chat_requests evs) <= length issues + 1)%nat
    /\ match r with
       | inr (reply, status) =>
           (status = 400%nat /\ chat_requests evs = [])
           \/ (status = 200%nat
               /\ exists model,
                    r_model reply = Some model /\ Py.truthy model = true
                    /\ (chat_requests evs = []
                        \/ exists c requests,
                             chat_requests evs
                             = pair c <$> (requests
                                           ++ [collection_request model
                                                 (jget (s_query data) (Some ""))
                                                 (MockIssue_init <$> issues)])
                             /\ if individual
                                then Forall2 (individual_request model)
                                       (MockIssue_init <$> issues) requests
                                else requests = []))
       | inl e =>
           (e = AttributeError "NoneType" "lower" /\ s_provider data = JNull
            /\ chat_requests evs = [])
           \/ (e = TypeError_subscript /\ individual = true /\ ~ Forall authored issues)
       end.
Proof.
  intros issues individual.
  destruct (summarize_logic_trace W data s) as (s' & r & evs & Hrun & Htrace & Hcalls & Hlen & Hr).
  exists s', r, evs. do 4 (split; [done |]).
  destruct r as [e | [reply status]]; [| exact Hr].
  destruct Hr as [? | (? & ? & ? & _)]; [by left | by right].
Qed.

(** ** The requests of the fetch *)

Lemma leaves_ret (Q : Event -> Prop) {A} (a : A) : leaves Q (mret a).
Proof. intros s. exists [], (inr a). by rewrite log_nil. Qed.

Lemma leaves_emit (Q : Event -> Prop) e : Q e -> leaves Q (emit e).
Proof. intros He s. exists [e], (inr tt). split; [done | by constructor]. Qed.

Lemma leaves_bind (Q : Event -> Prop) {A B} (m : M A) (f : A -> M B) :
  leaves Q m -> (forall a, leaves Q (f a)) -> leaves Q (m ≫= f).
Proof.
  intros Hm Hf s. destruct (Hm s) as (e1 & [x | a] & Hrun & H1).
  - exists e1, (inl x). unfold mbind, M_bind. by rewrite Hrun.
  - destruct (Hf a (log s e1)) as (e2 & r & Hrun2 & H2).
    exists (e1 ++ e2), r. unfold mbind, M_bind. rewrite Hrun, Hrun2, log_log.
    split; [done | by apply Forall_app_2].
Qed.

Lemma leaves_try (Q : Event -> Prop) {A} (body : M A) handler :
  leaves Q body -> (forall e, leaves Q (handler e)) -> leaves Q (try_except body handler).
Proof.
  intros Hm Hh s. destruct (Hm s) as (e1 & [x | a] & Hrun & H1).
  - destruct (Hh x (log s e1)) as (e2 & r & Hrun2 & H2).
    exists (e1 ++ e2), r. unfold try_except. rewrite Hrun, Hrun2, log_log.
    split; [done | by apply Forall_app_2].
  - exists e1, (inr a). unfold try_except. by rewrite Hrun.
Qed.

Lemma leaves_raise (Q : Event -> Prop) {A} (x : Exn) : leaves Q (raise (A:=A) x).
Proof. intros s. exists [], (inl x). unfold raise. by rewrite log_nil. Qed.

Lemma leaves_remote (Q : Event -> Prop) {A} e (outcome : Exn + A) :
  Q e -> leaves Q (remote e outcome).
Proof.
  intros He. unfold remote. apply leaves_bind; [by apply leaves_emit |].
  intros _. destruct outcome as [x | a]; [apply leaves_raise | apply leaves_ret].
Qed.

(** An endpoint whose handler answers never raises. *)
Lemma try_except_returns {A} (body : M A) (answer : Exn -> A) s :
  exists s' a, try_except body (fun e => mret (answer e)) s = (s', inr a).
Proof. unfold try_except. destruct (body s) as [s' [e | a]]; by eexists _, _. Qed.

Lemma leaves_for_each (Q : Event -> Prop) {A B} (f : A -> M B) xs :
  (forall x, leaves Q (f x)) -> leaves Q (for_each f xs).
Proof.
  intros Hf. induction xs as [| x xs IH]; [apply leaves_ret |].
  cbn [for_each]. apply leaves_bind; [apply Hf |]. intros y.
  apply leaves_bind; [apply IH |]. intros ys. apply leaves_ret.
Qed.

Lemma notes_loop_leaves W llm_client provider model notes comments s :
  exists evs r,
    notes_loop W llm_client provider model notes comments s = (log s evs, r)
    /\ Forall (comment_request llm_client provider) evs.
Proof.
  revert comments s. induction notes as [| note notes IH]; intros comments s.
  - exists [], (comments, None). by rewrite log_nil.
  - cbn [notes_loop].
    destruct (bool_decide (is_Some llm_client) && Py.truthy_opt provider) eqn:Hguard;
      [| apply IH].
    apply andb_prop in Hguard as [Hcl Hp]. apply bool_decide_eq_true in Hcl as [cl ->].
    destruct (summarize_comment_client W (note_id note) (username (note_author note))
                (note_body note) (note_created_at note) None cl provider model s)
      as (text & Hrun & _).
    unfold comment_of_note. rewrite Hrun.
    destruct (IH (comments ++
                    [set_llm_summary
                       (CNote (note_id note) (username (note_author note))
                          (note_body note) (note_created_at note) None) text])
                 (log s [EChat cl
                           (request (model_or_default model provider) comment_system
                              (comment_prompt (username (note_author note))
                                 (note_created_at note) (note_body note)) 80)]))
      as (evs & r & Hloop & Hev).
    rewrite Hloop. eexists (_ :: evs), r. rewrite log_log.
    split; [reflexivity |]. by constructor.
Qed.

Lemma attach_comments_leaves W gl llm_client provider model issue :
  leaves (comment_request llm_client provider)
    (attach_comments W gl llm_client provider model issue).
Proof.
  intros s. unfold attach_comments.
  destruct (notes_list W gl issue) as [e | notes].
  - rewrite remote_raises. eexists [_], _. split; [reflexivity | by constructor].
  - rewrite (yields_remote _ notes s).
    destruct (notes_loop_leaves W llm_client provider model notes []
                (log s [ENotesList gl (iid issue)])) as (evs & [cs [e |]] & Hloop & Hev);
      rewrite Hloop, log_log; eexists (_ :: evs), _; (split; [reflexivity | by constructor]).
Qed.

Lemma fetch_issues_by_username_leaves W project_url user access_token assignee author
    llm_client provider model :
  leaves (comment_request llm_client provider)
    (fetch_issues_by_username W project_url user access_token assignee author
       llm_client provider model).
Proof.
  unfold fetch_issues_by_username.
  destruct (parse_project project_url) as [e | [project_path |]].
  - apply leaves_raise.
  - apply leaves_try.
    + apply leaves_bind; [by apply leaves_remote |]. intros _.
      apply leaves_bind.
      * unfold collect_issues. apply leaves_bind.
        -- destruct assignee; [| apply leaves_ret].
           apply leaves_bind; [by apply leaves_emit |]. intros _.
           apply leaves_bind; [by apply leaves_remote |]. intros ?. apply leaves_ret.
        -- intros issues. destruct author; [| apply leaves_ret].
           apply leaves_bind; [by apply leaves_emit |]. intros _.
           apply leaves_bind; [by apply leaves_remote |]. intros ?. apply leaves_ret.
      * intros issues. apply leaves_for_each. intros issue. apply attach_comments_leaves.
    + intros e. apply leaves_bind; [by apply leaves_emit |]. intros _. apply leaves_ret.
  - apply leaves_bind; [by apply leaves_emit |]. intros _. apply leaves_ret.
Qed.

Lemma chat_requests_comment llm_client provider evs :
  Forall (comment_request llm_client provider) evs ->
  Forall (fun cr => llm_client = Some cr.1 /\ Py.truthy_opt provider = true
                    /\ req_system cr.2 = comment_system /\ req_max_tokens cr.2 = 80%nat)
    (chat_requests evs).
Proof.
  induction 1 as [| e evs He _ IH]; [constructor |].
  destruct e; try exact IH. cbn. by constructor.
Qed.

(** The fetch never touches the client cache.  It returns unless its locator
    is a text of digit characters that [int] rejects, in which case it raises
    before it leaves any event.  Every completion request it sends summarises
    one comment (the comment system prompt, at most 80 tokens), goes through
    the client it was given and is sent only under a non-empty provider name:
    without a client or without a provider the fetch sends none. *)
Theorem fetch_requests_need_client W project_url user access_token assignee author
    llm_client provider model s :
  exists evs r,
    fetch_issues_by_username W project_url user access_token assignee author
      llm_client provider model s = (log s evs, r)
    /\ match r with
       | inl e =>
           e = ValueError_int project_url /\ Py.isdigit project_url = true
           /\ Py.all_decimal project_url = false /\ evs = []
       | inr _ => exists locator, parse_project project_url = inr locator
       end
    /\ Forall (fun cr => llm_client = Some cr.1 /\ Py.truthy_opt provider = true
                         /\ req_system cr.2 = comment_system
                         /\ req_max_tokens cr.2 = 80%nat)
         (chat_requests evs)
    /\ (llm_client = None \/ Py.truthy_opt provider = false -> chat_requests evs = []).
Proof.
  assert (exists evs r,
    fetch_issues_by_username W project_url user access_token assignee author
      llm_client provider model s = (log s evs, r)
    /\ match r with
       | inl e =>
           e = ValueError_int project_url /\ Py.isdigit project_url = true
           /\ Py.all_decimal project_url = false /\ evs = []
       | inr _ => exists locator, parse_project project_url = inr locator
       end) as (evs & r & Hrun & Hcases).
  { pose proof (fetch_issues_by_username_run W project_url user access_token assignee
                  author llm_client provider model s) as Hfetch.
    destruct (parse_project project_url) as [e | locator] eqn:Hparse.
    - exists [], (inl e). rewrite log_nil. split; [done |].
      by destruct (parse_project_raises project_url e Hparse) as (? & ? & ?).
    - destruct Hfetch as (evs & out & Hrun). exists evs, (inr out). split; [done |]. eauto. }
  exists evs, r. split; [done |]. split; [done |].
  assert (Forall (fun cr => llm_client = Some cr.1 /\ Py.truthy_opt provider = true
                            /\ req_system cr.2 = comment_system
                            /\ req_max_tokens cr.2 = 80%nat)
            (chat_requests evs)) as Hreq.
  { apply chat_requests_comment.
    destruct (fetch_issues_by_username_leaves W project_url user access_token assignee
                author llm_client provider model s) as (evs' & r' & Hrun' & HQ).
    rewrite Hrun in Hrun'. injection Hrun' as Hlog _.
    by apply app_inv_head in Hlog as ->. }
  split; [done |]. intros Hnone.
  destruct (chat_requests evs) as [| cr rest]; [done |].
  apply Forall_cons in Hreq as [(Hc & Hp & _) _].
  destruct Hnone as [Hn | Hn]; congruence.
Qed.

Lemma fetch_issues_leaves W body :
  leaves (comment_request None None) (fetch_issues W body).
Proof.
  unfold fetch_issues, with_body. apply leaves_try; [| intros e; apply leaves_ret].
  destruct body as [e | [data |]]; [apply leaves_raise | | apply leaves_ret].
  unfold fetch_issues_logic.
  destruct (b_project_url data) as [project_url |]; [| apply leaves_ret].
  destruct (Py.or_else (b_username data) (b_user data)) as [username |];
    [| apply leaves_ret].
  destruct (Py.truthy project_url && Py.truthy username); [| apply leaves_ret].
  apply leaves_bind; [apply fetch_issues_by_username_leaves |].
  intros issues. apply leaves_ret.
Qed.

(** The [/fetch_issues] endpoint never sends a completion request and never
    touches the client cache, whatever its body: it fetches without a client,
    so the comments it gathers carry no summary request. *)
Theorem fetch_endpoint_sends_no_request W body s :
  exists evs reply status,
    yields (fetch_issues W body) s evs (reply, status)
    /\ chat_requests evs = []
    /\ cache (log s evs) = cache s.
Proof.
  destruct (fetch_issues_leaves W body s) as (evs & r & Hrun & Hev).
  assert (exists reply status, r = inr (reply, status)) as (reply & status & ->).
  { destruct (try_except_returns (with_body body (fetch_issues_logic W))
                (fun e => (error_reply (message e), 500%nat)) s)
      as (s' & [reply status] & Hreturns).
    unfold fetch_issues in Hrun. rewrite Hreturns in Hrun. injection Hrun as _ <-. eauto. }
  exists evs, reply, status. split; [done |]. split; [| done].
  apply chat_requests_comment in Hev.
  destruct (chat_requests evs) as [| cr rest]; [done |].
  by apply Forall_cons in Hev as [(? & _) _].
Qed.
